(** * joycontrol-gui: connection lifecycle of [JoyControlGUI] (src/main.py)

    A shallow embedding of the connection coordinator, the health monitor,
    the input dispatcher and the runtime bridge of [main.py].  The window
    object is a record of its attributes; every method is a computation in
    a small state / exception / trace monad, so that [try ... except] blocks,
    attribute assignments and calls to external collaborators (Qt dialogs,
    asyncio, the joycontrol transport) appear in the order of the source.

    Conventions.
    - Style sheets and layout code are presentation only and are left out;
      the texts of the labels and buttons are kept.
    - Calls on Qt widgets ([setText], [setEnabled], [QTimer.stop]) do not
      raise.  Calls that the source guards against ([is_closing],
      [getpeername], [create_hid_server], [run_coroutine_threadsafe] on a
      closed loop) may raise and are modelled with their failure.
    - A modal dialog ([exec]) returns the user's answer, which is an input
      of the method that opens it. *)

From Stdlib Require Import ZArith Ascii String List Bool.
From stdpp Require Import gmap strings list fin_maps.
Import ListNotations.
Local Open Scope string_scope.

(** ** Python values *)

Module Py.

(** [str.isspace] on the code points below 256. *)
Definition isspace (c : ascii) : bool :=
  let n := N_of_ascii c in
  ((9 <=? n) && (n <=? 13) || (28 <=? n) && (n <=? 32)
   || (n =? 133) || (n =? 160))%N.

Fixpoint lstrip (s : string) : string :=
  match s with
  | EmptyString => EmptyString
  | String c r => if isspace c then lstrip r else s
  end.

Fixpoint rstrip (s : string) : string :=
  match s with
  | EmptyString => EmptyString
  | String c r =>
      match rstrip r with
      | EmptyString => if isspace c then EmptyString else String c EmptyString
      | r' => String c r'
      end
  end.

(** [s.strip()] *)
Definition strip (s : string) : string := rstrip (lstrip s).

(** Truth value of a [str]. *)
Definition truthy (s : string) : bool :=
  match s with EmptyString => false | _ => true end.

(** Truth value of an [Optional[str]]. *)
Definition truthy_opt (o : option string) : bool :=
  match o with Some s => truthy s | None => false end.

(** [s or o] for a [str] on the left and an [Optional[str]] on the right. *)
Definition str_or (s : string) (o : option string) : option string :=
  if truthy s then Some s else o.

(** [o or d] for an [Optional[str]] and a default [str]. *)
Definition opt_or (o : option string) (d : string) : string :=
  match o with
  | Some s => if truthy s then s else d
  | None => d
  end.

(** [str(x)] as used by the f-strings of the source. *)
Definition str_bool (b : bool) : string := if b then "True" else "False".
Definition str_opt (o : option string) : string :=
  match o with Some s => s | None => "None" end.

End Py.

(** ** External collaborators

    The transport, the protocol, the controller state and the asyncio loop
    are objects of joycontrol and asyncio.  Only what [main.py] reads from
    them is kept. *)

(** Result of a call that the source wraps in [try]. *)
Inductive Outcome (A : Type) : Type :=
| Returns (a : A)
| Throws (msg : string).
Arguments Returns {A} a.
Arguments Throws {A} msg.

Record Transport : Type := {
  is_closing : Outcome bool;                    (* transport.is_closing() *)
  has_itr_sock : bool;                          (* hasattr(transport, "_itr_sock") *)
  getpeername : Outcome (option (string * Z))   (* transport._itr_sock.getpeername();
                                                   [None] is a falsy peer_info *)
}.

Record Protocol : Type := {
  transport_is_None : bool                      (* protocol.transport is None *)
}.

Record ControllerState : Type := {
  nfc : option string                           (* tag handed to set_nfc *)
}.

Record Loop : Type := {
  is_closed : bool;                             (* loop.is_closed() *)
  is_running : bool                             (* run_forever() is executing *)
}.

(** Units of work handed to the background loop. *)
Inductive Coro : Type :=
| connect_coro (controller_type : string) (reconnect_addr : option string)
| close_coro                                    (* self.transport.close() *)
| button_press (button_name : string)
| button_release (button_name : string).

(** [concurrent.futures.Future] returned by [run_coroutine_threadsafe]. *)
Inductive Future : Type := future_of (c : Coro).

Module AsyncWorker.
Record t : Type := {
  async_loop : option Loop;
  coro : Coro;
  future : option Future;
  isRunning : bool                            (* QThread.isRunning() *)
}.
End AsyncWorker.

(** [QPushButton]: text and enabled flag. *)
Record QPushButton : Type := { btn_text : string; btn_enabled : bool }.

(** Answer of [PairedSwitchDialog(self)] followed by [exec()]. *)
Inductive DialogAnswer : Type :=
| DialogRaises (msg : string)
| Rejected
| Accepted (start_fresh : bool) (selected_address : option string).

(** ** Observable actions *)

Inductive LogLevel : Type := DEBUG | INFO | WARNING | ERROR.

Inductive Event : Type :=
| Log (lvl : LogLevel) (msg : string)
| MsgCritical (title text : string)             (* QMessageBox.critical *)
| MsgWarning (title text : string)              (* QMessageBox.warning *)
| LostPrompt                                    (* msg_box.exec() of the loss handler *)
| DialogExec                                    (* PairedSwitchDialog(self).exec() *)
| WorkerStart (w : AsyncWorker.t)               (* connection_worker.start() *)
| Submit (c : Coro)                             (* asyncio.run_coroutine_threadsafe *)
| FutureCancel                                  (* connection_worker.future.cancel() *)
| WorkerQuitWait                                (* connection_worker.quit(); .wait() *)
| SingleShot (ms : Z)                           (* QTimer.singleShot(ms, self.auto_reconnect) *)
| CreateHidServer (controller_type : string) (reconnect_bt_addr : option string)
| SetNfc (tag : option string).                 (* controller_state.set_nfc *)

(** ** The window object *)

Record GUI : Type := {
  controller_state : option ControllerState;
  transport : option Transport;
  protocol : option Protocol;
  connected : bool;
  reconnect_address : option string;
  _last_connected_address : option string;
  button_widgets : gmap string bool;            (* name -> is_controller_pressed *)
  button_states : gmap string bool;
  current_amiibo : option string;
  async_loop : option Loop;
  connection_worker : option AsyncWorker.t;
  connection_monitor_timer : bool;              (* QTimer.isActive() *)
  reconnect_entry : string;                     (* QLineEdit text *)
  connection_info : string;                     (* QLabel text *)
  connect_btn : QPushButton;
  amiibo_status : string;
  amiibo_btn : string;
  status_label : string
}.

(** Attribute assignment, one function per attribute: [set_x v] is
    [self.x = v] (for a widget, the call that replaces its content). *)

Definition set_controller_state (v : option ControllerState) (g : GUI) : GUI :=
  {| controller_state := v;
     transport := transport g;
     protocol := protocol g;
     connected := connected g;
     reconnect_address := reconnect_address g;
     _last_connected_address := _last_connected_address g;
     button_widgets := button_widgets g;
     button_states := button_states g;
     current_amiibo := current_amiibo g;
     async_loop := async_loop g;
     connection_worker := connection_worker g;
     connection_monitor_timer := connection_monitor_timer g;
     reconnect_entry := reconnect_entry g;
     connection_info := connection_info g;
     connect_btn := connect_btn g;
     amiibo_status := amiibo_status g;
     amiibo_btn := amiibo_btn g;
     status_label := status_label g |}.

Definition set_transport (v : option Transport) (g : GUI) : GUI :=
  {| controller_state := controller_state g;
     transport := v;
     protocol := protocol g;
     connected := connected g;
     reconnect_address := reconnect_address g;
     _last_connected_address := _last_connected_address g;
     button_widgets := button_widgets g;
     button_states := button_states g;
     current_amiibo := current_amiibo g;
     async_loop := async_loop g;
     connection_worker := connection_worker g;
     connection_monitor_timer := connection_monitor_timer g;
     reconnect_entry := reconnect_entry g;
     connection_info := connection_info g;
     connect_btn := connect_btn g;
     amiibo_status := amiibo_status g;
     amiibo_btn := amiibo_btn g;
     status_label := status_label g |}.

Definition set_protocol (v : option Protocol) (g : GUI) : GUI :=
  {| controller_state := controller_state g;
     transport := transport g;
     protocol := v;
     connected := connected g;
     reconnect_address := reconnect_address g;
     _last_connected_address := _last_connected_address g;
     button_widgets := button_widgets g;
     button_states := button_states g;
     current_amiibo := current_amiibo g;
     async_loop := async_loop g;
     connection_worker := connection_worker g;
     connection_monitor_timer := connection_monitor_timer g;
     reconnect_entry := reconnect_entry g;
     connection_info := connection_info g;
     connect_btn := connect_btn g;
     amiibo_status := amiibo_status g;
     amiibo_btn := amiibo_btn g;
     status_label := status_label g |}.

Definition set_connected (v : bool) (g : GUI) : GUI :=
  {| controller_state := controller_state g;
     transport := transport g;
     protocol := protocol g;
     connected := v;
     reconnect_address := reconnect_address g;
     _last_connected_address := _last_connected_address g;
     button_widgets := button_widgets g;
     button_states := button_states g;
     current_amiibo := current_amiibo g;
     async_loop := async_loop g;
     connection_worker := connection_worker g;
     connection_monitor_timer := connection_monitor_timer g;
     reconnect_entry := reconnect_entry g;
     connection_info := connection_info g;
     connect_btn := connect_btn g;
     amiibo_status := amiibo_status g;
     amiibo_btn := amiibo_btn g;
     status_label := status_label g |}.

Definition set_reconnect_address (v : option string) (g : GUI) : GUI :=
  {| controller_state := controller_state g;
     transport := transport g;
     protocol := protocol g;
     connected := connected g;
     reconnect_address := v;
     _last_connected_address := _last_connected_address g;
     button_widgets := button_widgets g;
     button_states := button_states g;
     current_amiibo := current_amiibo g;
     async_loop := async_loop g;
     connection_worker := connection_worker g;
     connection_monitor_timer := connection_monitor_timer g;
     reconnect_entry := reconnect_entry g;
     connection_info := connection_info g;
     connect_btn := connect_btn g;
     amiibo_status := amiibo_status g;
     amiibo_btn := amiibo_btn g;
     status_label := status_label g |}.

Definition set_last_connected_address (v : option string) (g : GUI) : GUI :=
  {| controller_state := controller_state g;
     transport := transport g;
     protocol := protocol g;
     connected := connected g;
     reconnect_address := reconnect_address g;
     _last_connected_address := v;
     button_widgets := button_widgets g;
     button_states := button_states g;
     current_amiibo := current_amiibo g;
     async_loop := async_loop g;
     connection_worker := connection_worker g;
     connection_monitor_timer := connection_monitor_timer g;
     reconnect_entry := reconnect_entry g;
     connection_info := connection_info g;
     connect_btn := connect_btn g;
     amiibo_status := amiibo_status g;
     amiibo_btn := amiibo_btn g;
     status_label := status_label g |}.

Definition set_button_widgets (v : gmap string bool) (g : GUI) : GUI :=
  {| controller_state := controller_state g;
     transport := transport g;
     protocol := protocol g;
     connected := connected g;
     reconnect_address := reconnect_address g;
     _last_connected_address := _last_connected_address g;
     button_widgets := v;
     button_states := button_states g;
     current_amiibo := current_amiibo g;
     async_loop := async_loop g;
     connection_worker := connection_worker g;
     connection_monitor_timer := connection_monitor_timer g;
     reconnect_entry := reconnect_entry g;
     connection_info := connection_info g;
     connect_btn := connect_btn g;
     amiibo_status := amiibo_status g;
     amiibo_btn := amiibo_btn g;
     status_label := status_label g |}.

Definition set_button_states (v : gmap string bool) (g : GUI) : GUI :=
  {| controller_state := controller_state g;
     transport := transport g;
     protocol := protocol g;
     connected := connected g;
     reconnect_address := reconnect_address g;
     _last_connected_address := _last_connected_address g;
     button_widgets := button_widgets g;
     button_states := v;
     current_amiibo := current_amiibo g;
     async_loop := async_loop g;
     connection_worker := connection_worker g;
     connection_monitor_timer := connection_monitor_timer g;
     reconnect_entry := reconnect_entry g;
     connection_info := connection_info g;
     connect_btn := connect_btn g;
     amiibo_status := amiibo_status g;
     amiibo_btn := amiibo_btn g;
     status_label := status_label g |}.

Definition set_current_amiibo (v : option string) (g : GUI) : GUI :=
  {| controller_state := controller_state g;
     transport := transport g;
     protocol := protocol g;
     connected := connected g;
     reconnect_address := reconnect_address g;
     _last_connected_address := _last_connected_address g;
     button_widgets := button_widgets g;
     button_states := button_states g;
     current_amiibo := v;
     async_loop := async_loop g;
     connection_worker := connection_worker g;
     connection_monitor_timer := connection_monitor_timer g;
     reconnect_entry := reconnect_entry g;
     connection_info := connection_info g;
     connect_btn := connect_btn g;
     amiibo_status := amiibo_status g;
     amiibo_btn := amiibo_btn g;
     status_label := status_label g |}.

Definition set_async_loop (v : option Loop) (g : GUI) : GUI :=
  {| controller_state := controller_state g;
     transport := transport g;
     protocol := protocol g;
     connected := connected g;
     reconnect_address := reconnect_address g;
     _last_connected_address := _last_connected_address g;
     button_widgets := button_widgets g;
     button_states := button_states g;
     current_amiibo := current_amiibo g;
     async_loop := v;
     connection_worker := connection_worker g;
     connection_monitor_timer := connection_monitor_timer g;
     reconnect_entry := reconnect_entry g;
     connection_info := connection_info g;
     connect_btn := connect_btn g;
     amiibo_status := amiibo_status g;
     amiibo_btn := amiibo_btn g;
     status_label := status_label g |}.

Definition set_connection_worker (v : option AsyncWorker.t) (g : GUI) : GUI :=
  {| controller_state := controller_state g;
     transport := transport g;
     protocol := protocol g;
     connected := connected g;
     reconnect_address := reconnect_address g;
     _last_connected_address := _last_connected_address g;
     button_widgets := button_widgets g;
     button_states := button_states g;
     current_amiibo := current_amiibo g;
     async_loop := async_loop g;
     connection_worker := v;
     connection_monitor_timer := connection_monitor_timer g;
     reconnect_entry := reconnect_entry g;
     connection_info := connection_info g;
     connect_btn := connect_btn g;
     amiibo_status := amiibo_status g;
     amiibo_btn := amiibo_btn g;
     status_label := status_label g |}.

Definition set_connection_monitor_timer (v : bool) (g : GUI) : GUI :=
  {| controller_state := controller_state g;
     transport := transport g;
     protocol := protocol g;
     connected := connected g;
     reconnect_address := reconnect_address g;
     _last_connected_address := _last_connected_address g;
     button_widgets := button_widgets g;
     button_states := button_states g;
     current_amiibo := current_amiibo g;
     async_loop := async_loop g;
     connection_worker := connection_worker g;
     connection_monitor_timer := v;
     reconnect_entry := reconnect_entry g;
     connection_info := connection_info g;
     connect_btn := connect_btn g;
     amiibo_status := amiibo_status g;
     amiibo_btn := amiibo_btn g;
     status_label := status_label g |}.

Definition set_reconnect_entry (v : string) (g : GUI) : GUI :=
  {| controller_state := controller_state g;
     transport := transport g;
     protocol := protocol g;
     connected := connected g;
     reconnect_address := reconnect_address g;
     _last_connected_address := _last_connected_address g;
     button_widgets := button_widgets g;
     button_states := button_states g;
     current_amiibo := current_amiibo g;
     async_loop := async_loop g;
     connection_worker := connection_worker g;
     connection_monitor_timer := connection_monitor_timer g;
     reconnect_entry := v;
     connection_info := connection_info g;
     connect_btn := connect_btn g;
     amiibo_status := amiibo_status g;
     amiibo_btn := amiibo_btn g;
     status_label := status_label g |}.

Definition set_connection_info (v : string) (g : GUI) : GUI :=
  {| controller_state := controller_state g;
     transport := transport g;
     protocol := protocol g;
     connected := connected g;
     reconnect_address := reconnect_address g;
     _last_connected_address := _last_connected_address g;
     button_widgets := button_widgets g;
     button_states := button_states g;
     current_amiibo := current_amiibo g;
     async_loop := async_loop g;
     connection_worker := connection_worker g;
     connection_monitor_timer := connection_monitor_timer g;
     reconnect_entry := reconnect_entry g;
     connection_info := v;
     connect_btn := connect_btn g;
     amiibo_status := amiibo_status g;
     amiibo_btn := amiibo_btn g;
     status_label := status_label g |}.

Definition set_connect_btn (v : QPushButton) (g : GUI) : GUI :=
  {| controller_state := controller_state g;
     transport := transport g;
     protocol := protocol g;
     connected := connected g;
     reconnect_address := reconnect_address g;
     _last_connected_address := _last_connected_address g;
     button_widgets := button_widgets g;
     button_states := button_states g;
     current_amiibo := current_amiibo g;
     async_loop := async_loop g;
     connection_worker := connection_worker g;
     connection_monitor_timer := connection_monitor_timer g;
     reconnect_entry := reconnect_entry g;
     connection_info := connection_info g;
     connect_btn := v;
     amiibo_status := amiibo_status g;
     amiibo_btn := amiibo_btn g;
     status_label := status_label g |}.

Definition set_amiibo_status (v : string) (g : GUI) : GUI :=
  {| controller_state := controller_state g;
     transport := transport g;
     protocol := protocol g;
     connected := connected g;
     reconnect_address := reconnect_address g;
     _last_connected_address := _last_connected_address g;
     button_widgets := button_widgets g;
     button_states := button_states g;
     current_amiibo := current_amiibo g;
     async_loop := async_loop g;
     connection_worker := connection_worker g;
     connection_monitor_timer := connection_monitor_timer g;
     reconnect_entry := reconnect_entry g;
     connection_info := connection_info g;
     connect_btn := connect_btn g;
     amiibo_status := v;
     amiibo_btn := amiibo_btn g;
     status_label := status_label g |}.

Definition set_amiibo_btn (v : string) (g : GUI) : GUI :=
  {| controller_state := controller_state g;
     transport := transport g;
     protocol := protocol g;
     connected := connected g;
     reconnect_address := reconnect_address g;
     _last_connected_address := _last_connected_address g;
     button_widgets := button_widgets g;
     button_states := button_states g;
     current_amiibo := current_amiibo g;
     async_loop := async_loop g;
     connection_worker := connection_worker g;
     connection_monitor_timer := connection_monitor_timer g;
     reconnect_entry := reconnect_entry g;
     connection_info := connection_info g;
     connect_btn := connect_btn g;
     amiibo_status := amiibo_status g;
     amiibo_btn := v;
     status_label := status_label g |}.

Definition set_status_label (v : string) (g : GUI) : GUI :=
  {| controller_state := controller_state g;
     transport := transport g;
     protocol := protocol g;
     connected := connected g;
     reconnect_address := reconnect_address g;
     _last_connected_address := _last_connected_address g;
     button_widgets := button_widgets g;
     button_states := button_states g;
     current_amiibo := current_amiibo g;
     async_loop := async_loop g;
     connection_worker := connection_worker g;
     connection_monitor_timer := connection_monitor_timer g;
     reconnect_entry := reconnect_entry g;
     connection_info := connection_info g;
     connect_btn := connect_btn g;
     amiibo_status := amiibo_status g;
     amiibo_btn := amiibo_btn g;
     status_label := v |}.

(** ** The method monad: window state, exceptions, trace *)

Inductive Res (A : Type) : Type :=
| Ok (a : A)
| Exc (msg : string).
Arguments Ok {A} a.
Arguments Exc {A} msg.

Definition M (A : Type) : Type := GUI -> Res A * GUI * list Event.

Definition ret {A} (a : A) : M A := fun g => (Ok a, g, []).

Definition bind {A B} (m : M A) (k : A -> M B) : M B :=
  fun g =>
    match m g with
    | (Ok a, g1, t1) => let '(r, g2, t2) := k a g1 in (r, g2, (t1 ++ t2)%list)
    | (Exc e, g1, t1) => (Exc e, g1, t1)
    end.

Definition raise {A} (e : string) : M A := fun g => (Exc e, g, []).

(** [try: m except Exception as e: h e] *)
Definition try_except {A} (m : M A) (h : string -> M A) : M A :=
  fun g =>
    match m g with
    | (Exc e, g1, t1) => let '(r, g2, t2) := h e g1 in (r, g2, (t1 ++ t2)%list)
    | done => done
    end.

(** [try: m finally: f] *)
Definition try_finally {A} (m : M A) (f : M unit) : M A :=
  fun g =>
    let '(r, g1, t1) := m g in
    match f g1 with
    | (Ok _, g2, t2) => (r, g2, (t1 ++ t2)%list)
    | (Exc e, g2, t2) => (Exc e, g2, (t1 ++ t2)%list)
    end.

Definition get : M GUI := fun g => (Ok g, g, []).
Definition modify (f : GUI -> GUI) : M unit := fun g => (Ok tt, f g, []).
Definition emit (e : Event) : M unit := fun g => (Ok tt, g, [e]).
Definition log (lvl : LogLevel) (msg : string) : M unit := emit (Log lvl msg).
Definition when (b : bool) (m : M unit) : M unit := if b then m else ret tt.

Declare Scope gui_scope.
Delimit Scope gui_scope with gui.
Bind Scope gui_scope with M.
Notation "x <- c ;; k" := (bind c (fun x => k))
  (at level 100, c at next level, k at level 200, right associativity) : gui_scope.
Notation "c ;; k" := (bind c (fun _ => k))
  (at level 100, k at level 200, right associativity) : gui_scope.
Local Open Scope gui_scope.

(** State, result and trace of a run. *)
Definition state_of {A} (r : Res A * GUI * list Event) : GUI := snd (fst r).
Definition result_of {A} (r : Res A * GUI * list Event) : Res A := fst (fst r).
Definition trace_of {A} (r : Res A * GUI * list Event) : list Event := snd r.

(** [QPushButton.setText] and [QPushButton.setEnabled] on [self.connect_btn]. *)
Definition connect_btn_setText (s : string) (g : GUI) : GUI :=
  set_connect_btn {| btn_text := s; btn_enabled := btn_enabled (connect_btn g) |} g.

Definition connect_btn_setEnabled (b : bool) (g : GUI) : GUI :=
  set_connect_btn {| btn_text := btn_text (connect_btn g); btn_enabled := b |} g.

(** [self.button_states[name] = b] and
    [self.button_widgets[name].set_controller_pressed(b)]. *)
Definition button_states_setitem (name : string) (b : bool) (g : GUI) : GUI :=
  set_button_states (<[name := b]> (button_states g)) g.

Definition set_controller_pressed (name : string) (b : bool) (g : GUI) : GUI :=
  set_button_widgets (<[name := b]> (button_widgets g)) g.

(** ** Runtime bridge *)

(** [asyncio.run_coroutine_threadsafe(coro, loop)]: [call_soon_threadsafe]
    refuses a closed loop with [RuntimeError]; otherwise the coroutine is
    queued and a future is returned, whether or not the loop is running. *)
Definition run_coroutine_threadsafe (c : Coro) (loop : Loop) : M Future :=
  if is_closed loop then raise "Event loop is closed"
  else emit (Submit c) ;; ret (future_of c).

(** [JoyControlGUI.run_async] *)
Definition run_async (c : Coro) : M (option Future) :=
  g <- get ;;
  match async_loop g with
  | Some loop => future <- run_coroutine_threadsafe c loop ;; ret (Some future)
  | None => ret None
  end.

(** [self.future = future] inside [AsyncWorker.run]: the worker that runs is
    the object [self.connection_worker] refers to. *)
Definition worker_set_future (future : Future) (g : GUI) : GUI :=
  match connection_worker g with
  | Some w =>
      set_connection_worker
        (Some {| AsyncWorker.async_loop := AsyncWorker.async_loop w;
                 AsyncWorker.coro := AsyncWorker.coro w;
                 AsyncWorker.future := Some future;
                 AsyncWorker.isRunning := AsyncWorker.isRunning w |}) g
  | None => g
  end.

(** What [AsyncWorker.run] ends with: the [finished] signal it emits, or
    [future.result()] waiting for a loop that will never run the work. *)
Inductive RunEnd : Type :=
| Finished (success : bool) (message : string)
| Waits.

(** [AsyncWorker.run]; [exec] is the body of the coroutine as the loop would
    execute it. *)
Definition AsyncWorker_run (exec : Coro -> M unit) (w : AsyncWorker.t) : M RunEnd :=
  try_except
    (match AsyncWorker.async_loop w with
     | Some loop =>
         if negb (is_closed loop) then
           future <- run_coroutine_threadsafe (AsyncWorker.coro w) loop ;;
           modify (worker_set_future future) ;;
           if is_running loop then
             exec (AsyncWorker.coro w) ;;
             ret (Finished true "Success")
           else ret Waits
         else ret (Finished false "Async loop not available")
     | None => ret (Finished false "Async loop not available")
     end)
    (fun e => log ERROR ("AsyncWorker error: " ++ e) ;; ret (Finished false e)).

(** ** Connection coordinator *)

(** Replies of joycontrol to one connection attempt. *)
Record ServerReply : Type := {
  create_hid_server : Outcome (Transport * Protocol * ControllerState);
  controller_state_connect : Outcome unit
}.

(** [JoyControlGUI._connect_async], run on the background loop. *)
Definition _connect_async (ext : ServerReply)
    (controller_type : string) (reconnect_addr : option string) : M unit :=
  try_except
    (emit (CreateHidServer controller_type reconnect_addr) ;;
     match create_hid_server ext with
     | Throws e => raise e
     | Returns (t, p, cs) =>
         modify (set_transport (Some t)) ;;
         modify (set_protocol (Some p)) ;;
         modify (set_controller_state (Some cs)) ;;
         match controller_state_connect ext with
         | Throws e => raise e
         | Returns _ => modify (set_connected true)
         end
     end)
    (fun e => log ERROR ("Async connection error: " ++ e) ;; raise e).

(** The coroutines as the loop runs them; only the connect coroutine touches
    the window object. *)
Definition exec_coro (ext : ServerReply) (c : Coro) : M unit :=
  match c with
  | connect_coro controller_type reconnect_addr =>
      _connect_async ext controller_type reconnect_addr
  | _ => ret tt
  end.

(** [JoyControlGUI.reset_connection_ui] *)
Definition reset_connection_ui : M unit :=
  modify (connect_btn_setText "Connect") ;;
  modify (connect_btn_setEnabled true) ;;
  modify (set_connection_info "Click Connect to choose your Nintendo Switch").

(** [JoyControlGUI.update_amiibo_button] *)
Definition update_amiibo_button : M unit :=
  g <- get ;;
  if Py.truthy_opt (current_amiibo g)
  then modify (set_amiibo_btn "Eject Amiibo")
  else modify (set_amiibo_btn "Load Amiibo").

(** [self.connection_worker.start()] *)
Definition started (w : AsyncWorker.t) : AsyncWorker.t :=
  {| AsyncWorker.async_loop := AsyncWorker.async_loop w;
     AsyncWorker.coro := AsyncWorker.coro w;
     AsyncWorker.future := AsyncWorker.future w;
     AsyncWorker.isRunning := true |}.

Definition worker_start : M unit :=
  g <- get ;;
  match connection_worker g with
  | Some w => modify (set_connection_worker (Some (started w))) ;; emit (WorkerStart w)
  | None => raise "'NoneType' object has no attribute 'start'"
  end.

Section Methods.

(** [os.geteuid()] *)
Variable euid : Z.

(** [JoyControlGUI.show_connection_dialog], given the [connect] method it
    calls back and the user's answer to the dialog. *)
Definition show_connection_dialog_with
    (connect : bool -> M unit) (answer : DialogAnswer) : M unit :=
  try_except
    (emit DialogExec ;;
     match answer with
     | DialogRaises e => raise e
     | Rejected => ret tt
     | Accepted true _ =>
         modify (set_reconnect_address None) ;;
         modify (set_reconnect_entry "") ;;
         connect true
     | Accepted false (Some selected_address) =>
         if Py.truthy selected_address then
           modify (set_reconnect_address (Some selected_address)) ;;
           modify (set_reconnect_entry selected_address) ;;
           connect false
         else ret tt
     | Accepted false None => ret tt
     end)
    (fun e =>
       log ERROR ("Error in connection dialog: " ++ e) ;;
       emit (MsgCritical "Error" ("Failed to show connection dialog: " ++ e))).

(** [JoyControlGUI.connect].  [answers] are the user's answers to the
    dialogs that open during the call, in order; with none left the dialog
    is dismissed. *)
Fixpoint connect (answers : list DialogAnswer) (start_fresh : bool) : M unit :=
  try_except
    (if negb (euid =? 0)%Z then
       emit (MsgCritical "Error" "This application must be run as root!")
     else
       g <- get ;;
       let reconnect_addr :=
         Py.str_or (Py.strip (reconnect_entry g)) (reconnect_address g) in
       if negb (Py.truthy_opt reconnect_addr) && negb start_fresh then
         match answers with
         | answer :: rest => show_connection_dialog_with (connect rest) answer
         | [] => show_connection_dialog_with (fun _ => ret tt) Rejected
         end
       else
         modify (connect_btn_setText "Connecting...") ;;
         modify (connect_btn_setEnabled false) ;;
         modify (set_status_label "Connecting...") ;;
         let controller_type := "PRO_CONTROLLER" in
         let final_reconnect_addr := if start_fresh then None else reconnect_addr in
         log INFO ("Starting connection. Start fresh: " ++ Py.str_bool start_fresh
                   ++ ", Reconnect addr: " ++ Py.str_opt final_reconnect_addr) ;;
         let connection_coro := connect_coro controller_type final_reconnect_addr in
         let worker := {| AsyncWorker.async_loop := async_loop g;
                          AsyncWorker.coro := connection_coro;
                          AsyncWorker.future := None;
                          AsyncWorker.isRunning := false |} in
         modify (set_connection_worker (Some worker)) ;;
         worker_start)
    (fun e =>
       log ERROR ("Connection error: " ++ e) ;;
       emit (MsgCritical "Connection Error" e) ;;
       reset_connection_ui).

(** [JoyControlGUI.show_connection_dialog] *)
Definition show_connection_dialog (answers : list DialogAnswer) : M unit :=
  match answers with
  | answer :: rest => show_connection_dialog_with (connect rest) answer
  | [] => show_connection_dialog_with (fun _ => ret tt) Rejected
  end.

(** [JoyControlGUI.show_startup_dialog] *)
Definition show_startup_dialog (answers : list DialogAnswer) : M unit :=
  try_except
    (emit DialogExec ;;
     match answers with
     | DialogRaises e :: _ => raise e
     | Accepted true _ :: rest =>
         modify (set_reconnect_address None) ;;
         connect rest true
     | Accepted false (Some selected_address) :: rest =>
         if Py.truthy selected_address then
           modify (set_reconnect_address (Some selected_address)) ;;
           modify (set_reconnect_entry selected_address) ;;
           connect rest false
         else ret tt
     | _ => ret tt
     end)
    (fun e => log ERROR ("Error in startup dialog: " ++ e)).

(** [JoyControlGUI.on_connection_finished], the slot of the worker's
    [finished] signal. *)
Definition on_connection_finished (success : bool) (message : string) : M unit :=
  try_finally
    (if success then
       modify (set_status_label "Connected") ;;
       modify (connect_btn_setText "Disconnect") ;;
       modify (connect_btn_setEnabled true) ;;
       addr <-
         try_except
           (g <- get ;;
            match transport g with
            | Some t =>
                if has_itr_sock t then
                  match getpeername t with
                  | Throws e => raise e
                  | Returns (Some (peer, _)) => ret peer
                  | Returns None => ret (Py.opt_or (reconnect_address g) "Unknown")
                  end
                else ret (Py.opt_or (reconnect_address g) "Unknown")
            | None => ret (Py.opt_or (reconnect_address g) "Unknown")
            end)
           (fun e =>
              log DEBUG ("Could not get peer address: " ++ e) ;;
              g <- get ;;
              ret (Py.opt_or (reconnect_address g) "Unknown")) ;;
       when (negb (String.eqb addr "Unknown"))
         (modify (set_last_connected_address (Some addr)) ;;
          log INFO ("Stored address for auto-reconnect: " ++ addr)) ;;
       modify (set_connection_info ("Connected to: " ++ addr)) ;;
       modify (set_connection_monitor_timer true) ;;
       update_amiibo_button
     else
       log ERROR ("Connection failed: " ++ message) ;;
       emit (MsgCritical "Connection Failed" message) ;;
       reset_connection_ui)
    (modify (set_connection_worker None)).

(** [JoyControlGUI.disconnect] *)
Definition disconnect : M unit :=
  try_except
    (modify (set_connection_monitor_timer false) ;;
     g <- get ;;
     match connection_worker g with
     | Some w =>
         when (AsyncWorker.isRunning w)
           (when (bool_decide (is_Some (AsyncWorker.future w))) (emit FutureCancel) ;;
            emit WorkerQuitWait)
     | None => ret tt
     end ;;
     match transport g with
     | Some _ => _ <- run_async close_coro ;; ret tt
     | None => ret tt
     end ;;
     modify (set_connected false) ;;
     modify (set_controller_state None) ;;
     modify (set_transport None) ;;
     modify (set_protocol None) ;;
     modify (set_connection_worker None) ;;
     modify (set_reconnect_address None) ;;
     modify (set_reconnect_entry "") ;;
     modify (set_last_connected_address None) ;;
     reset_connection_ui ;;
     modify (set_status_label "Disconnected") ;;
     modify (set_connection_info "Click Connect to choose your Nintendo Switch"))
    (fun e => log ERROR ("Disconnect error: " ++ e)).

(** [JoyControlGUI.toggle_connection], the slot of the connect button. *)
Definition toggle_connection (answers : list DialogAnswer) : M unit :=
  g <- get ;;
  if connected g then disconnect else connect answers false.

(** ** Health monitor *)

(** The loop of [handle_connection_lost] over
    [self.button_widgets.items()]. *)
Definition release_all_buttons (g : GUI) : GUI :=
  map_fold
    (fun button_name _ g' =>
       button_states_setitem button_name false
         (set_controller_pressed button_name false g'))
    g (button_widgets g).

(** [JoyControlGUI.handle_connection_lost]; [reconnect_clicked] tells
    whether the user leaves the message box through its Reconnect button. *)
Definition handle_connection_lost (reconnect_clicked : bool) : M unit :=
  g <- get ;;
  if negb (connected g) then ret tt
  else
    log INFO "Handling unexpected connection loss" ;;
    modify (set_connected false) ;;
    modify (set_controller_state None) ;;
    modify (set_transport None) ;;
    modify (set_protocol None) ;;
    modify (set_connection_monitor_timer false) ;;
    modify (set_reconnect_address None) ;;
    modify (set_reconnect_entry "") ;;
    log INFO ("Connection lost. Preserved last address: "
              ++ Py.str_opt (_last_connected_address g) ++ " for auto-reconnect") ;;
    reset_connection_ui ;;
    modify (set_status_label "Connection Lost") ;;
    modify (set_connection_info "Connection Lost - Click Connect to Reconnect") ;;
    modify (set_current_amiibo None) ;;
    modify (set_amiibo_status "No amiibo loaded") ;;
    update_amiibo_button ;;
    modify release_all_buttons ;;
    emit LostPrompt ;;
    when reconnect_clicked (emit (SingleShot 100)).

(** [JoyControlGUI.check_connection_status], the slot of the monitor
    timer. *)
Definition check_connection_status (reconnect_clicked : bool) : M unit :=
  g <- get ;;
  if negb (connected g) then ret tt
  else
    try_except
      (if match protocol g with
          | Some p => transport_is_None p
          | None => false
          end
       then
         log WARNING "Connection lost detected - protocol transport is None" ;;
         handle_connection_lost reconnect_clicked
       else
         invalid <-
           match transport g with
           | Some t =>
               match is_closing t with
               | Throws e => raise e
               | Returns closing => ret (closing || negb (has_itr_sock t))
               end
           | None => ret false
           end ;;
         if invalid then
           log WARNING "Connection lost detected - transport is closing or invalid" ;;
           handle_connection_lost reconnect_clicked
         else ret tt)
      (fun e =>
         log ERROR ("Error checking connection status: " ++ e) ;;
         handle_connection_lost reconnect_clicked).

(** [JoyControlGUI.auto_reconnect] *)
Definition auto_reconnect (answers : list DialogAnswer) : M unit :=
  try_except
    (g <- get ;;
     log INFO ("Reconnect called. Last address: "
               ++ Py.str_opt (_last_connected_address g)) ;;
     log INFO ("Current reconnect address: " ++ Py.str_opt (reconnect_address g)) ;;
     match _last_connected_address g with
     | Some last =>
         if Py.truthy last then
           log INFO ("Reconnecting to " ++ last) ;;
           modify (set_reconnect_address (Some last)) ;;
           modify (set_reconnect_entry last) ;;
           connect answers false
         else
           log INFO "No previous address available, showing connection dialog" ;;
           show_connection_dialog answers
     | None =>
         log INFO "No previous address available, showing connection dialog" ;;
         show_connection_dialog answers
     end)
    (fun e =>
       log ERROR ("Error during auto-reconnect: " ++ e) ;;
       emit (MsgCritical "Reconnect Failed" ("Failed to reconnect: " ++ e))).

(** ** Input dispatcher *)

(** [not self.connected or not self.controller_state] *)
Definition not_ready (g : GUI) : bool :=
  negb (connected g) || negb (bool_decide (is_Some (controller_state g))).

(** [JoyControlGUI.on_button_press] *)
Definition on_button_press (button_name : string) : M unit :=
  g <- get ;;
  if not_ready g then ret tt
  else
    try_except
      (modify (button_states_setitem button_name true) ;;
       when (bool_decide (is_Some (button_widgets g !! button_name)))
         (modify (set_controller_pressed button_name true)) ;;
       _ <- run_async (button_press button_name) ;;
       ret tt)
      (fun e =>
         log ERROR ("Error handling button press " ++ button_name ++ ": " ++ e)).

(** [JoyControlGUI.on_button_release] *)
Definition on_button_release (button_name : string) : M unit :=
  g <- get ;;
  if not_ready g then
    when (bool_decide (is_Some (button_widgets g !! button_name)))
      (modify (set_controller_pressed button_name false))
  else
    try_except
      (modify (button_states_setitem button_name false) ;;
       when (bool_decide (is_Some (button_widgets g !! button_name)))
         (modify (set_controller_pressed button_name false)) ;;
       _ <- run_async (button_release button_name) ;;
       ret tt)
      (fun e =>
         log ERROR ("Error handling button release " ++ button_name ++ ": " ++ e)).

End Methods.

(** ** Auxiliary payload *)

(** What the file dialog and the tag loader give to [toggle_amiibo]. *)
Record FileChoice : Type := {
  file_path : string;                 (* QFileDialog.getOpenFileName(...)[0] *)
  file_name : string;                 (* Path(file_path).name *)
  load_amiibo : Outcome string        (* NFCTag.load_amiibo(file_path) *)
}.

(** [self.controller_state.set_nfc(tag)] *)
Definition set_nfc (tag : option string) : M unit :=
  g <- get ;;
  match controller_state g with
  | Some _ => modify (set_controller_state (Some {| nfc := tag |})) ;; emit (SetNfc tag)
  | None => raise "'NoneType' object has no attribute 'set_nfc'"
  end.

(** [JoyControlGUI.toggle_amiibo] *)
Definition toggle_amiibo (choice : FileChoice) : M unit :=
  g <- get ;;
  if not_ready g then
    emit (MsgWarning "Warning" "Please connect to a Nintendo Switch first!")
  else if Py.truthy_opt (current_amiibo g) then
    try_except
      (set_nfc None ;;
       modify (set_current_amiibo None) ;;
       modify (set_amiibo_status "No amiibo loaded") ;;
       update_amiibo_button)
      (fun e =>
         log ERROR ("Error ejecting amiibo: " ++ e) ;;
         emit (MsgCritical "Error" ("Failed to eject amiibo: " ++ e)))
  else if Py.truthy (file_path choice) then
    try_except
      (match load_amiibo choice with
       | Throws e => raise e
       | Returns nfc_tag =>
           set_nfc (Some nfc_tag) ;;
           modify (set_current_amiibo (Some (file_name choice))) ;;
           modify (set_amiibo_status (file_name choice)) ;;
           update_amiibo_button
       end)
      (fun e =>
         log ERROR ("Error loading amiibo: " ++ e) ;;
         emit (MsgCritical "Error" ("Failed to load amiibo: " ++ e)))
  else ret tt.

(** ** Construction *)

(** The names given to [create_button] by [create_pro_controller_layout],
    in the order of the calls. *)
Definition pro_controller_buttons : list string :=
  ["up"; "left"; "right"; "down"; "minus"; "home"; "plus"; "capture";
   "x"; "y"; "b"; "a"; "l"; "zl"; "l_stick"; "r_stick"; "r"; "zr"].

(** [JoyControlGUI.create_button]: a fresh widget, not pressed, and a
    released entry of [button_states]. *)
Definition create_button (button_name : string) (g : GUI) : GUI :=
  button_states_setitem button_name false
    (set_controller_pressed button_name false g).

(** [JoyControlGUI.__init__]; [loop] is what the background thread has
    stored in [self.async_loop] when [setup_async_loop] returns. *)
Definition init (loop : option Loop) : GUI :=
  foldl (fun g button_name => create_button button_name g)
    {| controller_state := None;
       transport := None;
       protocol := None;
       connected := false;
       reconnect_address := None;
       _last_connected_address := None;
       button_widgets := ∅;
       button_states := ∅;
       current_amiibo := None;
       async_loop := loop;
       connection_worker := None;
       connection_monitor_timer := false;
       reconnect_entry := "";
       connection_info := "Click Connect to choose your Nintendo Switch";
       connect_btn := {| btn_text := "Connect"; btn_enabled := true |};
       amiibo_status := "No amiibo loaded";
       amiibo_btn := "Load Amiibo";
       status_label := "Disconnected" |}
    pro_controller_buttons.

(** [main]: the exit code and the printed lines when the process stops
    before the window exists, or the window it creates. *)
Inductive MainResult : Type :=
| Exits (code : Z) (printed : list string)
| Shows (window : GUI).

Definition main (euid : Z) (loop : option Loop) : MainResult :=
  if negb (euid =? 0)%Z then
    Exits 1 ["This application must be run as root!"; "Try: sudo python3 main.py"]
  else Shows (init loop).

(** ** Session view

    The source keeps no state enumeration; the four states of the
    coordinator are read off the attributes. *)

Inductive ConnectionState : Type := Idle | Connecting | Connected | Lost.

Definition connectionState (g : GUI) : ConnectionState :=
  if connected g then Connected
  else if bool_decide (is_Some (connection_worker g)) then Connecting
  else if String.eqb (status_label g) "Connection Lost" then Lost
  else Idle.

(** ** Events of the running program

    What the Qt event loop delivers to the window: clicks, timer shots,
    widget signals, the [finished] signal of the worker, and changes of the
    transport made by the peer. *)

Inductive Action : Type :=
| Startup (answers : list DialogAnswer)          (* singleShot(100, show_startup_dialog) *)
| Click_connect (answers : list DialogAnswer)    (* connect_btn.clicked *)
| Worker_runs (ext : ServerReply)                (* the worker thread runs to its end *)
| Monitor_tick (reconnect_clicked : bool)        (* connection_monitor_timer.timeout *)
| Reconnect_shot (answers : list DialogAnswer)   (* the single shot of the loss handler *)
| Press (button_name : string)                   (* ControllerButton.button_pressed *)
| Release (button_name : string)                 (* ControllerButton.button_released *)
| Amiibo_click (choice : FileChoice)             (* amiibo_btn.clicked *)
| Transport_changes (t : Transport) (p : Protocol).

Definition step (euid : Z) (a : Action) : M unit :=
  g <- get ;;
  match a with
  | Startup answers => show_startup_dialog euid answers
  | Click_connect answers =>
      when (btn_enabled (connect_btn g)) (toggle_connection euid answers)
  | Worker_runs ext =>
      match connection_worker g with
      | Some w =>
          if AsyncWorker.isRunning w then
            r <- AsyncWorker_run (exec_coro ext) w ;;
            match r with
            | Finished success message => on_connection_finished success message
            | Waits => ret tt
            end
          else ret tt
      | None => ret tt
      end
  | Monitor_tick reconnect_clicked =>
      when (connection_monitor_timer g) (check_connection_status reconnect_clicked)
  | Reconnect_shot answers => auto_reconnect euid answers
  | Press button_name =>
      when (bool_decide (is_Some (button_widgets g !! button_name)))
        (on_button_press button_name)
  | Release button_name =>
      when (bool_decide (is_Some (button_widgets g !! button_name)))
        (on_button_release button_name)
  | Amiibo_click choice => toggle_amiibo choice
  | Transport_changes t p =>
      match transport g, protocol g with
      | Some _, Some _ =>
          modify (set_transport (Some t)) ;; modify (set_protocol (Some p))
      | _, _ => ret tt
      end
  end.

(** The window after a sequence of events. *)
Definition run (euid : Z) (actions : list Action) (g : GUI) : GUI :=
  foldl (fun g a => state_of (step euid a g)) g actions.

Inductive reachable (euid : Z) : GUI -> Prop :=
| reach_init loop : reachable euid (init loop)
| reach_step g a : reachable euid g -> reachable euid (state_of (step euid a g)).

(** ** Reading a trace *)

(** Coroutines of the workers started. *)
Definition started_coros (t : list Event) : list Coro :=
  omap (fun e => match e with WorkerStart w => Some (AsyncWorker.coro w) | _ => None end) t.

(** Coroutines handed to [run_coroutine_threadsafe]. *)
Definition submitted (t : list Event) : list Coro :=
  omap (fun e => match e with Submit c => Some c | _ => None end) t.

(** Addresses given to the transport factory. *)
Definition factory_addresses (t : list Event) : list (option string) :=
  omap (fun e => match e with CreateHidServer _ a => Some a | _ => None end) t.




(** ** Invariants of the reachable windows *)

(** [preserves P m]: the method [m] keeps [P] true of the window, whether
    it returns or raises. *)
Definition preserves (P : GUI -> Prop) {A} (m : M A) : Prop :=
  forall g, P g -> P (state_of (m g)).

(** The controller-button set and a map with every entry released. *)
Definition pro_buttons : gset string := list_to_set pro_controller_buttons.

Definition all_released (m : gmap string bool) : gmap string bool :=
  (fun _ => false) <$> m.

(** Both dictionaries are keyed by the controller buttons, and the recorded
    address is never the placeholder of [on_connection_finished]. *)
Definition inv (g : GUI) : Prop :=
  dom (button_widgets g) = pro_buttons
  /\ dom (button_states g) = pro_buttons
  /\ _last_connected_address g <> Some "Unknown".

(** ** Notions used by the statements *)

(** The liveness indicators of the monitor: the protocol has lost its
    transport, the transport is closing, or it has no [_itr_sock]. *)
Definition liveness_failed (g : GUI) : bool :=
  match protocol g with
  | Some p => transport_is_None p
  | None => false
  end
  || match transport g with
     | Some t =>
         match is_closing t with Returns closing => closing | Throws _ => false end
         || negb (has_itr_sock t)
     | None => false
     end.


(** The peer address read from the socket of the transport, when there is
    one to read. *)
Definition peer_name (g : GUI) : option string :=
  match transport g with
  | Some t =>
      if has_itr_sock t then
        match getpeername t with
        | Returns (Some (peer, _)) => Some peer
        | _ => None
        end
      else None
  | None => None
  end.

(** The address [connect] reads back: the stripped entry text, else
    [reconnect_address]. *)
Definition chosen_address (g : GUI) : option string :=
  Py.str_or (Py.strip (reconnect_entry g)) (reconnect_address g).

(** ** Concrete windows *)

Definition running_loop : Loop := {| is_closed := false; is_running := true |}.
Definition stopped_loop : Loop := {| is_closed := false; is_running := false |}.
Definition closed_loop : Loop := {| is_closed := true; is_running := false |}.

Definition switch_transport : Transport :=
  {| is_closing := Returns false;
     has_itr_sock := true;
     getpeername := Returns (Some ("AA:BB:CC:DD:EE:FF", 19%Z)) |}.

Definition switch_reply : ServerReply :=
  {| create_hid_server :=
       Returns (switch_transport, {| transport_is_None := false |}, {| nfc := None |});
     controller_state_connect := Returns tt |}.

Definition mario : FileChoice :=
  {| file_path := "/home/user/mario.bin";
     file_name := "mario.bin";
     load_amiibo := Returns "mario" |}.

(** A connect attempt in flight: the user picked a paired console. *)
Definition connecting : GUI :=
  run 0 [Startup [Accepted false (Some "AA:BB:CC:DD:EE:FF")]] (init (Some running_loop)).

(** A session in use: connected, a tag loaded, button A held down. *)
Definition playing : GUI :=
  run 0 [Worker_runs switch_reply; Amiibo_click mario; Press "a"] connecting.

(** The same session after the transport started closing. *)
Definition dying : GUI :=
  run 0 [Transport_changes
           {| is_closing := Returns true;
              has_itr_sock := true;
              getpeername := Throws "[Errno 107] Transport endpoint is not connected" |}
           {| transport_is_None := false |}] playing.

(** The worker object [connect] builds for an address, and the window it
    leaves behind once the worker is started. *)
Definition connect_worker (g : GUI) (addr : option string) : AsyncWorker.t :=
  {| AsyncWorker.async_loop := async_loop g;
     AsyncWorker.coro := connect_coro "PRO_CONTROLLER" addr;
     AsyncWorker.future := None;
     AsyncWorker.isRunning := false |}.

Definition after_connect (g : GUI) (addr : option string) : GUI :=
  set_connection_worker (Some (started (connect_worker g addr)))
    (set_status_label "Connecting..."
       (connect_btn_setEnabled false (connect_btn_setText "Connecting..." g))).

(** What [connect] reads back when the entry and [reconnect_address] both
    hold the address [a]. *)
Definition entered (a : string) : option string :=
  Py.str_or (Py.strip a) (Some a).

(** The windows in which a monitor tick calls the loss handler: one of the
    indicators is up, or [is_closing] itself raises. *)
Definition monitor_detects (g : GUI) : bool :=
  connected g
  && (liveness_failed g
      || match transport g with
         | Some t => match is_closing t with Throws _ => true | Returns _ => false end
         | None => false
         end).

(** The address [on_connection_finished] shows and records: the peer name
    when it can be read, else [reconnect_address], else the placeholder. *)
Definition resolved_address (g : GUI) : string :=
  match peer_name g with
  | Some peer => peer
  | None => Py.opt_or (reconnect_address g) "Unknown"
  end.

(** A console paired afresh whose socket gives no peer name. *)
Definition nameless_reply : ServerReply :=
  {| create_hid_server :=
       Returns ({| is_closing := Returns false;
                   has_itr_sock := false;
                   getpeername := Throws "no socket" |},
                {| transport_is_None := false |}, {| nfc := None |});
     controller_state_connect := Returns tt |}.

(** ** Notions of the further properties *)

(** The three attributes that make up the connection handle. *)
Definition handle_present (g : GUI) : Prop :=
  is_Some (transport g) /\ is_Some (protocol g) /\ is_Some (controller_state g).

(** A worker made by [connect]. *)
Definition is_connect_worker (w : AsyncWorker.t) : Prop :=
  exists controller_type addr, AsyncWorker.coro w = connect_coro controller_type addr.

(** A connected window has its handle, the monitor timer runs only in a
    connected window, and the stored worker runs a connect coroutine. *)
Definition session_inv (g : GUI) : Prop :=
  (connected g = true -> handle_present g)
  /\ (connection_monitor_timer g = true -> connected g = true)
  /\ (forall w, connection_worker g = Some w -> is_connect_worker w).

(** [returns_ok m]: no exception leaves [m]. *)
Definition returns_ok {A} (m : M A) : Prop :=
  forall g, exists a, result_of (m g) = Ok a.

(** Number of dialogs opened. *)
Definition is_dialog_exec (e : Event) : bool :=
  match e with DialogExec => true | _ => false end.

Definition dialogs_opened (t : list Event) : nat :=
  length (List.filter is_dialog_exec t).

(** The error with which a connection attempt ends, if it fails: that of
    [create_hid_server], else that of [controller_state.connect()]. *)
Definition attempt_error (ext : ServerReply) : option string :=
  match create_hid_server ext with
  | Throws e => Some e
  | Returns _ =>
      match controller_state_connect ext with
      | Throws e => Some e
      | Returns _ => None
      end
  end.

(** A worker that [start()] has put to work on a running loop. *)
Definition at_work (w : AsyncWorker.t) : Prop :=
  AsyncWorker.isRunning w = true
  /\ is_connect_worker w
  /\ exists loop,
       AsyncWorker.async_loop w = Some loop
       /\ is_closed loop = false /\ is_running loop = true.

(** Tags handed to [controller_state.set_nfc]. *)
Definition nfc_calls (t : list Event) : list (option string) :=
  omap (fun e => match e with SetNfc tag => Some tag | _ => None end) t.

(** ** The device dialog

    [PairedSwitchDialog]: the list of paired consoles, the two flags the
    window reads after [exec()], and the slots of its buttons.  What
    BlueZ, [bluetoothctl] and the user answer are inputs of the slots.  A
    slot returns the dialog and what it showed, logged or ran. *)

Module PairedSwitchDialog.

(** [QListWidgetItem]: its text, whether its flags let it be selected, and
    the data stored under [Qt.UserRole]. *)
Record Item : Type := {
  item_text : string;
  selectable : bool;
  data : option string
}.

Record t : Type := {
  selected_address : option string;
  start_fresh : bool;
  devices_group : string;            (* title of the group box *)
  desc : string;                     (* text of the label *)
  devices_list : list Item;
  current_row : option nat;          (* the selected row (single selection) *)
  use_paired_btn : bool;             (* isEnabled() *)
  unpair_btn : bool;                 (* isEnabled() *)
  result : option bool               (* accept() / reject(); [None] while open *)
}.

Inductive DEvent : Type :=
| DLog (lvl : LogLevel) (msg : string)
| Question (title text : string)                (* QMessageBox.question *)
| Information (title text : string)             (* QMessageBox.information *)
| Critical (title text : string)                (* QMessageBox.critical *)
| Subprocess (args : list string).              (* subprocess.run *)

(** [HidDevice().get_paired_switches()], each path with what
    [HidDevice.get_address_of_paired_path] gives for it. *)
Definition Detection : Type := Outcome (list (string * Outcome string)).

(** How [subprocess.run(..., timeout=10)] ends. *)
Inductive RunResult : Type :=
| Completed (returncode : Z) (stdout stderr : string)
| TimeoutExpired
| FileNotFoundError
| OtherError (msg : string).

Definition set_selected_address (v : option string) (d : t) : t :=
  {| selected_address := v; start_fresh := start_fresh d;
     devices_group := devices_group d; desc := desc d;
     devices_list := devices_list d; current_row := current_row d;
     use_paired_btn := use_paired_btn d; unpair_btn := unpair_btn d;
     result := result d |}.

Definition set_start_fresh (v : bool) (d : t) : t :=
  {| selected_address := selected_address d; start_fresh := v;
     devices_group := devices_group d; desc := desc d;
     devices_list := devices_list d; current_row := current_row d;
     use_paired_btn := use_paired_btn d; unpair_btn := unpair_btn d;
     result := result d |}.

Definition set_devices_group (v : string) (d : t) : t :=
  {| selected_address := selected_address d; start_fresh := start_fresh d;
     devices_group := v; desc := desc d;
     devices_list := devices_list d; current_row := current_row d;
     use_paired_btn := use_paired_btn d; unpair_btn := unpair_btn d;
     result := result d |}.

Definition set_desc (v : string) (d : t) : t :=
  {| selected_address := selected_address d; start_fresh := start_fresh d;
     devices_group := devices_group d; desc := v;
     devices_list := devices_list d; current_row := current_row d;
     use_paired_btn := use_paired_btn d; unpair_btn := unpair_btn d;
     result := result d |}.

Definition set_devices_list (v : list Item) (d : t) : t :=
  {| selected_address := selected_address d; start_fresh := start_fresh d;
     devices_group := devices_group d; desc := desc d;
     devices_list := v; current_row := current_row d;
     use_paired_btn := use_paired_btn d; unpair_btn := unpair_btn d;
     result := result d |}.

Definition set_current_row (v : option nat) (d : t) : t :=
  {| selected_address := selected_address d; start_fresh := start_fresh d;
     devices_group := devices_group d; desc := desc d;
     devices_list := devices_list d; current_row := v;
     use_paired_btn := use_paired_btn d; unpair_btn := unpair_btn d;
     result := result d |}.

Definition set_use_paired_btn (v : bool) (d : t) : t :=
  {| selected_address := selected_address d; start_fresh := start_fresh d;
     devices_group := devices_group d; desc := desc d;
     devices_list := devices_list d; current_row := current_row d;
     use_paired_btn := v; unpair_btn := unpair_btn d;
     result := result d |}.

Definition set_unpair_btn (v : bool) (d : t) : t :=
  {| selected_address := selected_address d; start_fresh := start_fresh d;
     devices_group := devices_group d; desc := desc d;
     devices_list := devices_list d; current_row := current_row d;
     use_paired_btn := use_paired_btn d; unpair_btn := v;
     result := result d |}.

Definition set_result (v : option bool) (d : t) : t :=
  {| selected_address := selected_address d; start_fresh := start_fresh d;
     devices_group := devices_group d; desc := desc d;
     devices_list := devices_list d; current_row := current_row d;
     use_paired_btn := use_paired_btn d; unpair_btn := unpair_btn d;
     result := v |}.

(** [self.devices_list.addItem(item)] and [self.devices_list.clear()] *)
Definition addItem (item : Item) (d : t) : t :=
  set_devices_list (devices_list d ++ [item]) d.

Definition clear (d : t) : t :=
  set_current_row None (set_devices_list [] d).

(** [self.devices_list.selectedItems()]: the selected row, when it exists
    and its flags let it be selected. *)
Definition selectedItems (d : t) : list Item :=
  match current_row d with
  | Some row =>
      match devices_list d !! row with
      | Some item => if selectable item then [item] else []
      | None => []
      end
  | None => []
  end.

(** An item that cannot be selected ([Qt.NoItemFlags]) and carries no
    address. *)
Definition notice (text : string) : Item :=
  {| item_text := text; selectable := false; data := None |}.

Definition no_consoles : string :=
  "No paired consoles found. You can pair a new console below:".

(** The loop of [detect_paired_switches] over [paired_switches]: the
    dialog, the number of valid devices added and the warnings logged. *)
Definition add_switches (paths : list (string * Outcome string)) (d : t)
  : t * nat * list DEvent :=
  foldl
    (fun acc path =>
       let '(d, valid_devices_added, log) := acc in
       match path with
       | (switch_path, Returns address) =>
           (addItem {| item_text := "Nintendo Switch - " ++ address;
                       selectable := true;
                       data := Some address |} d,
            S valid_devices_added, log)
       | (switch_path, Throws e) =>
           (d, valid_devices_added,
            log ++ [DLog WARNING ("Could not get address for " ++ switch_path
                                  ++ ": " ++ e)])%list
       end)
    (d, 0, []) paths.

(** [PairedSwitchDialog.detect_paired_switches] *)
Definition detect_paired_switches (det : Detection) (d : t) : t * list DEvent :=
  match det with
  | Throws e =>
      (addItem (notice ("Error: " ++ e))
         (set_desc no_consoles (set_devices_group "Error Detecting Devices" d)),
       [DLog ERROR ("Error detecting paired switches: " ++ e)])
  | Returns [] =>
      (set_use_paired_btn false
         (addItem (notice "No paired Nintendo Switch consoles detected")
            (set_desc no_consoles (set_devices_group "No Paired Consoles Found" d))),
       [])
  | Returns paired_switches =>
      let '(d1, valid_devices_added, log) := add_switches paired_switches d in
      if (0 <? valid_devices_added)%nat then (set_current_row (Some 0) d1, log)
      else
        (set_use_paired_btn false
           (addItem (notice "No valid Nintendo Switch consoles detected")
              (clear (set_desc no_consoles
                        (set_devices_group "No Valid Devices Found" d1)))),
         log)
  end.

(** [PairedSwitchDialog.__init__] *)
Definition init (det : Detection) : t * list DEvent :=
  detect_paired_switches det
    {| selected_address := None;
       start_fresh := false;
       devices_group := "Paired Consoles";
       desc := "Found paired Nintendo Switch devices. Choose how to connect:";
       devices_list := [];
       current_row := None;
       use_paired_btn := false;
       unpair_btn := false;
       result := None |}.

(** [PairedSwitchDialog.on_selection_changed], the slot of
    [itemSelectionChanged]. *)
Definition on_selection_changed (d : t) : t :=
  let has_valid_selection :=
    match selectedItems d with
    | item :: _ => bool_decide (is_Some (data item))
    | [] => false
    end in
  set_unpair_btn has_valid_selection (set_use_paired_btn has_valid_selection d).

(** [PairedSwitchDialog.use_paired_device] *)
Definition use_paired_device (d : t) : t :=
  match selectedItems d with
  | item :: _ =>
      let d1 := set_selected_address (data item) d in
      if Py.truthy_opt (selected_address d1) then set_result (Some true) d1 else d1
  | [] => d
  end.

(** [PairedSwitchDialog.start_fresh_pairing] *)
Definition start_fresh_pairing (d : t) : t :=
  set_result (Some true) (set_start_fresh true d).

(** [QDialog.reject], the slot of the Cancel button. *)
Definition reject (d : t) : t := set_result (Some false) d.

(** The line feed of the message texts. *)
Definition nl : string := String (ascii_of_nat 10) EmptyString.

(** [result.stderr.strip() or result.stdout.strip() or "Unknown error"] *)
Definition error_msg (stdout stderr : string) : string :=
  if Py.truthy (Py.strip stderr) then Py.strip stderr
  else if Py.truthy (Py.strip stdout) then Py.strip stdout
  else "Unknown error".

(** [PairedSwitchDialog.unpair_device]; [yes] is the user's answer to the
    question, [ran] what the command does and [det] what the detection
    finds afterwards. *)
Definition unpair_device (yes : bool) (ran : RunResult) (det : Detection) (d : t)
  : t * list DEvent :=
  match selectedItems d with
  | [] => (d, [])
  | item :: _ =>
      match data item with
      | None => (d, [])
      | Some address =>
          if negb (Py.truthy address) then (d, [])
          else
            let question :=
              Question "Confirm Unpair"
                ("Are you sure you want to unpair Nintendo Switch (" ++ address ++ ")?"
                 ++ nl ++ nl
                 ++ "This will remove the device from your Bluetooth paired devices list.") in
            if negb yes then (d, [question])
            else
              let command := Subprocess ["bluetoothctl"; "remove"; address] in
              match ran with
              | Completed returncode stdout stderr =>
                  if (returncode =? 0)%Z then
                    let '(d1, log) := detect_paired_switches det (clear d) in
                    (d1,
                     [question; command;
                      Information "Success"
                        ("Successfully unpaired Nintendo Switch (" ++ address ++ ")")]
                     ++ log)%list
                  else
                    (d,
                     [question; command;
                      Critical "Unpair Failed"
                        ("Failed to unpair device (" ++ address ++ "):" ++ nl
                         ++ error_msg stdout stderr)])
              | TimeoutExpired =>
                  (d,
                   [question; command;
                    Critical "Timeout Error"
                      "bluetoothctl command timed out. Please try again."])
              | FileNotFoundError =>
                  (d,
                   [question; command;
                    Critical "Error"
                      "bluetoothctl command not found. Please ensure BlueZ is installed."])
              | OtherError e =>
                  (d,
                   [question; command;
                    DLog ERROR ("Error unpairing device: " ++ e);
                    Critical "Error" ("Unexpected error while unpairing: " ++ e)])
              end
      end
  end.

(** What the user and Qt do to the open dialog. *)
Inductive Click : Type :=
| Select (row : nat)                 (* a click on a row of the list *)
| Selection_changed                  (* itemSelectionChanged arrives *)
| Use_selected                       (* "Use Selected Console" *)
| Unpair (yes : bool) (ran : RunResult) (det : Detection)
| Pair_new                           (* "Pair New Console" *)
| Cancel.

(** A closed dialog receives nothing; a row that cannot be selected does
    not become the selection. *)
Definition click (c : Click) (d : t) : t :=
  match result d with
  | Some _ => d
  | None =>
      match c with
      | Select row =>
          match devices_list d !! row with
          | Some item => if selectable item then set_current_row (Some row) d else d
          | None => d
          end
      | Selection_changed => on_selection_changed d
      | Use_selected => use_paired_device d
      | Unpair yes ran det => fst (unpair_device yes ran det d)
      | Pair_new => start_fresh_pairing d
      | Cancel => reject d
      end
  end.

(** The dialog after [__init__] and a sequence of clicks. *)
Definition after (det : Detection) (clicks : list Click) : t :=
  foldl (fun d c => click c d) (fst (init det)) clicks.

(** What the window reads once [exec()] has returned. *)
Definition answer (d : t) : DialogAnswer :=
  match result d with
  | Some true => Accepted (start_fresh d) (selected_address d)
  | _ => Rejected
  end.

(** The addresses that a detection resolves, in the order of the paths. *)
Definition resolved (paths : list (string * Outcome string)) : list string :=
  omap (fun path => match snd path with Returns a => Some a | Throws _ => None end) paths.

End PairedSwitchDialog.

(** The row that [detect_paired_switches] adds for an address. *)
Definition device_row (address : string) : PairedSwitchDialog.Item :=
  {| PairedSwitchDialog.item_text := "Nintendo Switch - " ++ address;
     PairedSwitchDialog.selectable := true;
     PairedSwitchDialog.data := Some address |}.

(** The warnings that [detect_paired_switches] logs for the paths whose
    address cannot be read. *)
Definition lookup_warnings (paths : list (string * Outcome string))
  : list PairedSwitchDialog.DEvent :=
  omap (fun path =>
          match path with
          | (switch_path, Throws e) =>
              Some (PairedSwitchDialog.DLog WARNING
                      ("Could not get address for " ++ switch_path ++ ": " ++ e))
          | (_, Returns _) => None
          end) paths.

(** Commands run and boxes of kind critical shown by a slot of the dialog. *)
Definition commands (t : list PairedSwitchDialog.DEvent) : list (list string) :=
  omap (fun e => match e with PairedSwitchDialog.Subprocess args => Some args | _ => None end) t.

Definition criticals (t : list PairedSwitchDialog.DEvent) : list (string * string) :=
  omap (fun e => match e with
                 | PairedSwitchDialog.Critical title text => Some (title, text)
                 | _ => None
                 end) t.

(** The dialog is accepted only with a choice: "Pair New Console", or an
    address, not empty, that a row of the list carries. *)
Definition chosen (d : PairedSwitchDialog.t) : Prop :=
  PairedSwitchDialog.result d = Some true ->
  PairedSwitchDialog.start_fresh d = true
  \/ exists address item,
       PairedSwitchDialog.selected_address d = Some address /\ address <> ""
       /\ item ∈ PairedSwitchDialog.devices_list d
       /\ PairedSwitchDialog.data item = Some address.

(* ================================================================= *)
(** * Properties *)

(** ** Python helpers *)

Example strip_demo : Py.strip "  AA:BB " = "AA:BB".
Proof. reflexivity. Qed.

Example strip_blank : Py.strip "   " = "".
Proof. reflexivity. Qed.

Lemma truthy_true (s : string) : Py.truthy s = true <-> s <> "".
Proof. destruct s; simpl; split; congruence. Qed.

Lemma str_or_truthy (s : string) (o : option string) :
  s <> "" -> Py.str_or s o = Some s.
Proof. intros H. unfold Py.str_or. apply truthy_true in H. rewrite H. reflexivity. Qed.

Lemma str_or_empty (o : option string) : Py.str_or "" o = o.
Proof. reflexivity. Qed.

Lemma opt_or_unknown (o : option string) :
  Py.opt_or o "Unknown" <> "Unknown" ->
  exists a, o = Some a /\ a <> "" /\ Py.opt_or o "Unknown" = a.
Proof.
  destruct o as [a |]; simpl; [| congruence].
  destruct a as [| c a]; simpl; [congruence |].
  intros _. eexists. split; [reflexivity |]. split; [discriminate | reflexivity].
Qed.

(** ** Running the monad *)

Lemma state_of_get_bind {A} (k : GUI -> M A) (g : GUI) :
  state_of (bind get k g) = state_of (k g g).
Proof. unfold bind, get, state_of. simpl. destruct (k g g) as [[r g2] t2]. reflexivity. Qed.

Section Preservation.
Context (P : GUI -> Prop).

Lemma preserves_ret {A} (a : A) : preserves P (ret a).
Proof. intros g Hg. exact Hg. Qed.

Lemma preserves_raise {A} e : preserves P (@raise A e).
Proof. intros g Hg. exact Hg. Qed.

Lemma preserves_get : preserves P get.
Proof. intros g Hg. exact Hg. Qed.

Lemma preserves_emit e : preserves P (emit e).
Proof. intros g Hg. exact Hg. Qed.

Lemma preserves_log l s : preserves P (log l s).
Proof. apply preserves_emit. Qed.

Lemma preserves_modify f : (forall g, P g -> P (f g)) -> preserves P (modify f).
Proof. intros Hf g Hg. apply Hf, Hg. Qed.

Lemma preserves_bind {A B} (m : M A) (k : A -> M B) :
  preserves P m -> (forall a, preserves P (k a)) -> preserves P (bind m k).
Proof.
  intros Hm Hk g Hg. specialize (Hm g Hg). unfold bind, state_of in *.
  destruct (m g) as [[[a | e] g1] t1]; simpl in *; [| exact Hm].
  specialize (Hk a g1 Hm). unfold state_of in Hk.
  destruct (k a g1) as [[r g2] t2]. exact Hk.
Qed.

Lemma preserves_try_except {A} (m : M A) (h : string -> M A) :
  preserves P m -> (forall e, preserves P (h e)) -> preserves P (try_except m h).
Proof.
  intros Hm Hh g Hg. specialize (Hm g Hg). unfold try_except, state_of in *.
  destruct (m g) as [[[a | e] g1] t1]; simpl in *; [exact Hm |].
  specialize (Hh e g1 Hm). unfold state_of in Hh.
  destruct (h e g1) as [[r g2] t2]. exact Hh.
Qed.

Lemma preserves_try_finally {A} (m : M A) (f : M unit) :
  preserves P m -> preserves P f -> preserves P (try_finally m f).
Proof.
  intros Hm Hf g Hg. specialize (Hm g Hg). unfold try_finally, state_of in *.
  destruct (m g) as [[r g1] t1]; simpl in *.
  specialize (Hf g1 Hm). unfold state_of in Hf.
  destruct (f g1) as [[[[] | e] g2] t2]; exact Hf.
Qed.

Lemma preserves_when b m : (b = true -> preserves P m) -> preserves P (when b m).
Proof. intros Hm. destruct b; [apply Hm; reflexivity | apply preserves_ret]. Qed.
End Preservation.

Create HintDb gui_inv.

(** One syntax-directed step of a preservation proof; what is left are the
    attribute assignments. *)
Ltac preserve_step :=
  lazymatch goal with
  | |- preserves _ (ret _) => apply preserves_ret
  | |- preserves _ (raise _) => apply preserves_raise
  | |- preserves _ get => apply preserves_get
  | |- preserves _ (emit _) => apply preserves_emit
  | |- preserves _ (log _ _) => apply preserves_log
  | |- preserves _ (bind _ _) => apply preserves_bind; [| intros ?]
  | |- preserves _ (try_except _ _) => apply preserves_try_except; [| intros ?]
  | |- preserves _ (try_finally _ _) => apply preserves_try_finally
  | |- preserves _ (when _ _) => apply preserves_when; intros ?
  | |- preserves _ (modify _) => apply preserves_modify; intros ? ?
  | |- preserves _ (match ?x with _ => _ end) => first [destruct x eqn:? | destruct x]
  | |- preserves _ _ => solve [auto with gui_inv]
  end.

Ltac preserve := repeat preserve_step.

(** ** The button dictionaries *)

Lemma set_buttons_id g :
  set_button_states (button_states g) (set_button_widgets (button_widgets g) g) = g.
Proof. destruct g; reflexivity. Qed.

Lemma release_all_buttons_eq (g : GUI) :
  release_all_buttons g
  = set_button_states (all_released (button_widgets g) ∪ button_states g)
      (set_button_widgets (all_released (button_widgets g)) g).
Proof.
  unfold release_all_buttons.
  transitivity
    (set_button_states (all_released (button_widgets g) ∪ button_states g)
       (set_button_widgets (all_released (button_widgets g) ∪ button_widgets g) g)).
  - apply (map_fold_weak_ind
             (fun r m =>
                r = set_button_states (all_released m ∪ button_states g)
                      (set_button_widgets (all_released m ∪ button_widgets g) g))).
    + unfold all_released. rewrite fmap_empty, !(left_id_L ∅ (∪)).
      symmetry. apply set_buttons_id.
    + intros i x m r _ ->. unfold all_released.
      rewrite fmap_insert, <- !insert_union_l. reflexivity.
  - f_equal. f_equal. apply map_eq. intros i. unfold all_released.
    rewrite lookup_union, lookup_fmap. destruct (button_widgets g !! i); reflexivity.
Qed.

Lemma all_released_lookup (m : gmap string bool) (i : string) (b : bool) :
  all_released m !! i = Some b -> b = false.
Proof.
  unfold all_released. rewrite lookup_fmap. destruct (m !! i); simpl; congruence.
Qed.

Lemma dom_all_released (m : gmap string bool) : dom (all_released m) = dom m.
Proof. unfold all_released. apply dom_fmap_L. Qed.

(** ** Preservation of the invariant *)

Ltac frame := 
  match goal with
  | H : inv ?g |- inv _ => exact H
  end.

Lemma inv_reset_connection_ui : preserves inv reset_connection_ui.
Proof. unfold reset_connection_ui. preserve; frame. Qed.
#[local] Hint Resolve inv_reset_connection_ui : gui_inv.

Lemma inv_update_amiibo_button : preserves inv update_amiibo_button.
Proof. unfold update_amiibo_button. preserve; frame. Qed.
#[local] Hint Resolve inv_update_amiibo_button : gui_inv.

Lemma inv_worker_start : preserves inv worker_start.
Proof. unfold worker_start. preserve; frame. Qed.
#[local] Hint Resolve inv_worker_start : gui_inv.

Lemma inv_run_async c : preserves inv (run_async c).
Proof. unfold run_async, run_coroutine_threadsafe. preserve; frame. Qed.
#[local] Hint Resolve inv_run_async : gui_inv.

Lemma inv_set_nfc tag : preserves inv (set_nfc tag).
Proof. unfold set_nfc. preserve; frame. Qed.
#[local] Hint Resolve inv_set_nfc : gui_inv.

Lemma inv_show_connection_dialog_with k answer :
  (forall b, preserves inv (k b)) ->
  preserves inv (show_connection_dialog_with k answer).
Proof. intros Hk. unfold show_connection_dialog_with. preserve; frame. Qed.

Lemma inv_connect euid answers start_fresh :
  preserves inv (connect euid answers start_fresh).
Proof.
  revert start_fresh. induction answers as [| answer rest IH]; intros start_fresh;
    cbn [connect]; preserve; try frame.
  apply inv_show_connection_dialog_with. exact IH.
Qed.
#[local] Hint Resolve inv_connect : gui_inv.

Lemma inv_show_connection_dialog euid answers :
  preserves inv (show_connection_dialog euid answers).
Proof.
  destruct answers; cbn [show_connection_dialog];
    apply inv_show_connection_dialog_with; intros b; auto with gui_inv.
Qed.
#[local] Hint Resolve inv_show_connection_dialog : gui_inv.

Lemma inv_show_startup_dialog euid answers :
  preserves inv (show_startup_dialog euid answers).
Proof. unfold show_startup_dialog. preserve; frame. Qed.
#[local] Hint Resolve inv_show_startup_dialog : gui_inv.

Lemma inv_connect_async ext controller_type reconnect_addr :
  preserves inv (_connect_async ext controller_type reconnect_addr).
Proof. unfold _connect_async. preserve; frame. Qed.

Lemma inv_exec_coro ext c : preserves inv (exec_coro ext c).
Proof. destruct c; simpl; [apply inv_connect_async | apply preserves_ret ..]. Qed.
#[local] Hint Resolve inv_exec_coro : gui_inv.

Lemma inv_worker_set_future future g : inv g -> inv (worker_set_future future g).
Proof. unfold worker_set_future. destruct (connection_worker g); intros H; exact H. Qed.

Lemma inv_AsyncWorker_run exec w :
  (forall c, preserves inv (exec c)) -> preserves inv (AsyncWorker_run exec w).
Proof.
  intros Hexec. unfold AsyncWorker_run, run_coroutine_threadsafe.
  preserve; try frame; auto using inv_worker_set_future.
Qed.

Lemma inv_on_connection_finished success message :
  preserves inv (on_connection_finished success message).
Proof.
  unfold on_connection_finished. preserve; try frame.
  match goal with H : inv _ |- _ => destruct H as (Hw & Hs & _) end.
  repeat split; [exact Hw | exact Hs |]. simpl.
  match goal with H : negb (String.eqb ?a _) = true |- _ =>
    apply negb_true_iff, String.eqb_neq in H; congruence end.
Qed.
#[local] Hint Resolve inv_on_connection_finished : gui_inv.

Lemma inv_disconnect : preserves inv disconnect.
Proof.
  unfold disconnect. preserve; try frame.
  match goal with H : inv _ |- _ => destruct H as (Hw & Hs & _) end.
  repeat split; [exact Hw | exact Hs | discriminate].
Qed.
#[local] Hint Resolve inv_disconnect : gui_inv.

Lemma inv_toggle_connection euid answers :
  preserves inv (toggle_connection euid answers).
Proof. unfold toggle_connection. preserve. Qed.
#[local] Hint Resolve inv_toggle_connection : gui_inv.

Lemma inv_release_all_buttons g : inv g -> inv (release_all_buttons g).
Proof.
  intros (Hw & Hs & Ha). rewrite release_all_buttons_eq. repeat split; simpl.
  - rewrite dom_all_released. exact Hw.
  - rewrite dom_union_L, dom_all_released, Hw, Hs. apply union_idemp_L.
  - exact Ha.
Qed.

Lemma inv_handle_connection_lost reconnect_clicked :
  preserves inv (handle_connection_lost reconnect_clicked).
Proof.
  unfold handle_connection_lost. preserve; try frame.
  apply inv_release_all_buttons. assumption.
Qed.
#[local] Hint Resolve inv_handle_connection_lost : gui_inv.

Lemma inv_check_connection_status reconnect_clicked :
  preserves inv (check_connection_status reconnect_clicked).
Proof. unfold check_connection_status. preserve. Qed.
#[local] Hint Resolve inv_check_connection_status : gui_inv.

Lemma inv_auto_reconnect euid answers : preserves inv (auto_reconnect euid answers).
Proof. unfold auto_reconnect. preserve; frame. Qed.
#[local] Hint Resolve inv_auto_reconnect : gui_inv.

Lemma inv_setitem name b g :
  name ∈ pro_buttons -> inv g -> inv (button_states_setitem name b g).
Proof.
  intros Hn (Hw & Hs & Ha). repeat split; simpl; [exact Hw | | exact Ha].
  rewrite dom_insert_L, Hs.
  apply subseteq_union_1_L, singleton_subseteq_l, Hn.
Qed.

Lemma inv_set_controller_pressed name b g :
  name ∈ pro_buttons -> inv g -> inv (set_controller_pressed name b g).
Proof.
  intros Hn (Hw & Hs & Ha). repeat split; simpl; [| exact Hs | exact Ha].
  rewrite dom_insert_L, Hw.
  apply subseteq_union_1_L, singleton_subseteq_l, Hn.
Qed.

Lemma inv_on_button_press name :
  name ∈ pro_buttons -> preserves inv (on_button_press name).
Proof.
  intros Hn. unfold on_button_press. preserve;
    auto using inv_setitem, inv_set_controller_pressed.
Qed.

Lemma inv_on_button_release name :
  name ∈ pro_buttons -> preserves inv (on_button_release name).
Proof.
  intros Hn. unfold on_button_release. preserve;
    auto using inv_setitem, inv_set_controller_pressed.
Qed.

Lemma inv_toggle_amiibo choice : preserves inv (toggle_amiibo choice).
Proof. unfold toggle_amiibo. preserve; frame. Qed.
#[local] Hint Resolve inv_toggle_amiibo : gui_inv.

Lemma inv_init loop : inv (init loop).
Proof. repeat split; [vm_compute; reflexivity .. | discriminate]. Qed.

Lemma widget_is_button g name :
  inv g -> is_Some (button_widgets g !! name) -> name ∈ pro_buttons.
Proof. intros (Hw & _) H. rewrite <- Hw. apply elem_of_dom. exact H. Qed.

Lemma inv_step euid a : preserves inv (step euid a).
Proof.
  intros g Hg. unfold step. rewrite state_of_get_bind. revert Hg.
  destruct a as [answers | answers | ext | rc | answers | name | name | choice | t p].
  - apply inv_show_startup_dialog.
  - apply preserves_when. intros _. apply inv_toggle_connection.
  - destruct (connection_worker g) as [w |]; [| apply preserves_ret].
    destruct (AsyncWorker.isRunning w); [| apply preserves_ret].
    apply preserves_bind; [apply inv_AsyncWorker_run, inv_exec_coro |].
    intros [success message |]; [apply inv_on_connection_finished | apply preserves_ret].
  - apply preserves_when. intros _. apply inv_check_connection_status.
  - apply inv_auto_reconnect.
  - intros Hg. destruct (bool_decide _) eqn:Hn; [| exact Hg].
    apply bool_decide_eq_true in Hn.
    apply inv_on_button_press; [eapply widget_is_button; eauto | exact Hg].
  - intros Hg. destruct (bool_decide _) eqn:Hn; [| exact Hg].
    apply bool_decide_eq_true in Hn.
    apply inv_on_button_release; [eapply widget_is_button; eauto | exact Hg].
  - apply inv_toggle_amiibo.
  - intros Hg. destruct (transport g), (protocol g); exact Hg.
Qed.

Lemma reachable_inv euid g : reachable euid g -> inv g.
Proof.
  induction 1 as [loop | g a _ IH]; [apply inv_init | apply inv_step, IH].
Qed.

(** ** Concrete windows are reachable *)

Lemma run_reachable euid actions g : reachable euid g -> reachable euid (run euid actions g).
Proof.
  revert g. induction actions as [| a rest IH]; intros g Hg; simpl; [exact Hg |].
  apply IH. constructor. exact Hg.
Qed.

Lemma connecting_reachable : reachable 0 connecting.
Proof. apply run_reachable. constructor. Qed.

Lemma playing_reachable : reachable 0 playing.
Proof. apply run_reachable, connecting_reachable. Qed.

Lemma dying_reachable : reachable 0 dying.
Proof. apply run_reachable, playing_reachable. Qed.

Example playing_view :
  connectionState playing = Connected
  /\ _last_connected_address playing = Some "AA:BB:CC:DD:EE:FF"
  /\ current_amiibo playing = Some "mario.bin"
  /\ button_states playing !! "a" = Some true
  /\ button_widgets playing !! "a" = Some true
  /\ connection_monitor_timer playing = true.
Proof. vm_compute. repeat split. Qed.

(** In every window the program can reach, [button_states] has exactly the
    keys of [button_widgets]. *)
Lemma reachable_button_keys euid g :
  reachable euid g -> dom (button_states g) = dom (button_widgets g).
Proof. intros H. apply reachable_inv in H as (Hw & Hs & _). congruence. Qed.

(** ** Loss of the connection *)

Lemma handle_connection_lost_state (g : GUI) (reconnect_clicked : bool) :
  connected g = true ->
  state_of (handle_connection_lost reconnect_clicked g)
  = release_all_buttons
      (set_amiibo_btn "Load Amiibo"
         (set_amiibo_status "No amiibo loaded"
            (set_current_amiibo None
               (set_connection_info "Connection Lost - Click Connect to Reconnect"
                  (set_status_label "Connection Lost"
                     (set_connection_info "Click Connect to choose your Nintendo Switch"
                        (connect_btn_setEnabled true
                           (connect_btn_setText "Connect"
                              (set_reconnect_entry ""
                                 (set_reconnect_address None
                                    (set_connection_monitor_timer false
                                       (set_protocol None
                                          (set_transport None
                                             (set_controller_state None
                                                (set_connected false g))))))))))))))).
Proof.
  intros H. unfold handle_connection_lost, bind, get. rewrite H.
  destruct reconnect_clicked; reflexivity.
Qed.

Lemma handle_connection_lost_idle (g : GUI) (reconnect_clicked : bool) :
  connected g = false ->
  handle_connection_lost reconnect_clicked g = (Ok tt, g, []).
Proof. intros H. unfold handle_connection_lost, bind, get. rewrite H. reflexivity. Qed.

(** C1. In a Connected window the loss handler keeps
    [_last_connected_address], drops the connection handle
    ([transport], [protocol], [controller_state]) and the loaded tag, stops
    the monitor timer, and sets every entry of [button_states] (and every
    widget) to released.  The keys of [button_states] are those of the
    button widgets, as in every reachable window. *)
Theorem loss_preserves_address_and_resets (g : GUI) (reconnect_clicked : bool) :
  connected g = true ->
  dom (button_states g) ⊆ dom (button_widgets g) ->
  let g' := state_of (handle_connection_lost reconnect_clicked g) in
  _last_connected_address g' = _last_connected_address g
  /\ transport g' = None /\ protocol g' = None /\ controller_state g' = None
  /\ current_amiibo g' = None
  /\ connection_monitor_timer g' = false
  /\ connected g' = false
  /\ (forall name, name ∈ dom (button_states g) -> button_states g' !! name = Some false)
  /\ (forall name b, button_states g' !! name = Some b -> b = false)
  /\ (forall name b, button_widgets g' !! name = Some b -> b = false).
Proof.
  intros Hc Hkeys g'. subst g'.
  rewrite (handle_connection_lost_state _ _ Hc), release_all_buttons_eq. simpl.
  repeat split.
  - intros name Hn. apply Hkeys, elem_of_dom in Hn as [b Hb].
    apply lookup_union_Some_l. unfold all_released. rewrite lookup_fmap, Hb. reflexivity.
  - intros name b Hb. apply lookup_union_Some_raw in Hb as [Hb | [Hnone Hb]].
    + eapply all_released_lookup, Hb.
    + exfalso. assert (Hd : name ∈ dom (button_widgets g)).
      { apply Hkeys, elem_of_dom. eauto. }
      apply elem_of_dom in Hd as [w Hw]. unfold all_released in Hnone.
      rewrite lookup_fmap, Hw in Hnone. discriminate.
  - intros name b Hb. eapply all_released_lookup, Hb.
Qed.

Lemma loss_preserves_address_and_resets_witness :
  _last_connected_address (state_of (handle_connection_lost true playing))
  = Some "AA:BB:CC:DD:EE:FF"
  /\ button_states (state_of (handle_connection_lost true playing)) !! "a" = Some false.
Proof.
  assert (Hc : connected playing = true) by reflexivity.
  assert (Hk : dom (button_states playing) ⊆ dom (button_widgets playing)).
  { apply (bool_decide_unpack _). vm_compute. exact I. }
  destruct (loss_preserves_address_and_resets playing true Hc Hk)
    as (Ha & _ & _ & _ & _ & _ & _ & Hs & _).
  split.
  - rewrite Ha. reflexivity.
  - apply Hs. apply elem_of_dom. exists true. reflexivity.
Defined.

(** ** [connect] *)

Lemma connect_not_root euid answers start_fresh g :
  euid <> 0%Z ->
  connect euid answers start_fresh g
  = (Ok tt, g, [MsgCritical "Error" "This application must be run as root!"]).
Proof.
  intros H. apply Z.eqb_neq in H.
  destruct answers; cbn [connect]; unfold try_except; rewrite H; reflexivity.
Qed.

Lemma connect_starts answers start_fresh g :
  start_fresh = true \/ Py.truthy_opt (chosen_address g) = true ->
  let addr := if start_fresh then None else chosen_address g in
  connect 0 answers start_fresh g
  = (Ok tt, after_connect g addr,
     [Log INFO ("Starting connection. Start fresh: " ++ Py.str_bool start_fresh
                ++ ", Reconnect addr: " ++ Py.str_opt addr);
      WorkerStart (connect_worker g addr)]).
Proof.
  intros H addr.
  assert (Hc : negb (Py.truthy_opt (chosen_address g)) && negb start_fresh = false).
  { destruct H as [-> | ->]; [apply andb_false_r | reflexivity]. }
  unfold chosen_address in Hc.
  destruct answers; cbn [connect]; unfold try_except, bind, get; simpl; rewrite Hc;
    reflexivity.
Qed.

(** A run of [_connect_async] hands its address argument to the transport
    factory, once. *)
Lemma connect_async_factory ext controller_type addr g :
  factory_addresses (trace_of (_connect_async ext controller_type addr g)) = [addr].
Proof.
  unfold _connect_async, try_except, bind, emit. simpl.
  destruct (create_hid_server ext) as [[[t p] cs] | e]; simpl; [| reflexivity].
  destruct (controller_state_connect ext) as [[] | e]; reflexivity.
Qed.

(** C9. The privilege check is the first thing [connect] does: when the
    effective user id is not 0 the call shows the error box and returns,
    the window is unchanged and no worker is started; [main] makes the same
    check before it creates the window. *)
Theorem connect_requires_root (euid : Z) (answers : list DialogAnswer)
    (start_fresh : bool) (g : GUI) (loop : option Loop) :
  euid <> 0%Z ->
  connect euid answers start_fresh g
  = (Ok tt, g, [MsgCritical "Error" "This application must be run as root!"])
  /\ started_coros (trace_of (connect euid answers start_fresh g)) = []
  /\ connectionState (state_of (connect euid answers start_fresh g)) = connectionState g
  /\ main euid loop
     = Exits 1 ["This application must be run as root!"; "Try: sudo python3 main.py"].
Proof.
  intros H. rewrite (connect_not_root _ _ _ _ H). repeat split.
  unfold main. apply Z.eqb_neq in H. rewrite H. reflexivity.
Qed.

Lemma connect_requires_root_witness :
  connect 1000 [] true connecting
  = (Ok tt, connecting, [MsgCritical "Error" "This application must be run as root!"]).
Proof.
  apply (connect_requires_root 1000 [] true connecting None). lia.
Defined.

(** ** [auto_reconnect] *)

Lemma run_get_bind {A} (k : GUI -> M A) (g : GUI) : bind get k g = k g g.
Proof. unfold bind, get. destruct (k g g) as [[r g2] t2]. reflexivity. Qed.

Lemma run_ret_bind {A B} (a : A) (k : A -> M B) (g : GUI) : bind (ret a) k g = k a g.
Proof. unfold bind, ret. destruct (k a g) as [[r g2] t2]. reflexivity. Qed.

Lemma run_modify_bind {A} (f : GUI -> GUI) (k : unit -> M A) (g : GUI) :
  bind (modify f) k g = k tt (f g).
Proof. unfold bind, modify. destruct (k tt (f g)) as [[r g2] t2]. reflexivity. Qed.

Lemma entered_clean (a : string) : a <> "" -> Py.strip a = a -> entered a = Some a.
Proof. intros Hne Hs. unfold entered. rewrite Hs. apply str_or_truthy, Hne. Qed.

Lemma entered_truthy (a : string) : a <> "" -> Py.truthy_opt (entered a) = true.
Proof.
  intros Hne. unfold entered, Py.str_or.
  destruct (Py.truthy (Py.strip a)) eqn:Hs; simpl; [exact Hs | apply truthy_true, Hne].
Qed.

Lemma auto_reconnect_reuses answers g last :
  _last_connected_address g = Some last -> last <> "" ->
  auto_reconnect 0 answers g
  = (Ok tt,
     after_connect (set_reconnect_entry last (set_reconnect_address (Some last) g))
       (entered last),
     [Log INFO ("Reconnect called. Last address: " ++ last);
      Log INFO ("Current reconnect address: " ++ Py.str_opt (reconnect_address g));
      Log INFO ("Reconnecting to " ++ last);
      Log INFO ("Starting connection. Start fresh: False, Reconnect addr: "
                ++ Py.str_opt (entered last));
      WorkerStart
        (connect_worker (set_reconnect_entry last (set_reconnect_address (Some last) g))
           (entered last))]).
Proof.
  intros Hl Hne. unfold auto_reconnect, try_except, bind at 1, get.
  unfold bind at 1. simpl. rewrite Hl. simpl.
  pose proof (proj2 (truthy_true last) Hne) as Ht. rewrite Ht.
  unfold bind, log, emit, modify. simpl.
  rewrite connect_starts; [reflexivity |].
  right. apply (entered_truthy last Hne).
Qed.

Lemma auto_reconnect_asks euid answers g :
  Py.truthy_opt (_last_connected_address g) = false ->
  auto_reconnect euid answers g
  = try_except
      (log INFO ("Reconnect called. Last address: "
                 ++ Py.str_opt (_last_connected_address g)) ;;
       log INFO ("Current reconnect address: " ++ Py.str_opt (reconnect_address g)) ;;
       log INFO "No previous address available, showing connection dialog" ;;
       show_connection_dialog euid answers)
      (fun e =>
         log ERROR ("Error during auto-reconnect: " ++ e) ;;
         emit (MsgCritical "Reconnect Failed" ("Failed to reconnect: " ++ e))) g.
Proof.
  intros H. unfold auto_reconnect, try_except. rewrite run_get_bind.
  destruct (_last_connected_address g) as [last |]; simpl in *; [rewrite H |];
    reflexivity.
Qed.

Lemma run_emit_bind {A} (e : Event) (k : unit -> M A) (g : GUI) :
  bind (emit e) k g = let '(r, g2, t2) := k tt g in (r, g2, e :: t2).
Proof. reflexivity. Qed.

Lemma run_log_bind {A} l m (k : unit -> M A) (g : GUI) :
  bind (log l m) k g = let '(r, g2, t2) := k tt g in (r, g2, Log l m :: t2).
Proof. reflexivity. Qed.

(** The device-selection step, answer by answer, for a root process. *)
Lemma dialog_dismissed euid answers g :
  answers = [] \/ (exists rest, answers = Rejected :: rest) ->
  show_connection_dialog euid answers g = (Ok tt, g, [DialogExec]).
Proof. intros [-> | [rest ->]]; reflexivity. Qed.

Lemma dialog_fresh sel rest g :
  show_connection_dialog 0 (Accepted true sel :: rest) g
  = (Ok tt,
     after_connect (set_reconnect_entry "" (set_reconnect_address None g)) None,
     [DialogExec;
      Log INFO "Starting connection. Start fresh: True, Reconnect addr: None";
      WorkerStart
        (connect_worker (set_reconnect_entry "" (set_reconnect_address None g)) None)]).
Proof.
  cbn [show_connection_dialog]. unfold show_connection_dialog_with, try_except.
  rewrite run_emit_bind, !run_modify_bind, connect_starts by (left; reflexivity).
  reflexivity.
Qed.

Lemma dialog_selected sel rest g :
  sel <> "" ->
  show_connection_dialog 0 (Accepted false (Some sel) :: rest) g
  = (Ok tt,
     after_connect (set_reconnect_entry sel (set_reconnect_address (Some sel) g))
       (entered sel),
     [DialogExec;
      Log INFO ("Starting connection. Start fresh: False, Reconnect addr: "
                ++ Py.str_opt (entered sel));
      WorkerStart
        (connect_worker (set_reconnect_entry sel (set_reconnect_address (Some sel) g))
           (entered sel))]).
Proof.
  intros Hne. cbn [show_connection_dialog].
  unfold show_connection_dialog_with, try_except. rewrite (proj2 (truthy_true sel) Hne).
  rewrite run_emit_bind, !run_modify_bind, connect_starts
    by (right; apply (entered_truthy sel Hne)).
  reflexivity.
Qed.

Lemma dialog_started (answers : list DialogAnswer) (g : GUI) (c : Coro) :
  c ∈ started_coros (trace_of (show_connection_dialog 0 answers g)) ->
  c = connect_coro "PRO_CONTROLLER" None
  \/ exists sel rest,
       answers = Accepted false (Some sel) :: rest
       /\ c = connect_coro "PRO_CONTROLLER" (entered sel).
Proof.
  destruct answers as [| [e | | [] sel] rest].
  - simpl. intros H. inversion H.
  - simpl. intros H. inversion H.
  - simpl. intros H. inversion H.
  - rewrite dialog_fresh. simpl. intros H. apply list_elem_of_singleton in H. left. exact H.
  - destruct sel as [sel |]; [| simpl; intros H; inversion H].
    destruct (decide (sel = "")) as [-> | Hne]; [simpl; intros H; inversion H |].
    rewrite (dialog_selected _ _ _ Hne). simpl. intros H.
    apply list_elem_of_singleton in H. right. eauto.
Qed.

Lemma dialog_returns (answers : list DialogAnswer) (g : GUI) :
  exists g' t, show_connection_dialog 0 answers g = (Ok tt, g', DialogExec :: t).
Proof.
  destruct answers as [| [e | | [] sel] rest].
  - eexists _, _. reflexivity.
  - eexists _, _. reflexivity.
  - eexists _, _. reflexivity.
  - eexists _, _. apply dialog_fresh.
  - destruct sel as [sel |]; [| eexists _, _; reflexivity].
    destruct (decide (sel = "")) as [-> | Hne]; [eexists _, _; reflexivity |].
    eexists _, _. apply (dialog_selected _ _ _ Hne).
Qed.

Lemma lost_not_connected (g : GUI) : connectionState g = Lost -> connected g = false.
Proof. unfold connectionState. destruct (connected g); [discriminate | reflexivity]. Qed.

(** C7. [auto_reconnect] in a Lost window of a root process.  When
    [_last_connected_address] holds an address (not empty, without
    surrounding blanks, as every Bluetooth address) it is copied to
    [reconnect_address] and to the entry and a worker is started for it: the
    window is Connecting.  When it holds none, the call is the
    device-selection dialog and nothing else; a dismissed dialog starts
    nothing.  No worker is ever started for an address other than the
    recorded one or the one picked in the dialog. *)
Theorem reconnect_reuses_last_address (answers : list DialogAnswer) (g : GUI) :
  (forall last,
     connectionState g = Lost ->
     _last_connected_address g = Some last -> last <> "" -> Py.strip last = last ->
     let r := auto_reconnect 0 answers g in
     reconnect_address (state_of r) = Some last
     /\ reconnect_entry (state_of r) = last
     /\ started_coros (trace_of r) = [connect_coro "PRO_CONTROLLER" (Some last)]
     /\ connectionState (state_of r) = Connecting
     /\ _last_connected_address (state_of r) = Some last)
  /\ (Py.truthy_opt (_last_connected_address g) = false ->
      state_of (auto_reconnect 0 answers g)
      = state_of (show_connection_dialog 0 answers g)
      /\ started_coros (trace_of (auto_reconnect 0 answers g))
         = started_coros (trace_of (show_connection_dialog 0 answers g))
      /\ DialogExec ∈ trace_of (auto_reconnect 0 answers g)
      /\ (answers = [] \/ (exists rest, answers = Rejected :: rest) ->
          state_of (auto_reconnect 0 answers g) = g
          /\ started_coros (trace_of (auto_reconnect 0 answers g)) = []))
  /\ (forall c,
        c ∈ started_coros (trace_of (auto_reconnect 0 answers g)) ->
        c = connect_coro "PRO_CONTROLLER" None
        \/ (exists last,
              _last_connected_address g = Some last
              /\ c = connect_coro "PRO_CONTROLLER" (entered last))
        \/ (exists sel rest,
              answers = Accepted false (Some sel) :: rest
              /\ c = connect_coro "PRO_CONTROLLER" (entered sel))).
Proof.
  assert (Hasks : Py.truthy_opt (_last_connected_address g) = false ->
                  exists g' t,
                    show_connection_dialog 0 answers g = (Ok tt, g', DialogExec :: t)
                    /\ auto_reconnect 0 answers g
                       = (Ok tt, g',
                          Log INFO ("Reconnect called. Last address: "
                                    ++ Py.str_opt (_last_connected_address g))
                          :: Log INFO ("Current reconnect address: "
                                       ++ Py.str_opt (reconnect_address g))
                          :: Log INFO "No previous address available, showing connection dialog"
                          :: DialogExec :: t)).
  { intros Hnone. destruct (dialog_returns answers g) as (g' & t & Hd).
    exists g', t. split; [exact Hd |].
    rewrite (auto_reconnect_asks _ _ _ Hnone). unfold try_except.
    rewrite !run_log_bind, Hd. reflexivity. }
  split; [| split].
  - intros last Hlost Hl Hne Hclean r. subst r.
    rewrite (auto_reconnect_reuses _ _ _ Hl Hne), (entered_clean _ Hne Hclean).
    repeat split; try exact Hl.
    unfold connectionState, state_of. simpl.
    rewrite (lost_not_connected _ Hlost). reflexivity.
  - intros Hnone. destruct (Hasks Hnone) as (g' & t & Hd & Ha). rewrite Ha, Hd.
    split; [reflexivity |]. split; [reflexivity |]. split.
    + unfold trace_of. simpl. do 3 apply list_elem_of_further. apply list_elem_of_here.
    + intros Hdis. rewrite (dialog_dismissed _ _ _ Hdis) in Hd.
      injection Hd as <- <-. split; reflexivity.
  - intros c Hc. destruct (Py.truthy_opt (_last_connected_address g)) eqn:Hlast.
    + destruct (_last_connected_address g) as [last |] eqn:Hl; [| discriminate].
      simpl in Hlast. apply truthy_true in Hlast.
      rewrite (auto_reconnect_reuses _ _ _ Hl Hlast) in Hc. simpl in Hc.
      apply list_elem_of_singleton in Hc. right. left. eauto.
    + destruct (Hasks eq_refl) as (g' & t & Hd & Ha). rewrite Ha in Hc.
      assert (Hc' : c ∈ started_coros (trace_of (show_connection_dialog 0 answers g))).
      { rewrite Hd. exact Hc. }
      apply dialog_started in Hc' as [-> | (sel & rest & -> & ->)]; [left | right; right];
        eauto.
Qed.

Lemma reconnect_reuses_last_address_witness :
  let lost := state_of (check_connection_status false dying) in
  let r := auto_reconnect 0 [] lost in
  reconnect_address (state_of r) = Some "AA:BB:CC:DD:EE:FF"
  /\ reconnect_entry (state_of r) = "AA:BB:CC:DD:EE:FF"
  /\ started_coros (trace_of r) = [connect_coro "PRO_CONTROLLER" (Some "AA:BB:CC:DD:EE:FF")]
  /\ connectionState (state_of r) = Connecting
  /\ _last_connected_address (state_of r) = Some "AA:BB:CC:DD:EE:FF".
Proof.
  intros lost.
  apply (proj1 (reconnect_reuses_last_address [] lost) "AA:BB:CC:DD:EE:FF").
  - vm_compute. reflexivity.
  - vm_compute. reflexivity.
  - discriminate.
  - reflexivity.
Defined.

(** ** A second [connect] *)

(** C3, counterexample.  In the Connecting window (a worker is running for
    AA:BB:CC:DD:EE:FF) a second call of [connect] returns normally, shows
    no error and starts a second worker; the same in the Connected
    window. *)
Lemma second_connect_starts_worker :
  connectionState connecting = Connecting
  /\ result_of (connect 0 [] false connecting) = Ok tt
  /\ trace_of (connect 0 [] false connecting)
     = [Log INFO "Starting connection. Start fresh: False, Reconnect addr: AA:BB:CC:DD:EE:FF";
        WorkerStart (connect_worker connecting (Some "AA:BB:CC:DD:EE:FF"))]
  /\ connectionState playing = Connected
  /\ started_coros (trace_of (connect 0 [] true playing))
     = [connect_coro "PRO_CONTROLLER" None].
Proof. vm_compute. repeat split. Qed.

Lemma toggle_connection_connected euid answers g :
  connected g = true -> toggle_connection euid answers g = disconnect g.
Proof. intros H. unfold toggle_connection. rewrite run_get_bind, H. reflexivity. Qed.

Lemma click_disabled euid answers g :
  btn_enabled (connect_btn g) = false ->
  step euid (Click_connect answers) g = (Ok tt, g, []).
Proof. intros H. unfold step. rewrite run_get_bind, H. reflexivity. Qed.

(** C3, as the code has it.  [connect] does not look at the connection
    state: for a root process with an address at hand (or [start_fresh]) it
    starts one new worker and stores it in [connection_worker], in every
    window.  What keeps a second attempt away is the connect button: the
    call disables it, a click on the disabled button is not delivered, and
    in a connected window the slot of the button calls [disconnect]. *)
Theorem connect_ignores_connection_state (answers : list DialogAnswer)
    (start_fresh : bool) (g : GUI) :
  start_fresh = true \/ Py.truthy_opt (chosen_address g) = true ->
  let r := connect 0 answers start_fresh g in
  let addr := if start_fresh then None else chosen_address g in
  result_of r = Ok tt
  /\ started_coros (trace_of r) = [connect_coro "PRO_CONTROLLER" addr]
  /\ connection_worker (state_of r) = Some (started (connect_worker g addr))
  /\ btn_enabled (connect_btn (state_of r)) = false
  /\ (forall euid answers',
        step euid (Click_connect answers') (state_of r) = (Ok tt, state_of r, []))
  /\ (forall euid answers' g',
        connected g' = true -> toggle_connection euid answers' g' = disconnect g').
Proof.
  intros H r addr. subst r addr. rewrite (connect_starts _ _ _ H).
  do 4 (split; [reflexivity |]). split.
  - intros euid answers'. apply click_disabled. reflexivity.
  - intros euid answers' g'. apply toggle_connection_connected.
Qed.

Lemma connect_ignores_connection_state_witness :
  connection_worker (state_of (connect 0 [] false connecting))
  = Some (started (connect_worker connecting (Some "AA:BB:CC:DD:EE:FF"))).
Proof.
  apply (connect_ignores_connection_state [] false connecting).
  right. reflexivity.
Defined.

(** ** [disconnect] *)

Lemma disconnect_run (g : GUI) :
  match async_loop g with Some loop => is_closed loop = false | None => True end ->
  state_of (disconnect g)
  = set_connection_info "Click Connect to choose your Nintendo Switch"
      (set_status_label "Disconnected"
         (set_connection_info "Click Connect to choose your Nintendo Switch"
            (connect_btn_setEnabled true
               (connect_btn_setText "Connect"
                  (set_last_connected_address None
                     (set_reconnect_entry ""
                        (set_reconnect_address None
                           (set_connection_worker None
                              (set_protocol None
                                 (set_transport None
                                    (set_controller_state None
                                       (set_connected false
                                          (set_connection_monitor_timer false g)))))))))))))
  /\ result_of (disconnect g) = Ok tt
  /\ submitted (trace_of (disconnect g))
     = match transport g, async_loop g with
       | Some _, Some _ => [close_coro]
       | _, _ => []
       end.
Proof.
  intros Hloop. unfold disconnect, try_except. rewrite run_modify_bind, run_get_bind.
  destruct g as [cs tr pr co ra la bw bs am lp wk tm en inf btn ams amb st].
  simpl in Hloop.
  destruct wk as [[wl wc [wf |] []] |], tr as [t |], lp as [[[] lr] |];
    try discriminate Hloop; repeat split; reflexivity.
Qed.

(** C2, at the failing window.  A user disconnect of the session in use
    clears the connection handle, the worker, the timer and the three
    address fields, and submits the close of the transport; but the loaded
    tag stays in [current_amiibo] (the button still offers to eject it) and
    button A stays pressed in [button_states] and on its widget. *)
Theorem disconnect_keeps_payload_and_buttons :
  let g' := state_of (disconnect playing) in
  connected playing = true
  /\ connected g' = false
  /\ transport g' = None /\ protocol g' = None /\ controller_state g' = None
  /\ connection_worker g' = None
  /\ connection_monitor_timer g' = false
  /\ reconnect_address g' = None /\ reconnect_entry g' = ""
  /\ _last_connected_address g' = None
  /\ submitted (trace_of (disconnect playing)) = [close_coro]
  /\ current_amiibo g' = Some "mario.bin"
  /\ amiibo_btn g' = "Eject Amiibo"
  /\ button_states g' !! "a" = Some true
  /\ button_widgets g' !! "a" = Some true.
Proof. vm_compute. repeat split. Qed.

(** In no window does [disconnect] touch the tag or the buttons. *)
Lemma disconnect_frame (g : GUI) :
  current_amiibo (state_of (disconnect g)) = current_amiibo g
  /\ button_states (state_of (disconnect g)) = button_states g
  /\ button_widgets (state_of (disconnect g)) = button_widgets g.
Proof.
  pose (P := fun g' => current_amiibo g' = current_amiibo g
                       /\ button_states g' = button_states g
                       /\ button_widgets g' = button_widgets g).
  assert (H : preserves P disconnect).
  { unfold disconnect, run_async, run_coroutine_threadsafe, reset_connection_ui.
    preserve; assumption. }
  apply (H g). repeat split.
Qed.

(** ** Input dispatcher *)

(** C8, counterexample.  After the user disconnect of the session in use
    the window is not connected and the widget of button A still shows
    pressed; releasing the button then changes the widget. *)
Lemma release_when_disconnected_changes_widget :
  let g := state_of (disconnect playing) in
  connected g = false
  /\ button_widgets g !! "a" = Some true
  /\ button_widgets (state_of (on_button_release "a" g)) !! "a" = Some false.
Proof. vm_compute. repeat split. Qed.

Lemma not_ready_disconnected (g : GUI) : connected g = false -> not_ready g = true.
Proof. intros H. unfold not_ready. rewrite H. reflexivity. Qed.

(** C8, as the code has it.  While the window is not connected a press
    changes nothing, and a release changes nothing but the pressed flag of
    the widget of that button, which it clears; neither submits work, and
    neither writes a log record. *)
Theorem input_ignored_when_not_connected (button_name : string) (g : GUI) :
  connected g = false ->
  on_button_press button_name g = (Ok tt, g, [])
  /\ result_of (on_button_release button_name g) = Ok tt
  /\ trace_of (on_button_release button_name g) = []
  /\ state_of (on_button_release button_name g)
     = (if bool_decide (is_Some (button_widgets g !! button_name))
        then set_controller_pressed button_name false g
        else g)
  /\ button_states (state_of (on_button_release button_name g)) = button_states g
  /\ (forall other,
        other <> button_name ->
        button_widgets (state_of (on_button_release button_name g)) !! other
        = button_widgets g !! other).
Proof.
  intros H. apply not_ready_disconnected in H.
  unfold on_button_press, on_button_release. rewrite !run_get_bind, H.
  destruct (bool_decide (is_Some (button_widgets g !! button_name)));
    repeat split; try reflexivity.
  intros other Hne. simpl. apply lookup_insert_ne. congruence.
Qed.

Lemma input_ignored_when_not_connected_witness :
  on_button_press "a" connecting = (Ok tt, connecting, []).
Proof.
  apply (input_ignored_when_not_connected "a" connecting). reflexivity.
Defined.

(** ** Health monitor *)

Lemma handle_connection_lost_run (g : GUI) (reconnect_clicked : bool) :
  connected g = true ->
  handle_connection_lost reconnect_clicked g
  = (Ok tt, state_of (handle_connection_lost reconnect_clicked g),
     Log INFO "Handling unexpected connection loss"
     :: Log INFO ("Connection lost. Preserved last address: "
                  ++ Py.str_opt (_last_connected_address g) ++ " for auto-reconnect")
     :: LostPrompt
     :: (if reconnect_clicked then [SingleShot 100] else [])).
Proof.
  intros H. unfold handle_connection_lost. rewrite run_get_bind, H.
  destruct reconnect_clicked; reflexivity.
Qed.


Lemma check_connection_status_idle (g : GUI) (reconnect_clicked : bool) :
  connected g = false ->
  check_connection_status reconnect_clicked g = (Ok tt, g, []).
Proof. intros H. unfold check_connection_status. rewrite run_get_bind, H. reflexivity. Qed.

(** A tick either does nothing or writes one log record and runs the loss
    handler; [monitor_detects] tells which. *)
Lemma run_raise_bind {A B} (e : string) (k : A -> M B) (g : GUI) :
  bind (raise e) k g = (Exc e, g, []).
Proof. reflexivity. Qed.

Lemma check_connection_status_run (g : GUI) (reconnect_clicked : bool) :
  if monitor_detects g then
    exists lvl msg,
      check_connection_status reconnect_clicked g
      = (Ok tt, state_of (handle_connection_lost reconnect_clicked g),
         Log lvl msg :: trace_of (handle_connection_lost reconnect_clicked g))
  else check_connection_status reconnect_clicked g = (Ok tt, g, []).
Proof.
  unfold monitor_detects, liveness_failed.
  destruct (connected g) eqn:Hc; cbn [andb]; [| apply check_connection_status_idle, Hc].
  unfold check_connection_status. rewrite run_get_bind, Hc. cbn [negb].
  unfold try_except.
  destruct (protocol g) as [[[]] |]; cbn [transport_is_None orb];
    [| destruct (transport g) as [[[[] | e] [] gp] |] ..];
    cbn [is_closing has_itr_sock orb negb];
    rewrite ?run_ret_bind, ?run_raise_bind; cbv iota;
    rewrite ?run_log_bind;
    try reflexivity;
    rewrite (handle_connection_lost_run _ _ Hc);
    generalize (state_of (handle_connection_lost reconnect_clicked g)); intros lost;
    eexists _, _; reflexivity.
Qed.


Lemma monitor_detects_failure (g : GUI) :
  connected g = true -> liveness_failed g = true -> monitor_detects g = true.
Proof. intros Hc Hf. unfold monitor_detects. rewrite Hc, Hf. reflexivity. Qed.






(** ** Runtime bridge *)

(** C5, counterexample.  With a loop that exists but is not running,
    [run_async] queues the coroutine and returns a future, and
    [AsyncWorker.run] waits for a result that never comes; with no loop at
    all [run_async] returns [None] and reports nothing. *)
Lemma submit_to_stopped_loop_does_not_fail :
  run_async close_coro (init (Some stopped_loop))
  = (Ok (Some (future_of close_coro)), init (Some stopped_loop), [Submit close_coro])
  /\ result_of
       (AsyncWorker_run (exec_coro switch_reply)
          (connect_worker (init (Some stopped_loop)) None) (init (Some stopped_loop)))
     = Ok Waits
  /\ run_async close_coro (init None) = (Ok None, init None, []).
Proof. vm_compute. repeat split. Qed.

(** C5, as the code has it.  A worker whose loop is absent or closed does
    not submit its coroutine and ends at once with
    [finished(False, "Async loop not available")], which the coordinator
    shows as a failed connection.  [run_async] with no loop submits
    nothing and returns [None] without an error; with a closed loop it
    raises.  Nothing is said about a loop that exists but does not run. *)
Theorem unavailable_loop_fails_worker (exec : Coro -> M unit) (w : AsyncWorker.t)
    (c : Coro) (g : GUI) :
  (AsyncWorker.async_loop w = None
   \/ (exists loop, AsyncWorker.async_loop w = Some loop /\ is_closed loop = true) ->
   AsyncWorker_run exec w g = (Ok (Finished false "Async loop not available"), g, []))
  /\ (async_loop g = None -> run_async c g = (Ok None, g, []))
  /\ (forall loop,
        async_loop g = Some loop -> is_closed loop = true ->
        run_async c g = (Exc "Event loop is closed", g, []))
  /\ (forall message,
        let r := on_connection_finished false message g in
        MsgCritical "Connection Failed" message ∈ trace_of r
        /\ connection_worker (state_of r) = None
        /\ connected (state_of r) = connected g).
Proof.
  split; [| split; [| split]].
  - unfold AsyncWorker_run, try_except.
    intros [-> | (loop & -> & ->)]; reflexivity.
  - intros H. unfold run_async. rewrite run_get_bind, H. reflexivity.
  - intros loop H Hc. unfold run_async, run_coroutine_threadsafe.
    rewrite run_get_bind, H, Hc. reflexivity.
  - intros message r. subst r. repeat split.
    unfold trace_of. cbn. apply list_elem_of_further, list_elem_of_here.
Qed.

Lemma unavailable_loop_fails_worker_witness :
  AsyncWorker_run (exec_coro switch_reply)
    (connect_worker (init (Some closed_loop)) None) (init (Some closed_loop))
  = (Ok (Finished false "Async loop not available"), init (Some closed_loop), [])
  /\ run_async close_coro (init None) = (Ok None, init None, []).
Proof.
  split.
  - apply (proj1 (unavailable_loop_fails_worker (exec_coro switch_reply)
                    (connect_worker (init (Some closed_loop)) None) close_coro
                    (init (Some closed_loop)))).
    right. exists closed_loop. split; reflexivity.
  - apply (proj1 (proj2 (unavailable_loop_fails_worker (exec_coro switch_reply)
                    (connect_worker (init None) None) close_coro (init None)))).
    reflexivity.
Defined.

(** ** Completion of a connect attempt *)

Lemma finished_last_address (message : string) (g : GUI) :
  _last_connected_address (state_of (on_connection_finished true message g))
  = if String.eqb (resolved_address g) "Unknown"
    then _last_connected_address g
    else Some (resolved_address g).
Proof.
  unfold on_connection_finished, try_finally, resolved_address, peer_name,
    update_amiibo_button.
  destruct g as [cs tr pr co ra la bw bs am lp wk tm en inf btn ams amb st].
  destruct tr as [[ic [] [[[peer psm] |] | e]] |];
    cbn -[String.eqb Py.opt_or Py.truthy_opt String.append];
    match goal with
    | |- context [String.eqb ?a "Unknown"] => destruct (String.eqb a "Unknown")
    end;
    cbn -[Py.opt_or Py.truthy_opt String.append];
    destruct (Py.truthy_opt am); reflexivity.
Qed.

Lemma auto_reconnect_opens_dialog (answers : list DialogAnswer) (g : GUI) :
  Py.truthy_opt (_last_connected_address g) = false ->
  DialogExec ∈ trace_of (auto_reconnect 0 answers g).
Proof.
  intros Hnone. destruct (dialog_returns answers g) as (g' & t & Hd).
  rewrite (auto_reconnect_asks _ _ _ Hnone). unfold try_except.
  rewrite !run_log_bind, Hd. unfold trace_of. cbn [snd].
  do 3 apply list_elem_of_further. apply list_elem_of_here.
Qed.

Lemma resolved_unknown (g : GUI) :
  peer_name g = None -> Py.truthy_opt (reconnect_address g) = false ->
  resolved_address g = "Unknown".
Proof.
  intros Hp Hr. unfold resolved_address. rewrite Hp.
  destruct (reconnect_address g) as [[| c a] |]; [reflexivity | discriminate | reflexivity].
Qed.

(** C10.  When a connect attempt succeeds, [_last_connected_address]
    changes only to an address that was determined: the peer name of the
    socket, or, when that cannot be read, a non-empty [reconnect_address].
    A determined address other than the placeholder is recorded.  When
    neither is available the field keeps its value, and it never becomes
    "Unknown".  A fresh pairing with an unreadable peer therefore records
    nothing and clears nothing: with no address recorded before, none is
    recorded after, and a later [auto_reconnect] has to open the device
    dialog; with an address recorded for an earlier connection, that
    address stays, and a later [auto_reconnect] starts a worker for it
    without opening the dialog. *)
Theorem finished_records_determined_address (message : string) (g : GUI) :
  let g' := state_of (on_connection_finished true message g) in
  (_last_connected_address g' <> _last_connected_address g ->
   exists a,
     _last_connected_address g' = Some a /\ a <> "Unknown"
     /\ (peer_name g = Some a
         \/ (peer_name g = None /\ reconnect_address g = Some a /\ a <> "")))
  /\ (forall a, peer_name g = Some a -> a <> "Unknown" ->
        _last_connected_address g' = Some a)
  /\ (forall a, peer_name g = None -> reconnect_address g = Some a ->
        a <> "" -> a <> "Unknown" -> _last_connected_address g' = Some a)
  /\ (peer_name g = None -> Py.truthy_opt (reconnect_address g) = false ->
      _last_connected_address g' = _last_connected_address g)
  /\ (_last_connected_address g <> Some "Unknown" ->
      _last_connected_address g' <> Some "Unknown")
  /\ (peer_name g = None -> reconnect_address g = None ->
      _last_connected_address g' = _last_connected_address g
      /\ (Py.truthy_opt (_last_connected_address g) = false ->
          forall answers, DialogExec ∈ trace_of (auto_reconnect 0 answers g'))
      /\ (forall last, _last_connected_address g = Some last ->
          last <> "" -> Py.strip last = last ->
          forall answers,
            started_coros (trace_of (auto_reconnect 0 answers g'))
            = [connect_coro "PRO_CONTROLLER" (Some last)]
            /\ dialogs_opened (trace_of (auto_reconnect 0 answers g')) = 0)).
Proof.
  intros g'. subst g'.
  pose proof (finished_last_address message g) as Hl.
  assert (Hkeep : peer_name g = None -> Py.truthy_opt (reconnect_address g) = false ->
                  _last_connected_address (state_of (on_connection_finished true message g))
                  = _last_connected_address g).
  { intros Hp Hr. rewrite Hl, (resolved_unknown _ Hp Hr). reflexivity. }
  split; [| split; [| split; [| split; [exact Hkeep | split]]]].
  - intros Hchg. destruct (String.eqb (resolved_address g) "Unknown") eqn:He;
      rewrite Hl in Hchg; [congruence |].
    apply String.eqb_neq in He. exists (resolved_address g).
    split; [exact Hl |]. split; [exact He |].
    unfold resolved_address in *. destruct (peer_name g) as [peer |]; [left; reflexivity |].
    right. apply opt_or_unknown in He as (a & Ha & Hne & Heq).
    rewrite Heq. auto.
  - intros a Hp Hne. rewrite Hl. unfold resolved_address. rewrite Hp.
    apply String.eqb_neq in Hne. rewrite Hne. reflexivity.
  - intros a Hp Hr Hne Hunk. rewrite Hl. unfold resolved_address. rewrite Hp, Hr.
    simpl. apply truthy_true in Hne. rewrite Hne.
    apply String.eqb_neq in Hunk. rewrite Hunk. reflexivity.
  - intros Hok. rewrite Hl.
    destruct (String.eqb (resolved_address g) "Unknown") eqn:He; [exact Hok |].
    apply String.eqb_neq in He. congruence.
  - intros Hp Hr.
    assert (Hsame : _last_connected_address
                      (state_of (on_connection_finished true message g))
                    = _last_connected_address g).
    { apply Hkeep; [exact Hp | rewrite Hr; reflexivity]. }
    split; [exact Hsame |]. split.
    + intros Hnone answers. apply auto_reconnect_opens_dialog.
      rewrite Hsame. exact Hnone.
    + intros last Hlast Hne Hclean answers.
      rewrite (auto_reconnect_reuses answers _ last) by congruence.
      unfold trace_of. cbn [snd]. rewrite (entered_clean last Hne Hclean).
      split; reflexivity.
Qed.

Lemma finished_records_determined_address_witness :
  _last_connected_address
    (state_of (on_connection_finished true "Success"
                 (run 0 [Startup [Accepted true None]] (init (Some running_loop)))))
  = None.
Proof.
  apply (proj1 (proj2 (proj2 (proj2 (proj2 (proj2
           (finished_records_determined_address "Success"
              (run 0 [Startup [Accepted true None]] (init (Some running_loop))))))))
           eq_refl eq_refl)).
Defined.

(** The address recorded for an earlier console outlives a fresh pairing
    whose peer cannot be read.  After a loss the user pairs anew (the
    coroutine carries no address), the attempt succeeds with no peer name
    and no [reconnect_address]; the address of the first console is still
    recorded, and when this connection is lost in turn, [auto_reconnect]
    starts a worker for the first console without opening the dialog. *)
Lemma earlier_address_outlives_fresh_pairing :
  let lost := run 0 [Monitor_tick false] dying in
  let pairing := step 0 (Click_connect [Accepted true None]) lost in
  let paired := state_of (step 0 (Worker_runs nameless_reply) (state_of pairing)) in
  let lost_again :=
    run 0 [Transport_changes
             {| is_closing := Returns true;
                has_itr_sock := false;
                getpeername := Throws "no socket" |}
             {| transport_is_None := false |};
           Monitor_tick true] paired in
  let reconnecting := step 0 (Reconnect_shot []) lost_again in
  started_coros (trace_of pairing) = [connect_coro "PRO_CONTROLLER" None]
  /\ connectionState paired = Connected
  /\ peer_name paired = None
  /\ reconnect_address paired = None
  /\ _last_connected_address paired = Some "AA:BB:CC:DD:EE:FF"
  /\ connectionState lost_again = Lost
  /\ started_coros (trace_of reconnecting)
     = [connect_coro "PRO_CONTROLLER" (Some "AA:BB:CC:DD:EE:FF")]
  /\ dialogs_opened (trace_of reconnecting) = 0.
Proof. vm_compute. repeat split. Qed.

(* ================================================================= *)
(** * Further properties of the window *)

(** ** Invariants of the session *)

(** X1.  In every window the program reaches, [button_widgets] and
    [button_states] have the eighteen controller buttons as their keys: no
    slot adds or removes a key. *)
Theorem reachable_button_sets (euid : Z) (g : GUI) :
  reachable euid g ->
  dom (button_widgets g) = pro_buttons
  /\ dom (button_states g) = pro_buttons
  /\ size pro_buttons = 18.
Proof.
  intros H. apply reachable_inv in H as (Hw & Hs & _).
  split; [exact Hw |]. split; [exact Hs |]. vm_compute. reflexivity.
Qed.

Lemma reachable_button_sets_witness :
  dom (button_states (state_of (disconnect playing))) = pro_buttons.
Proof.
  apply (reachable_button_sets 0 (state_of (disconnect playing))).
  change (reachable 0 (run 0 [Click_connect []] playing)).
  apply run_reachable. unfold playing, connecting.
  repeat apply run_reachable. constructor.
Defined.

Ltac session_frame :=
  match goal with
  | H : session_inv ?g |- session_inv _ =>
      let Hh := fresh "Hh" in
      let Ht := fresh "Ht" in
      let Hw := fresh "Hw" in
      destruct H as (Hh & Ht & Hw);
      unfold session_inv, handle_present, is_connect_worker in *; cbn in *;
      repeat split; intros;
      try discriminate;
      try (apply Hh; assumption);
      try (apply Ht; assumption);
      try (eapply Hw; eassumption);
      try (match goal with
           | E : Some _ = Some _ |- _ => injection E as <-; cbn; eauto
           end);
      eauto
  end.

Lemma session_reset_connection_ui : preserves session_inv reset_connection_ui.
Proof. unfold reset_connection_ui. preserve; session_frame. Qed.
#[local] Hint Resolve session_reset_connection_ui : gui_inv.

Lemma session_update_amiibo_button : preserves session_inv update_amiibo_button.
Proof. unfold update_amiibo_button. preserve; session_frame. Qed.
#[local] Hint Resolve session_update_amiibo_button : gui_inv.

Lemma session_run_async c : preserves session_inv (run_async c).
Proof. unfold run_async, run_coroutine_threadsafe. preserve; session_frame. Qed.
#[local] Hint Resolve session_run_async : gui_inv.

Lemma session_set_nfc tag : preserves session_inv (set_nfc tag).
Proof. unfold set_nfc. preserve; session_frame. Qed.
#[local] Hint Resolve session_set_nfc : gui_inv.

Lemma session_worker_start : preserves session_inv worker_start.
Proof.
  intros g H. unfold worker_start. rewrite state_of_get_bind.
  destruct (connection_worker g) as [w |] eqn:Hw; [| exact H].
  destruct H as (Hh & Ht & Hc). split; [exact Hh |]. split; [exact Ht |].
  cbn. intros w' [= <-]. apply (Hc _ Hw).
Qed.
#[local] Hint Resolve session_worker_start : gui_inv.

Lemma session_show_connection_dialog_with k answer :
  (forall b, preserves session_inv (k b)) ->
  preserves session_inv (show_connection_dialog_with k answer).
Proof. intros Hk. unfold show_connection_dialog_with. preserve; session_frame. Qed.

Lemma session_connect euid answers start_fresh :
  preserves session_inv (connect euid answers start_fresh).
Proof.
  revert start_fresh. induction answers as [| answer rest IH]; intros start_fresh;
    cbn [connect]; preserve; try session_frame.
  apply session_show_connection_dialog_with. exact IH.
Qed.
#[local] Hint Resolve session_connect : gui_inv.

Lemma session_show_connection_dialog euid answers :
  preserves session_inv (show_connection_dialog euid answers).
Proof.
  destruct answers; cbn [show_connection_dialog];
    apply session_show_connection_dialog_with; intros b; auto with gui_inv.
Qed.
#[local] Hint Resolve session_show_connection_dialog : gui_inv.

Lemma session_show_startup_dialog euid answers :
  preserves session_inv (show_startup_dialog euid answers).
Proof. unfold show_startup_dialog. preserve; session_frame. Qed.

Lemma session_auto_reconnect euid answers :
  preserves session_inv (auto_reconnect euid answers).
Proof. unfold auto_reconnect. preserve; session_frame. Qed.

Lemma session_on_button_press name : preserves session_inv (on_button_press name).
Proof. unfold on_button_press. preserve; session_frame. Qed.

Lemma session_on_button_release name : preserves session_inv (on_button_release name).
Proof. unfold on_button_release. preserve; session_frame. Qed.

Lemma session_toggle_amiibo choice : preserves session_inv (toggle_amiibo choice).
Proof. unfold toggle_amiibo. preserve; session_frame. Qed.

Lemma session_handle_connection_lost reconnect_clicked :
  preserves session_inv (handle_connection_lost reconnect_clicked).
Proof.
  intros g H. destruct (connected g) eqn:Hc.
  - destruct H as (_ & _ & Hw).
    rewrite (handle_connection_lost_state _ _ Hc), release_all_buttons_eq.
    split; [| split]; cbn; try discriminate. exact Hw.
  - rewrite (handle_connection_lost_idle _ _ Hc). exact H.
Qed.

Lemma session_check_connection_status reconnect_clicked :
  preserves session_inv (check_connection_status reconnect_clicked).
Proof.
  intros g H. pose proof (check_connection_status_run g reconnect_clicked) as Hr.
  destruct (monitor_detects g).
  - destruct Hr as (lvl & msg & ->). apply session_handle_connection_lost, H.
  - rewrite Hr. exact H.
Qed.

Lemma session_disconnect : preserves session_inv disconnect.
Proof.
  intros g (Hh & Ht & Hw). unfold disconnect, try_except.
  rewrite run_modify_bind, run_get_bind.
  destruct g as [cs tr pr co ra la bw bs am lp wk tm en inf btn ams amb st].
  cbn in Hh, Ht, Hw.
  destruct wk as [[wl wc [wf |] []] |], tr as [t |], lp as [[[] lr] |];
    (split; [| split]); cbn; intros; try discriminate; auto.
Qed.
#[local] Hint Resolve session_disconnect : gui_inv.

Lemma session_toggle_connection euid answers :
  preserves session_inv (toggle_connection euid answers).
Proof. unfold toggle_connection. preserve. Qed.

Lemma session_finished_false message :
  preserves session_inv (on_connection_finished false message).
Proof. unfold on_connection_finished. preserve; session_frame. Qed.

Lemma session_finished_true message (g : GUI) :
  session_inv g -> connected g = true ->
  session_inv (state_of (on_connection_finished true message g)).
Proof.
  intros H Hc.
  assert (Hp : preserves (fun g' => session_inv g' /\ connected g' = true)
                 (on_connection_finished true message)).
  { unfold on_connection_finished, update_amiibo_button.
    preserve;
      match goal with
      | H : session_inv _ /\ connected _ = true |- _ =>
          destruct H as [H ?]; split; [session_frame | assumption]
      end. }
  apply (Hp g). split; assumption.
Qed.

(** What a run of the stored worker leaves: the invariant, and a connected
    window whenever it reports success. *)
Lemma session_AsyncWorker_run ext (w : AsyncWorker.t) (g : GUI) :
  session_inv g -> connection_worker g = Some w ->
  exists r g' t,
    AsyncWorker_run (exec_coro ext) w g = (Ok r, g', t)
    /\ session_inv g'
    /\ (forall message, r = Finished true message -> connected g' = true).
Proof.
  intros (Hh & Ht & Hw) Hwk. destruct (Hw _ Hwk) as (ct & a & Hco).
  destruct g as [cs tr pr co ra la bw bs am lp wk tm en inf btn ams amb st].
  cbn in Hh, Ht, Hw, Hwk. subst wk.
  destruct w as [wl wc wf wr]. cbn in Hco. subst wc.
  unfold AsyncWorker_run, try_except, run_coroutine_threadsafe, _connect_async.
  destruct wl as [[[] []] |];
    destruct ext as [[[[t p] c] | e1] [[] | e2]];
    cbn; eexists _, _, _; (split; [reflexivity |]); unfold session_inv, handle_present;
    cbn; (split; [split; [| split] |]); intros; try discriminate; eauto;
    try (apply Hh; assumption); try (apply Ht; assumption);
    try (eapply Hw; eassumption);
    try (match goal with
         | E : Some _ = Some _ |- _ =>
             injection E as <-; eexists _, _; reflexivity
         end).
Qed.

Lemma session_step euid a : preserves session_inv (step euid a).
Proof.
  intros g Hg. unfold step. rewrite state_of_get_bind. revert Hg.
  destruct a as [answers | answers | ext | rc | answers | name | name | choice | t p].
  - apply session_show_startup_dialog.
  - apply preserves_when. intros _. apply session_toggle_connection.
  - intros Hg. destruct (connection_worker g) as [w |] eqn:Hwk; [| exact Hg].
    destruct (AsyncWorker.isRunning w); [| exact Hg].
    destruct (session_AsyncWorker_run ext w g Hg Hwk) as (r & g' & t & Hrun & Hinv & Hok).
    unfold bind. rewrite Hrun.
    destruct r as [[] message |].
    + pose proof (session_finished_true message g' Hinv (Hok _ eq_refl)) as Hf.
      unfold state_of in *.
      destruct (on_connection_finished true message g') as [[r2 g2] t2]. exact Hf.
    + pose proof (session_finished_false message g' Hinv) as Hf.
      unfold state_of in *.
      destruct (on_connection_finished false message g') as [[r2 g2] t2]. exact Hf.
    + exact Hinv.
  - apply preserves_when. intros _. apply session_check_connection_status.
  - apply session_auto_reconnect.
  - apply preserves_when. intros _. apply session_on_button_press.
  - apply preserves_when. intros _. apply session_on_button_release.
  - apply session_toggle_amiibo.
  - intros (Hh & Ht & Hw).
    destruct (transport g), (protocol g); try (split; [| split]; assumption).
    split; [| split]; cbn; [| exact Ht | exact Hw].
    intros Hc. destruct (Hh Hc) as (_ & _ & Hcs). repeat split; eauto.
Qed.

Lemma session_init loop : session_inv (init loop).
Proof. split; [| split]; cbn; intros; discriminate. Qed.

Lemma reachable_session euid g : reachable euid g -> session_inv g.
Proof.
  induction 1 as [loop | g a _ IH]; [apply session_init | apply session_step, IH].
Qed.

(** X2.  In every reachable window that is connected, the transport, the
    protocol and the controller state are all present, so the guard of the
    input slots, [not self.connected or not self.controller_state], is
    decided by the connected flag alone. *)
Theorem connected_has_handle (euid : Z) (g : GUI) :
  reachable euid g -> connected g = true ->
  is_Some (transport g) /\ is_Some (protocol g) /\ is_Some (controller_state g)
  /\ not_ready g = false.
Proof.
  intros Hr Hc. destruct (reachable_session _ _ Hr) as (Hh & _ & _).
  destruct (Hh Hc) as (Ht & Hp & Hs). repeat split; try assumption.
  unfold not_ready. rewrite Hc. destruct Hs as [cs ->]. reflexivity.
Qed.

Lemma connected_has_handle_witness :
  is_Some (transport playing) /\ is_Some (protocol playing)
  /\ is_Some (controller_state playing) /\ not_ready playing = false.
Proof.
  apply (connected_has_handle 0 playing).
  - unfold playing, connecting. repeat apply run_reachable. constructor.
  - reflexivity.
Defined.

(** X3.  The monitor timer is active only in a connected window: it is
    started by a successful completion and stopped by [disconnect] and by
    the loss handler before they leave the connected state. *)
Theorem monitor_runs_only_connected (euid : Z) (g : GUI) :
  reachable euid g -> connection_monitor_timer g = true ->
  connected g = true /\ connectionState g = Connected.
Proof.
  intros Hr Ht. destruct (reachable_session _ _ Hr) as (_ & Hm & _).
  pose proof (Hm Ht) as Hc. split; [exact Hc |].
  unfold connectionState. rewrite Hc. reflexivity.
Qed.

Lemma monitor_runs_only_connected_witness :
  connected dying = true /\ connectionState dying = Connected.
Proof.
  apply (monitor_runs_only_connected 0 dying).
  - unfold dying, playing, connecting. repeat apply run_reachable. constructor.
  - reflexivity.
Defined.

(** ** Exceptions stay inside the slots *)

Lemma ok_ret {A} (a : A) : returns_ok (ret a).
Proof. intros g. exists a. reflexivity. Qed.

Lemma ok_get : returns_ok get.
Proof. intros g. exists g. reflexivity. Qed.

Lemma ok_modify f : returns_ok (modify f).
Proof. intros g. exists tt. reflexivity. Qed.

Lemma ok_emit e : returns_ok (emit e).
Proof. intros g. exists tt. reflexivity. Qed.

Lemma ok_log l s : returns_ok (log l s).
Proof. apply ok_emit. Qed.

Lemma ok_bind {A B} (m : M A) (k : A -> M B) :
  returns_ok m -> (forall a, returns_ok (k a)) -> returns_ok (bind m k).
Proof.
  intros Hm Hk g. destruct (Hm g) as [a Ha]. unfold bind, result_of in *.
  destruct (m g) as [[r g1] t1]. simpl in Ha. subst r.
  destruct (Hk a g1) as [b Hb]. unfold result_of in Hb.
  destruct (k a g1) as [[r2 g2] t2]. simpl in *. eauto.
Qed.

Lemma ok_try_except {A} (m : M A) (h : string -> M A) :
  (forall e, returns_ok (h e)) -> returns_ok (try_except m h).
Proof.
  intros Hh g. unfold try_except, result_of.
  destruct (m g) as [[[a | e] g1] t1]; simpl; [eauto |].
  destruct (Hh e g1) as [b Hb]. unfold result_of in Hb.
  destruct (h e g1) as [[r2 g2] t2]. simpl in *. eauto.
Qed.

Lemma ok_try_finally {A} (m : M A) (f : M unit) :
  returns_ok m -> returns_ok f -> returns_ok (try_finally m f).
Proof.
  intros Hm Hf g. destruct (Hm g) as [a Ha]. unfold try_finally, result_of in *.
  destruct (m g) as [[r g1] t1]. simpl in Ha. subst r.
  destruct (Hf g1) as [b Hb]. unfold result_of in Hb.
  destruct (f g1) as [[r2 g2] t2]. simpl in *. subst r2. simpl. eauto.
Qed.

Lemma ok_when b m : returns_ok m -> returns_ok (when b m).
Proof. intros Hm. destruct b; [exact Hm | apply ok_ret]. Qed.

Create HintDb gui_ok.

Ltac ok_step :=
  lazymatch goal with
  | |- returns_ok (ret _) => apply ok_ret
  | |- returns_ok get => apply ok_get
  | |- returns_ok (emit _) => apply ok_emit
  | |- returns_ok (log _ _) => apply ok_log
  | |- returns_ok (modify _) => apply ok_modify
  | |- returns_ok (bind _ _) => apply ok_bind; [| intros ?]
  | |- returns_ok (try_except _ _) => apply ok_try_except; intros ?
  | |- returns_ok (try_finally _ _) => apply ok_try_finally
  | |- returns_ok (when _ _) => apply ok_when
  | |- returns_ok (match ?x with _ => _ end) => destruct x
  | |- returns_ok _ => solve [auto with gui_ok]
  end.

Ltac ok := repeat ok_step.

Lemma ok_reset_connection_ui : returns_ok reset_connection_ui.
Proof. unfold reset_connection_ui. ok. Qed.
#[local] Hint Resolve ok_reset_connection_ui : gui_ok.

Lemma ok_update_amiibo_button : returns_ok update_amiibo_button.
Proof. unfold update_amiibo_button. ok. Qed.
#[local] Hint Resolve ok_update_amiibo_button : gui_ok.

Lemma ok_connect euid answers start_fresh : returns_ok (connect euid answers start_fresh).
Proof. destruct answers; cbn [connect]; ok. Qed.
#[local] Hint Resolve ok_connect : gui_ok.

Lemma ok_disconnect : returns_ok disconnect.
Proof. unfold disconnect. ok. Qed.
#[local] Hint Resolve ok_disconnect : gui_ok.

Lemma ok_handle_connection_lost rc : returns_ok (handle_connection_lost rc).
Proof. unfold handle_connection_lost. ok. Qed.
#[local] Hint Resolve ok_handle_connection_lost : gui_ok.

Lemma ok_check_connection_status rc : returns_ok (check_connection_status rc).
Proof. unfold check_connection_status. ok. Qed.

Lemma ok_on_connection_finished success message :
  returns_ok (on_connection_finished success message).
Proof. unfold on_connection_finished. ok. Qed.

Lemma ok_AsyncWorker_run exec w : returns_ok (AsyncWorker_run exec w).
Proof. unfold AsyncWorker_run. ok. Qed.

Lemma ok_toggle_amiibo choice : returns_ok (toggle_amiibo choice).
Proof. unfold toggle_amiibo. ok. Qed.

(** X4.  No exception leaves a slot of the window: whatever the dialog, the
    transport probes, [getpeername], joycontrol, the tag loader or a closed
    loop raise is caught inside the slot that called them, for every event
    and every window. *)
Theorem slots_catch_exceptions (euid : Z) (a : Action) (g : GUI) :
  result_of (step euid a g) = Ok tt.
Proof.
  assert (H : returns_ok (step euid a)).
  { unfold step. apply ok_bind; [apply ok_get |]. intros g0.
    destruct a; ok;
      first [ apply ok_toggle_amiibo | apply ok_on_connection_finished
            | apply ok_AsyncWorker_run | apply ok_check_connection_status
            | idtac ].
    all: try (unfold show_startup_dialog, toggle_connection, auto_reconnect,
              on_button_press, on_button_release; ok). }
  destruct (H g) as [[] Hr]. exact Hr.
Qed.

(** ** The dialog opened by [connect] *)

Lemma dialog_with_rest (answer : DialogAnswer) (rest rest' : list DialogAnswer) (g : GUI) :
  show_connection_dialog_with (connect 0 rest) answer g
  = show_connection_dialog_with (connect 0 rest') answer g.
Proof.
  change (show_connection_dialog 0 (answer :: rest) g
          = show_connection_dialog 0 (answer :: rest') g).
  destruct answer as [e | | [] sel]; try reflexivity.
  - rewrite !dialog_fresh. reflexivity.
  - destruct sel as [sel |]; [| reflexivity].
    destruct (decide (sel = "")) as [-> | Hne]; [reflexivity |].
    rewrite !(dialog_selected _ _ _ Hne). reflexivity.
Qed.

Lemma dialog_opens_once (answers : list DialogAnswer) (g : GUI) :
  dialogs_opened (trace_of (show_connection_dialog 0 answers g)) = 1.
Proof.
  destruct answers as [| [e | | [] sel] rest]; try reflexivity.
  - rewrite dialog_fresh. reflexivity.
  - destruct sel as [sel |]; [| reflexivity].
    destruct (decide (sel = "")) as [-> | Hne]; [reflexivity |].
    rewrite (dialog_selected _ _ _ Hne). reflexivity.
Qed.

(** X5.  A call of [connect] opens the device dialog at most once: the
    call that the dialog makes back into [connect] always finds an address
    or [start_fresh] and starts the worker, so only the first answer of the
    user is ever consumed. *)
Theorem connect_asks_at_most_once (euid : Z) (answers : list DialogAnswer)
    (start_fresh : bool) (g : GUI) :
  dialogs_opened (trace_of (connect euid answers start_fresh g)) <= 1
  /\ connect euid answers start_fresh g = connect euid (take 1 answers) start_fresh g.
Proof.
  destruct (decide (euid = 0%Z)) as [-> | Hne].
  2: { rewrite !(connect_not_root _ _ _ _ Hne). split; [cbn; lia | reflexivity]. }
  destruct (negb (Py.truthy_opt (chosen_address g)) && negb start_fresh) eqn:Hc.
  - assert (Hask : forall answers',
              connect 0 answers' start_fresh g
              = try_except (show_connection_dialog 0 answers')
                  (fun e =>
                     log ERROR ("Connection error: " ++ e) ;;
                     emit (MsgCritical "Connection Error" e) ;;
                     reset_connection_ui) g).
    { intros answers'. unfold chosen_address in Hc.
      destruct answers'; cbn [connect show_connection_dialog Z.eqb negb];
        unfold try_except; rewrite run_get_bind, Hc; reflexivity. }
    assert (Hret : forall answers',
              connect 0 answers' start_fresh g = show_connection_dialog 0 answers' g).
    { intros answers'. rewrite Hask. unfold try_except.
      destruct (dialog_returns answers' g) as (g' & t & ->). reflexivity. }
    split.
    + rewrite Hret, dialog_opens_once. lia.
    + rewrite !Hret. destruct answers as [| answer rest]; [reflexivity |].
      cbn [take show_connection_dialog]. apply dialog_with_rest.
  - assert (Hgo : start_fresh = true \/ Py.truthy_opt (chosen_address g) = true).
    { destruct start_fresh; [left; reflexivity | right].
      rewrite andb_true_r in Hc. apply negb_false_iff, Hc. }
    rewrite !(connect_starts _ _ _ Hgo). split; [cbn; lia | reflexivity].
Qed.

(** ** Input dispatch in a connected window *)

Lemma on_button_press_ready (name : string) (g : GUI) :
  not_ready g = false ->
  on_button_press name g
  = let g1 := button_states_setitem name true g in
    let g2 := if bool_decide (is_Some (button_widgets g !! name))
              then set_controller_pressed name true g1 else g1 in
    match async_loop g with
    | None => (Ok tt, g2, [])
    | Some loop =>
        if is_closed loop
        then (Ok tt, g2,
              [Log ERROR ("Error handling button press " ++ name
                          ++ ": Event loop is closed")])
        else (Ok tt, g2, [Submit (button_press name)])
    end.
Proof.
  intros H. unfold on_button_press. rewrite run_get_bind, H.
  unfold try_except, run_async, run_coroutine_threadsafe.
  rewrite run_modify_bind.
  destruct (bool_decide (is_Some (button_widgets g !! name)));
    cbn [when]; rewrite ?run_modify_bind, ?run_ret_bind;
    unfold bind at 1; rewrite run_get_bind; cbn [async_loop button_states_setitem
      set_controller_pressed set_button_states set_button_widgets];
    destruct (async_loop g) as [[[] lr] |]; reflexivity.
Qed.

Lemma on_button_release_ready (name : string) (g : GUI) :
  not_ready g = false ->
  on_button_release name g
  = let g1 := button_states_setitem name false g in
    let g2 := if bool_decide (is_Some (button_widgets g !! name))
              then set_controller_pressed name false g1 else g1 in
    match async_loop g with
    | None => (Ok tt, g2, [])
    | Some loop =>
        if is_closed loop
        then (Ok tt, g2,
              [Log ERROR ("Error handling button release " ++ name
                          ++ ": Event loop is closed")])
        else (Ok tt, g2, [Submit (button_release name)])
    end.
Proof.
  intros H. unfold on_button_release. rewrite run_get_bind, H.
  unfold try_except, run_async, run_coroutine_threadsafe.
  rewrite run_modify_bind.
  destruct (bool_decide (is_Some (button_widgets g !! name)));
    cbn [when]; rewrite ?run_modify_bind, ?run_ret_bind;
    unfold bind at 1; rewrite run_get_bind; cbn [async_loop button_states_setitem
      set_controller_pressed set_button_states set_button_widgets];
    destruct (async_loop g) as [[[] lr] |]; reflexivity.
Qed.

Lemma ready (g : GUI) :
  connected g = true -> is_Some (controller_state g) -> not_ready g = false.
Proof. intros Hc [cs Hs]. unfold not_ready. rewrite Hc, Hs. reflexivity. Qed.

(** X6.  In a connected window with a usable loop, pressing and then
    releasing a controller button that was released submits the press and
    then the release, in that order, shows the button pressed in between,
    and leaves the window exactly as it was. *)
Theorem press_then_release (name : string) (g : GUI) (loop : Loop) :
  connected g = true -> is_Some (controller_state g) ->
  async_loop g = Some loop -> is_closed loop = false ->
  button_states g !! name = Some false -> button_widgets g !! name = Some false ->
  let r1 := on_button_press name g in
  let r2 := on_button_release name (state_of r1) in
  button_states (state_of r1) !! name = Some true
  /\ button_widgets (state_of r1) !! name = Some true
  /\ trace_of r1 = [Submit (button_press name)]
  /\ trace_of r2 = [Submit (button_release name)]
  /\ state_of r2 = g.
Proof.
  intros Hc Hcs Hl Hcl Hs Hw r1 r2. subst r2 r1.
  pose proof (ready _ Hc Hcs) as Hr.
  rewrite (on_button_press_ready _ _ Hr). cbn zeta. rewrite Hl, Hcl, Hw.
  cbn [bool_decide decide_rel state_of trace_of fst snd].
  rewrite bool_decide_eq_true_2 by eauto.
  set (g1 := set_controller_pressed name true (button_states_setitem name true g)).
  assert (Hr1 : not_ready g1 = false) by exact Hr.
  rewrite (on_button_release_ready _ _ Hr1). cbn zeta.
  change (async_loop g1) with (async_loop g). rewrite Hl, Hcl.
  assert (Hw1 : button_widgets g1 !! name = Some true) by apply lookup_insert_eq.
  rewrite Hw1, bool_decide_eq_true_2 by eauto.
  split; [apply lookup_insert_eq |]. split; [reflexivity |].
  split; [reflexivity |]. split; [reflexivity |].
  unfold state_of. cbn [fst snd]. subst g1.
  destruct g as [cs tr pr co ra la bw bs am lp wk tm en inf btn ams amb st].
  cbn -[insert] in Hs, Hw.
  unfold set_controller_pressed, button_states_setitem, set_button_states,
    set_button_widgets. cbn -[insert].
  rewrite !insert_insert_eq, (insert_id bs _ _ Hs), (insert_id bw _ _ Hw).
  reflexivity.
Qed.

Lemma press_then_release_witness :
  let r1 := on_button_press "b" playing in
  let r2 := on_button_release "b" (state_of r1) in
  button_states (state_of r1) !! "b" = Some true
  /\ button_widgets (state_of r1) !! "b" = Some true
  /\ trace_of r1 = [Submit (button_press "b")]
  /\ trace_of r2 = [Submit (button_release "b")]
  /\ state_of r2 = playing.
Proof.
  apply (press_then_release "b" playing running_loop).
  - reflexivity.
  - eexists. reflexivity.
  - reflexivity.
  - reflexivity.
  - reflexivity.
  - reflexivity.
Defined.

(** X7.  A press whose submission fails is not rolled back.  With a closed
    loop the press is still recorded in [button_states] and shown on the
    widget, one error is logged, nothing is submitted and the slot returns
    normally; with no loop at all the same happens without any log
    record. *)
Theorem failed_press_is_kept (name : string) (g : GUI) :
  connected g = true -> is_Some (controller_state g) ->
  is_Some (button_widgets g !! name) ->
  match async_loop g with
  | Some loop => is_closed loop = true
  | None => True
  end ->
  let r := on_button_press name g in
  result_of r = Ok tt
  /\ button_states (state_of r) !! name = Some true
  /\ button_widgets (state_of r) !! name = Some true
  /\ submitted (trace_of r) = []
  /\ trace_of r
     = match async_loop g with
       | Some _ => [Log ERROR ("Error handling button press " ++ name
                               ++ ": Event loop is closed")]
       | None => []
       end.
Proof.
  intros Hc Hcs Hw Hl r. subst r.
  rewrite (on_button_press_ready _ _ (ready _ Hc Hcs)). cbn zeta.
  rewrite bool_decide_eq_true_2 by exact Hw.
  destruct (async_loop g) as [loop |]; [rewrite Hl |];
    (split; [reflexivity |]); (split; [apply lookup_insert_eq |]);
    (split; [apply lookup_insert_eq |]); split; reflexivity.
Qed.

Lemma failed_press_is_kept_witness :
  let g := set_async_loop (Some closed_loop) playing in
  button_states (state_of (on_button_press "x" g)) !! "x" = Some true
  /\ submitted (trace_of (on_button_press "x" g)) = [].
Proof.
  intros g.
  destruct (failed_press_is_kept "x" g) as (_ & Hs & _ & Hn & _).
  - reflexivity.
  - eexists. reflexivity.
  - eexists. reflexivity.
  - reflexivity.
  - split; [exact Hs | exact Hn].
Defined.

(** X8.  [on_button_press] itself does not protect the keys of
    [button_states]: in a connected window a name that has no widget gets
    a new pressed entry, while [button_widgets] is left alone.  (The keys
    stay fixed only because the slot is wired to the widgets' signals.) *)
Theorem press_of_unknown_name_adds_key (name : string) (g : GUI) :
  connected g = true -> is_Some (controller_state g) ->
  button_widgets g !! name = None ->
  let g' := state_of (on_button_press name g) in
  button_states g' = <[name := true]> (button_states g)
  /\ name ∈ dom (button_states g')
  /\ button_widgets g' = button_widgets g.
Proof.
  intros Hc Hcs Hw g'. subst g'.
  rewrite (on_button_press_ready _ _ (ready _ Hc Hcs)). cbn zeta.
  rewrite Hw, bool_decide_eq_false_2 by (intros [? ?]; discriminate).
  destruct (async_loop g) as [[[] lr] |]; unfold state_of; cbn [is_closed fst snd];
    (split; [reflexivity |]); (split; [| reflexivity]);
    apply elem_of_dom; eexists; apply lookup_insert_eq.
Qed.

Lemma press_of_unknown_name_adds_key_witness :
  "turbo" ∈ dom (button_states (state_of (on_button_press "turbo" playing))).
Proof.
  apply (press_of_unknown_name_adds_key "turbo" playing).
  - reflexivity.
  - eexists. reflexivity.
  - reflexivity.
Defined.

(** ** [disconnect] in any window *)

(** X9.  From any window whose loop is absent or not closed, [disconnect]
    ends in the Idle state: not connected, no handle, no worker, timer
    stopped, the three address fields cleared and the connect button back
    to "Connect", enabled.  A second [disconnect] then changes nothing and
    submits nothing. *)
Theorem disconnect_resets_to_idle (g : GUI) :
  match async_loop g with Some loop => is_closed loop = false | None => True end ->
  let g' := state_of (disconnect g) in
  connectionState g' = Idle
  /\ connected g' = false
  /\ transport g' = None /\ protocol g' = None /\ controller_state g' = None
  /\ connection_worker g' = None
  /\ connection_monitor_timer g' = false
  /\ reconnect_address g' = None /\ reconnect_entry g' = ""
  /\ _last_connected_address g' = None
  /\ connect_btn g' = {| btn_text := "Connect"; btn_enabled := true |}
  /\ status_label g' = "Disconnected"
  /\ disconnect g' = (Ok tt, g', []).
Proof.
  intros Hl g'. subst g'. destruct (disconnect_run g Hl) as (-> & _ & _).
  do 12 (split; [reflexivity |]).
  unfold disconnect, try_except. rewrite run_modify_bind, run_get_bind.
  destruct g as [cs tr pr co ra la bw bs am lp wk tm en inf btn ams amb st].
  vm_compute. reflexivity.
Qed.

Lemma disconnect_resets_to_idle_witness :
  connectionState (state_of (disconnect dying)) = Idle
  /\ disconnect (state_of (disconnect dying)) = (Ok tt, state_of (disconnect dying), []).
Proof.
  destruct (disconnect_resets_to_idle dying) as (Hi & _ & _ & _ & _ & _ & _ & _ & _ & _ & _ & _ & Ha).
  - vm_compute. reflexivity.
  - split; [exact Hi | exact Ha].
Defined.

(** X10.  When the loop is closed and a transport is present,
    [disconnect] stops at the submission of [transport.close()]: the
    monitor timer is already stopped, the error is logged, and every other
    attribute, the connected flag and the handle included, is left as it
    was. *)
Theorem disconnect_aborts_on_closed_loop (g : GUI) (loop : Loop) :
  is_Some (transport g) -> async_loop g = Some loop -> is_closed loop = true ->
  state_of (disconnect g) = set_connection_monitor_timer false g
  /\ result_of (disconnect g) = Ok tt
  /\ submitted (trace_of (disconnect g)) = []
  /\ Log ERROR "Disconnect error: Event loop is closed" ∈ trace_of (disconnect g).
Proof.
  intros [t Ht] Hl Hc. unfold disconnect, try_except.
  rewrite run_modify_bind, run_get_bind.
  destruct g as [cs tr pr co ra la bw bs am lp wk tm en inf btn ams amb st].
  cbn in Ht, Hl. subst tr lp. destruct loop as [cl rn]. cbn in Hc. subst cl.
  destruct wk as [[wl wc [wf |] []] |];
    (split; [reflexivity |]); (split; [reflexivity |]); (split; [reflexivity |]);
    unfold trace_of; cbn; repeat first [apply list_elem_of_here | apply list_elem_of_further].
Qed.

Lemma disconnect_aborts_on_closed_loop_witness :
  connected (state_of (disconnect (set_async_loop (Some closed_loop) playing))) = true
  /\ connection_monitor_timer
       (state_of (disconnect (set_async_loop (Some closed_loop) playing))) = false.
Proof.
  destruct (disconnect_aborts_on_closed_loop
              (set_async_loop (Some closed_loop) playing) closed_loop) as (Hs & _).
  - eexists. vm_compute. reflexivity.
  - vm_compute. reflexivity.
  - reflexivity.
  - rewrite Hs. split; vm_compute; reflexivity.
Defined.

(** ** Completion of an attempt, end to end *)

Lemma finished_true_fields (message : string) (g : GUI) :
  let g' := state_of (on_connection_finished true message g) in
  connected g' = connected g
  /\ transport g' = transport g /\ protocol g' = protocol g
  /\ controller_state g' = controller_state g
  /\ connection_worker g' = None
  /\ connection_monitor_timer g' = true
  /\ status_label g' = "Connected"
  /\ connect_btn g' = {| btn_text := "Disconnect"; btn_enabled := true |}
  /\ connection_info g' = "Connected to: " ++ resolved_address g.
Proof.
  unfold on_connection_finished, try_finally, resolved_address, peer_name,
    update_amiibo_button.
  destruct g as [cs tr pr co ra la bw bs am lp wk tm en inf btn ams amb st].
  destruct tr as [[ic [] [[[peer psm] |] | e]] |];
    cbn -[String.eqb Py.opt_or Py.truthy_opt String.append];
    match goal with
    | |- context [String.eqb ?a "Unknown"] => destruct (String.eqb a "Unknown")
    end;
    cbn -[Py.opt_or Py.truthy_opt String.append];
    destruct (Py.truthy_opt am); do 8 (split; [reflexivity |]); reflexivity.
Qed.

Lemma worker_run_at_work ext (w : AsyncWorker.t) (g : GUI) :
  at_work w -> connection_worker g = Some w ->
  exists g1 t1,
    AsyncWorker_run (exec_coro ext) w g
    = (Ok match attempt_error ext with
          | Some e => Finished false e
          | None => Finished true "Success"
          end, g1, t1)
    /\ reconnect_address g1 = reconnect_address g
    /\ _last_connected_address g1 = _last_connected_address g
    /\ connection_monitor_timer g1 = connection_monitor_timer g
    /\ is_Some (connection_worker g1)
    /\ match create_hid_server ext with
       | Returns (t, p, cs) =>
           transport g1 = Some t /\ protocol g1 = Some p
           /\ controller_state g1 = Some cs
           /\ connected g1 = match controller_state_connect ext with
                             | Returns _ => true
                             | Throws _ => connected g
                             end
       | Throws _ =>
           transport g1 = transport g /\ protocol g1 = protocol g
           /\ controller_state g1 = controller_state g
           /\ connected g1 = connected g
       end.
Proof.
  intros (_ & (ct & a & Hco) & loop & Hl & Hcl & Hrn) Hwk.
  destruct g as [cs tr pr co ra la bw bs am lp wk tm en inf btn ams amb st].
  cbn in Hwk. subst wk. destruct w as [wl wc wf wr]. cbn in Hco, Hl. subst wc wl.
  destruct loop as [cl rn]. cbn in Hcl, Hrn. subst cl rn.
  unfold AsyncWorker_run, try_except, run_coroutine_threadsafe, _connect_async,
    attempt_error.
  destruct ext as [[[[t p] c] | e1] [[] | e2]];
    cbn -[String.append]; eexists _, _; (split; [reflexivity |]);
    cbn; do 4 (split; [eauto |]); repeat split.
Qed.

Lemma finished_false_run (message : string) (g : GUI) :
  on_connection_finished false message g
  = (Ok tt,
     set_connection_worker None
       (set_connection_info "Click Connect to choose your Nintendo Switch"
          (connect_btn_setEnabled true (connect_btn_setText "Connect" g))),
     [Log ERROR ("Connection failed: " ++ message);
      MsgCritical "Connection Failed" message]).
Proof.
  unfold on_connection_finished, try_finally, reset_connection_ui.
  rewrite run_log_bind, run_emit_bind, !run_modify_bind. reflexivity.
Qed.

Lemma worker_step_run euid ext (w : AsyncWorker.t) (g : GUI) :
  connection_worker g = Some w -> AsyncWorker.isRunning w = true ->
  step euid (Worker_runs ext) g
  = bind (AsyncWorker_run (exec_coro ext) w)
      (fun r => match r with
                | Finished success message => on_connection_finished success message
                | Waits => ret tt
                end) g.
Proof. intros Hw Hr. unfold step. rewrite run_get_bind, Hw, Hr. reflexivity. Qed.

(** ** The address handed to the transport factory *)

Lemma finished_no_factory (success : bool) (message : string) (g : GUI) :
  factory_addresses (trace_of (on_connection_finished success message g)) = [].
Proof.
  destruct success; [| rewrite finished_false_run; reflexivity].
  unfold on_connection_finished, try_finally, update_amiibo_button.
  destruct g as [cs tr pr co ra la bw bs am lp wk tm en inf btn ams amb st].
  destruct tr as [[ic [] [[[peer psm] |] | e]] |];
    cbn -[String.eqb Py.opt_or Py.truthy_opt String.append];
    match goal with
    | |- context [String.eqb ?a "Unknown"] => destruct (String.eqb a "Unknown")
    end;
    cbn -[Py.opt_or Py.truthy_opt String.append];
    destruct (Py.truthy_opt am); reflexivity.
Qed.

Lemma worker_run_factory ext (w : AsyncWorker.t) (g : GUI)
    (controller_type : string) (addr : option string) (loop : Loop) :
  AsyncWorker.coro w = connect_coro controller_type addr ->
  AsyncWorker.async_loop w = Some loop ->
  is_closed loop = false -> is_running loop = true ->
  exists r g1 t1,
    AsyncWorker_run (exec_coro ext) w g = (Ok r, g1, t1)
    /\ factory_addresses t1 = [addr].
Proof.
  intros Hco Hl Hcl Hrn.
  destruct g as [cs tr pr co ra la bw bs am lp wk tm en inf btn ams amb st].
  destruct w as [wl wc wf wr]. cbn in Hco, Hl. subst wc wl.
  destruct loop as [cl rn]. cbn in Hcl, Hrn. subst cl rn.
  unfold AsyncWorker_run, try_except, run_coroutine_threadsafe, _connect_async.
  destruct wk as [wk |]; destruct ext as [[[[t p] c] | e1] [[] | e2]];
    cbn -[String.append]; eexists _, _, _; split; reflexivity.
Qed.

(** A started worker on a running loop calls the transport factory once,
    with the address of its coroutine, whatever joycontrol answers. *)
Lemma attempt_factory euid ext (w : AsyncWorker.t) (g : GUI)
    (controller_type : string) (addr : option string) (loop : Loop) :
  connection_worker g = Some w -> AsyncWorker.isRunning w = true ->
  AsyncWorker.coro w = connect_coro controller_type addr ->
  AsyncWorker.async_loop w = Some loop ->
  is_closed loop = false -> is_running loop = true ->
  factory_addresses (trace_of (step euid (Worker_runs ext) g)) = [addr].
Proof.
  intros Hwk Hr Hco Hl Hcl Hrn.
  rewrite (worker_step_run _ _ _ _ Hwk Hr).
  destruct (worker_run_factory ext w g _ _ _ Hco Hl Hcl Hrn)
    as (r & g1 & t1 & Hrun & Hf).
  unfold bind. rewrite Hrun. destruct r as [success message |].
  - pose proof (finished_no_factory success message g1) as Hn.
    destruct (on_connection_finished success message g1) as [[r2 g2] t2].
    unfold trace_of in *. cbn [snd] in *.
    unfold factory_addresses in *. rewrite omap_app, Hf, Hn. reflexivity.
  - unfold ret, trace_of. cbn [snd]. rewrite app_nil_r. exact Hf.
Qed.

(** C6.  A call of [connect] by a root process, followed by the run of
    the worker it started on the background loop (running, as
    [setup_async_loop] leaves it).  Over the call and the run the
    transport factory [create_hid_server] is invoked exactly once.  With
    [start_fresh] it is invoked with no address, whatever the entry,
    [reconnect_address] and [_last_connected_address] hold.  Otherwise it
    is invoked with the entry text (stripped) when that is not empty,
    whatever [reconnect_address] holds, and with [reconnect_address] only
    when the entry is blank.  The answer of joycontrol plays no part. *)
Theorem connect_address_choice (answers : list DialogAnswer) (ext : ServerReply)
    (g : GUI) (loop : Loop) :
  async_loop g = Some loop -> is_closed loop = false -> is_running loop = true ->
  let attempt start_fresh :=
    let r := connect 0 answers start_fresh g in
    (started_coros (trace_of r),
     factory_addresses
       (trace_of r ++ trace_of (step 0 (Worker_runs ext) (state_of r)))%list) in
  attempt true = ([connect_coro "PRO_CONTROLLER" None], [None])
  /\ (Py.strip (reconnect_entry g) <> "" ->
      attempt false
      = ([connect_coro "PRO_CONTROLLER" (Some (Py.strip (reconnect_entry g)))],
         [Some (Py.strip (reconnect_entry g))]))
  /\ (forall a, Py.strip (reconnect_entry g) = "" ->
      reconnect_address g = Some a -> a <> "" ->
      attempt false = ([connect_coro "PRO_CONTROLLER" (Some a)], [Some a])).
Proof.
  intros Hl Hcl Hrn attempt.
  assert (Hrun : forall start_fresh,
            start_fresh = true \/ Py.truthy_opt (chosen_address g) = true ->
            attempt start_fresh
            = ([connect_coro "PRO_CONTROLLER"
                  (if start_fresh then None else chosen_address g)],
               [if start_fresh then None else chosen_address g])).
  { intros start_fresh H. subst attempt. cbv beta zeta.
    rewrite (connect_starts answers start_fresh g H).
    unfold trace_of at 1 2, state_of. cbn [fst snd].
    f_equal. cbn [app factory_addresses omap].
    apply (attempt_factory 0 ext
             (started (connect_worker g (if start_fresh then None else chosen_address g)))
             _ "PRO_CONTROLLER" _ loop); try reflexivity; assumption. }
  split; [apply (Hrun true); left; reflexivity |]. split.
  - intros He. assert (Hc : chosen_address g = Some (Py.strip (reconnect_entry g))).
    { apply str_or_truthy, He. }
    rewrite (Hrun false); [rewrite Hc; reflexivity |].
    right. rewrite Hc. apply truthy_true, He.
  - intros a He Ha Hne. assert (Hc : chosen_address g = Some a).
    { unfold chosen_address. rewrite He, Ha. reflexivity. }
    rewrite (Hrun false); [rewrite Hc; reflexivity |].
    right. rewrite Hc. apply truthy_true, Hne.
Qed.

Lemma connect_address_choice_witness :
  let tried g :=
    let r := connect 0 [] false g in
    factory_addresses
      (trace_of r ++ trace_of (step 0 (Worker_runs switch_reply) (state_of r)))%list in
  tried (set_reconnect_entry " 11:22:33:44:55:66 " connecting)
  = [Some "11:22:33:44:55:66"]
  /\ tried (set_reconnect_entry "  " connecting) = [Some "AA:BB:CC:DD:EE:FF"].
Proof.
  intros tried. subst tried. cbv beta. split.
  - apply (f_equal snd
             (proj1 (proj2 (connect_address_choice [] switch_reply
                              (set_reconnect_entry " 11:22:33:44:55:66 " connecting)
                              running_loop eq_refl eq_refl eq_refl))
                ltac:(vm_compute; discriminate))).
  - apply (f_equal snd
             (proj2 (proj2 (connect_address_choice [] switch_reply
                              (set_reconnect_entry "  " connecting)
                              running_loop eq_refl eq_refl eq_refl))
                "AA:BB:CC:DD:EE:FF" eq_refl eq_refl ltac:(discriminate))).
Defined.

(** X11.  A connection attempt that fails is reported with the error of
    joycontrol, the worker is dropped and the connect button is put back;
    the connected flag and the timer stay as they were.  When the failure
    comes after [create_hid_server] has returned (from
    [controller_state.connect()]), the new transport stays in
    [self.transport] although the window is not connected. *)
Theorem failed_attempt_outcome (euid : Z) (ext : ServerReply) (g : GUI)
    (w : AsyncWorker.t) (e : string) :
  connection_worker g = Some w -> at_work w -> attempt_error ext = Some e ->
  let r := step euid (Worker_runs ext) g in
  result_of r = Ok tt
  /\ MsgCritical "Connection Failed" e ∈ trace_of r
  /\ connection_worker (state_of r) = None
  /\ connected (state_of r) = connected g
  /\ connection_monitor_timer (state_of r) = connection_monitor_timer g
  /\ connect_btn (state_of r) = {| btn_text := "Connect"; btn_enabled := true |}
  /\ transport (state_of r)
     = match create_hid_server ext with
       | Returns (t, _, _) => Some t
       | Throws _ => transport g
       end.
Proof.
  intros Hwk Hw He r. subst r.
  rewrite (worker_step_run _ _ _ _ Hwk (proj1 Hw)).
  destruct (worker_run_at_work ext w g Hw Hwk)
    as (g1 & t1 & Hrun & _ & _ & Htm & _ & Hext).
  unfold bind. rewrite Hrun, He, finished_false_run.
  unfold result_of, trace_of, state_of. cbn [fst snd].
  split; [reflexivity |]. split.
  { apply elem_of_app. right. apply list_elem_of_further, list_elem_of_here. }
  split; [reflexivity |].
  unfold attempt_error in He.
  destruct (create_hid_server ext) as [[[t p] cs] | e1].
  - destruct (controller_state_connect ext) as [[] | e2]; [discriminate |].
    destruct Hext as (Ht & _ & _ & Hc). cbn. rewrite Hc, Htm, Ht. repeat split.
  - destruct Hext as (Ht & _ & _ & Hc). cbn. rewrite Hc, Htm, Ht. repeat split.
Qed.

Lemma failed_attempt_outcome_witness :
  let ext := {| create_hid_server := create_hid_server switch_reply;
                controller_state_connect := Throws "Connection refused" |} in
  let r := step 0 (Worker_runs ext) connecting in
  connected (state_of r) = false /\ transport (state_of r) = Some switch_transport.
Proof.
  intros ext r.
  destruct (failed_attempt_outcome 0 ext connecting
              (started (connect_worker (init (Some running_loop))
                          (Some "AA:BB:CC:DD:EE:FF")))
              "Connection refused")
    as (_ & _ & _ & Hc & _ & _ & Ht).
  - vm_compute. reflexivity.
  - split; [reflexivity |]. split; [eexists _, _; reflexivity |].
    exists running_loop. repeat split.
  - reflexivity.
  - split; [exact Hc | exact Ht].
Defined.

(** X12.  A connection attempt that succeeds leaves a Connected window:
    the handle returned by joycontrol is stored, the worker is dropped,
    the monitor timer runs and the button reads "Disconnect"; when the
    socket gives a peer name, that name is recorded and shown. *)
Theorem successful_attempt_outcome (euid : Z) (ext : ServerReply) (g : GUI)
    (w : AsyncWorker.t) (t : Transport) (p : Protocol) (cs : ControllerState) :
  connection_worker g = Some w -> at_work w ->
  create_hid_server ext = Returns (t, p, cs) ->
  controller_state_connect ext = Returns tt ->
  let g' := state_of (step euid (Worker_runs ext) g) in
  connectionState g' = Connected
  /\ transport g' = Some t /\ protocol g' = Some p /\ controller_state g' = Some cs
  /\ connection_worker g' = None
  /\ connection_monitor_timer g' = true
  /\ connect_btn g' = {| btn_text := "Disconnect"; btn_enabled := true |}
  /\ (forall peer psm,
        has_itr_sock t = true -> getpeername t = Returns (Some (peer, psm)) ->
        peer <> "Unknown" ->
        _last_connected_address g' = Some peer
        /\ connection_info g' = "Connected to: " ++ peer).
Proof.
  intros Hwk Hw Hsrv Hcon g'. subst g'.
  rewrite (worker_step_run _ _ _ _ Hwk (proj1 Hw)).
  destruct (worker_run_at_work ext w g Hw Hwk)
    as (g1 & t1 & Hrun & _ & _ & _ & _ & Hext).
  unfold attempt_error in Hrun. rewrite Hsrv, Hcon in Hrun, Hext.
  destruct Hext as (Ht & Hp & Hcs & Hc).
  assert (Hst : state_of
                  (bind (AsyncWorker_run (exec_coro ext) w)
                     (fun r => match r with
                               | Finished success message =>
                                   on_connection_finished success message
                               | Waits => ret tt
                               end) g)
                = state_of (on_connection_finished true "Success" g1)).
  { unfold bind. rewrite Hrun. unfold state_of.
    destruct (on_connection_finished true "Success" g1) as [[r2 g2] t2]. reflexivity. }
  rewrite Hst.
  destruct (finished_true_fields "Success" g1)
    as (Fc & Ft & Fp & Fcs & Fw & Ftm & _ & Fb & Fi).
  split; [unfold connectionState; rewrite Fc, Hc; reflexivity |].
  split; [congruence |]. split; [congruence |]. split; [congruence |].
  split; [exact Fw |]. split; [exact Ftm |]. split; [exact Fb |].
  intros peer psm Hsock Hpeer Hne.
  assert (Hres : resolved_address g1 = peer).
  { unfold resolved_address, peer_name. rewrite Ht, Hsock, Hpeer. reflexivity. }
  split.
  - rewrite finished_last_address, Hres. apply String.eqb_neq in Hne.
    rewrite Hne. reflexivity.
  - rewrite Fi, Hres. reflexivity.
Qed.

Lemma successful_attempt_outcome_witness :
  connectionState (state_of (step 0 (Worker_runs switch_reply) connecting)) = Connected
  /\ connection_monitor_timer
       (state_of (step 0 (Worker_runs switch_reply) connecting)) = true.
Proof.
  destruct (successful_attempt_outcome 0 switch_reply connecting
              (started (connect_worker (init (Some running_loop))
                          (Some "AA:BB:CC:DD:EE:FF")))
              switch_transport {| transport_is_None := false |} {| nfc := None |})
    as (Hs & _ & _ & _ & _ & Ht & _).
  - vm_compute. reflexivity.
  - split; [reflexivity |]. split; [eexists _, _; reflexivity |].
    exists running_loop. repeat split.
  - reflexivity.
  - reflexivity.
  - split; [exact Hs | exact Ht].
Defined.

(** ** Loss and recovery, end to end *)

(** X13.  When a monitor tick finds the connection lost and the user
    chooses Reconnect in the prompt, the window is Lost and the single
    shot for [auto_reconnect] is armed; when that shot fires, the window is
    Connecting, with one worker started for the address recorded before
    the loss and no dialog opened. *)
Theorem loss_then_reconnect (answers : list DialogAnswer) (g : GUI) (last : string) :
  connection_monitor_timer g = true -> connected g = true ->
  liveness_failed g = true -> connection_worker g = None ->
  _last_connected_address g = Some last -> last <> "" -> Py.strip last = last ->
  let r1 := step 0 (Monitor_tick true) g in
  let r2 := step 0 (Reconnect_shot answers) (state_of r1) in
  SingleShot 100 ∈ trace_of r1
  /\ connectionState (state_of r1) = Lost
  /\ connectionState (state_of r2) = Connecting
  /\ started_coros (trace_of r2) = [connect_coro "PRO_CONTROLLER" (Some last)]
  /\ dialogs_opened (trace_of r2) = 0
  /\ _last_connected_address (state_of r2) = Some last.
Proof.
  intros Htm Hc Hf Hwk Hl Hne Hclean r1 r2.
  set (lost := state_of (handle_connection_lost true g)).
  assert (H1 : state_of r1 = lost
               /\ exists lvl msg,
                    trace_of r1 = Log lvl msg :: trace_of (handle_connection_lost true g)).
  { subst r1 r2. unfold step. rewrite run_get_bind, Htm. cbn [when].
    pose proof (check_connection_status_run g true) as Hr.
    rewrite (monitor_detects_failure _ Hc Hf) in Hr.
    destruct Hr as (lvl & msg & ->). split; [reflexivity | eauto]. }
  destruct H1 as (Hs1 & lvl & msg & Ht1). subst r2. rewrite Hs1, Ht1. clear Hs1 Ht1 r1.
  assert (Hlost : _last_connected_address lost = Some last
                  /\ connected lost = false /\ connection_worker lost = None
                  /\ status_label lost = "Connection Lost").
  { subst lost. rewrite (handle_connection_lost_state _ _ Hc), release_all_buttons_eq.
    cbn. auto. }
  destruct Hlost as (Hl' & Hc' & Hw' & Hs').
  split.
  { rewrite (handle_connection_lost_run _ _ Hc). unfold trace_of. cbn [snd].
    do 4 apply list_elem_of_further. apply list_elem_of_here. }
  split.
  { unfold connectionState. rewrite Hc', Hw', Hs'. reflexivity. }
  assert (H2 : step 0 (Reconnect_shot answers) lost = auto_reconnect 0 answers lost).
  { unfold step. rewrite run_get_bind. reflexivity. }
  rewrite H2, (auto_reconnect_reuses _ _ _ Hl' Hne), (entered_clean _ Hne Hclean).
  unfold state_of, trace_of. cbn [fst snd].
  split; [unfold connectionState; cbn; rewrite Hc'; reflexivity |].
  split; [reflexivity |]. split; [reflexivity |]. exact Hl'.
Qed.

Lemma loss_then_reconnect_witness :
  let r1 := step 0 (Monitor_tick true) dying in
  let r2 := step 0 (Reconnect_shot []) (state_of r1) in
  connectionState (state_of r1) = Lost
  /\ connectionState (state_of r2) = Connecting
  /\ started_coros (trace_of r2) = [connect_coro "PRO_CONTROLLER" (Some "AA:BB:CC:DD:EE:FF")].
Proof.
  destruct (loss_then_reconnect [] dying "AA:BB:CC:DD:EE:FF")
    as (_ & H1 & H2 & H3 & _).
  - vm_compute. reflexivity.
  - vm_compute. reflexivity.
  - vm_compute. reflexivity.
  - vm_compute. reflexivity.
  - vm_compute. reflexivity.
  - discriminate.
  - reflexivity.
  - split; [exact H1 |]. split; [exact H2 | exact H3].
Defined.

(** ** The amiibo button *)

Lemma toggle_amiibo_load (choice : FileChoice) (g : GUI) (cs : ControllerState)
    (tag : string) :
  connected g = true -> controller_state g = Some cs ->
  Py.truthy_opt (current_amiibo g) = false ->
  file_path choice <> "" -> load_amiibo choice = Returns tag ->
  toggle_amiibo choice g
  = (Ok tt,
     set_amiibo_btn (if Py.truthy (file_name choice)
                     then "Eject Amiibo" else "Load Amiibo")
       (set_amiibo_status (file_name choice)
          (set_current_amiibo (Some (file_name choice))
             (set_controller_state (Some {| nfc := Some tag |}) g))),
     [SetNfc (Some tag)]).
Proof.
  intros Hc Hcs Ham Hp Hld. apply truthy_true in Hp.
  destruct g as [c0 tr pr co ra la bw bs am lp wk tm en inf btn ams amb st].
  cbn in Hc, Hcs, Ham. subst co c0.
  unfold toggle_amiibo, not_ready, try_except, set_nfc, update_amiibo_button.
  rewrite run_get_bind. cbn [connected controller_state current_amiibo negb orb].
  rewrite bool_decide_eq_true_2 by eauto. cbn [negb].
  rewrite Ham, Hp, Hld.
  destruct (Py.truthy (file_name choice)) eqn:Hn;
    cbn -[Py.truthy]; rewrite Hn; reflexivity.
Qed.

Lemma toggle_amiibo_eject (choice : FileChoice) (g : GUI) (cs : ControllerState) :
  connected g = true -> controller_state g = Some cs ->
  Py.truthy_opt (current_amiibo g) = true ->
  toggle_amiibo choice g
  = (Ok tt,
     set_amiibo_btn "Load Amiibo"
       (set_amiibo_status "No amiibo loaded"
          (set_current_amiibo None
             (set_controller_state (Some {| nfc := None |}) g))),
     [SetNfc None]).
Proof.
  intros Hc Hcs Ham.
  destruct g as [c0 tr pr co ra la bw bs am lp wk tm en inf btn ams amb st].
  cbn in Hc, Hcs, Ham. subst co c0.
  unfold toggle_amiibo, not_ready, try_except, set_nfc, update_amiibo_button.
  rewrite run_get_bind. cbn [connected controller_state current_amiibo negb orb].
  rewrite bool_decide_eq_true_2 by eauto. cbn [negb].
  rewrite Ham. reflexivity.
Qed.

(** X14.  [toggle_amiibo] records nothing when it cannot hand a tag to
    the controller: in a window that is not connected (a warning is
    shown), when the file dialog is cancelled, and when the tag file cannot
    be loaded (the error is shown), the window is left exactly as it was and
    [set_nfc] is not called. *)
Theorem amiibo_not_recorded (choice : FileChoice) (g : GUI) :
  not_ready g = true
  \/ (Py.truthy_opt (current_amiibo g) = false
      /\ (file_path choice = "" \/ exists e, load_amiibo choice = Throws e)) ->
  state_of (toggle_amiibo choice g) = g
  /\ result_of (toggle_amiibo choice g) = Ok tt
  /\ nfc_calls (trace_of (toggle_amiibo choice g)) = [].
Proof.
  intros H. unfold toggle_amiibo. rewrite run_get_bind.
  destruct (not_ready g) eqn:Hr; [repeat split |].
  destruct H as [H | (Ham & H)]; [discriminate |]. rewrite Ham.
  destruct H as [-> | (e & He)]; [repeat split |].
  unfold try_except. rewrite He.
  destruct (Py.truthy (file_path choice)); repeat split.
Qed.

Lemma amiibo_not_recorded_witness :
  state_of (toggle_amiibo mario connecting) = connecting.
Proof.
  apply (amiibo_not_recorded mario connecting). left. reflexivity.
Defined.

(** X15.  Loading a tag and ejecting it again is a round trip.  In a
    connected window with no tag, a successful load records the file name,
    hands the tag to the controller and turns the button to "Eject
    Amiibo"; the next click hands [None] to the controller and brings the
    window back to what it was. *)
Theorem amiibo_load_then_eject (choice choice' : FileChoice) (g : GUI) (tag : string) :
  connected g = true -> controller_state g = Some {| nfc := None |} ->
  current_amiibo g = None ->
  amiibo_status g = "No amiibo loaded" -> amiibo_btn g = "Load Amiibo" ->
  file_path choice <> "" -> file_name choice <> "" ->
  load_amiibo choice = Returns tag ->
  let r1 := toggle_amiibo choice g in
  let r2 := toggle_amiibo choice' (state_of r1) in
  current_amiibo (state_of r1) = Some (file_name choice)
  /\ controller_state (state_of r1) = Some {| nfc := Some tag |}
  /\ amiibo_btn (state_of r1) = "Eject Amiibo"
  /\ nfc_calls (trace_of r1 ++ trace_of r2) = [Some tag; None]
  /\ state_of r2 = g.
Proof.
  intros Hc Hcs Ham Hst Hbt Hp Hn Hld r1 r2. subst r2 r1.
  assert (Hf : Py.truthy_opt (current_amiibo g) = false) by (rewrite Ham; reflexivity).
  rewrite (toggle_amiibo_load _ _ _ _ Hc Hcs Hf Hp Hld).
  pose proof (proj2 (truthy_true _) Hn) as Ht. rewrite Ht.
  unfold state_of at 1 2 3, trace_of at 1. cbn [fst snd].
  split; [reflexivity |]. split; [reflexivity |]. split; [reflexivity |].
  erewrite toggle_amiibo_eject; [| exact Hc | reflexivity | exact Ht].
  split; [reflexivity |].
  unfold state_of. cbn [fst snd].
  destruct g as [c0 tr pr co ra la bw bs am lp wk tm en inf btn ams amb st].
  cbn in Hcs, Ham, Hst, Hbt. subst c0 am ams amb. reflexivity.
Qed.

Lemma amiibo_load_then_eject_witness :
  let g := run 0 [Worker_runs switch_reply] connecting in
  state_of (toggle_amiibo mario (state_of (toggle_amiibo mario g))) = g.
Proof.
  intros g.
  apply (amiibo_load_then_eject mario mario g "mario").
  - vm_compute. reflexivity.
  - vm_compute. reflexivity.
  - vm_compute. reflexivity.
  - vm_compute. reflexivity.
  - vm_compute. reflexivity.
  - discriminate.
  - discriminate.
  - reflexivity.
Defined.

(* ================================================================= *)
(** * Properties of the device dialog *)

Import PairedSwitchDialog.

Lemma add_switches_acc (paths : list (string * Outcome string)) (d : t)
    (n : nat) (log : list DEvent) :
  foldl
    (fun acc path =>
       let '(d, valid_devices_added, log) := acc in
       match path with
       | (switch_path, Returns address) =>
           (addItem {| item_text := "Nintendo Switch - " ++ address;
                       selectable := true;
                       data := Some address |} d,
            S valid_devices_added, log)
       | (switch_path, Throws e) =>
           (d, valid_devices_added,
            log ++ [DLog WARNING ("Could not get address for " ++ switch_path
                                  ++ ": " ++ e)])%list
       end)
    (d, n, log) paths
  = (set_devices_list (devices_list d ++ map device_row (resolved paths)) d,
     n + length (resolved paths),
     (log ++ lookup_warnings paths)%list).
Proof.
  revert d n log. induction paths as [| [path [a | e]] rest IH]; intros d n log.
  - cbn. rewrite !app_nil_r, Nat.add_0_r. destruct d; reflexivity.
  - cbn [foldl]. rewrite IH. unfold resolved, lookup_warnings. cbn.
    rewrite <- app_assoc, Nat.add_succ_r. destruct d; reflexivity.
  - cbn [foldl]. rewrite IH. unfold resolved, lookup_warnings. cbn.
    rewrite <- app_assoc. reflexivity.
Qed.

Lemma add_switches_eq (paths : list (string * Outcome string)) (d : t) :
  add_switches paths d
  = (set_devices_list (devices_list d ++ map device_row (resolved paths)) d,
     length (resolved paths), lookup_warnings paths).
Proof. unfold add_switches. rewrite add_switches_acc. reflexivity. Qed.

(** X16.  What [detect_paired_switches] puts in an empty list.  The rows
    that carry an address are exactly the addresses that could be read, in
    the order of the paired paths, and only those rows can be selected; one
    warning is logged for each path whose address could not be read.  With
    at least one address the first row is selected; with none the list
    holds a single notice, nothing is selected and "Use Selected Console"
    is disabled. *)
Theorem detection_lists_readable_addresses
    (paths : list (string * Outcome string)) (d : t) :
  devices_list d = [] -> current_row d = None ->
  let d' := fst (detect_paired_switches (Returns paths) d) in
  omap data (devices_list d') = resolved paths
  /\ Forall (fun item => selectable item = bool_decide (is_Some (data item)))
       (devices_list d')
  /\ snd (detect_paired_switches (Returns paths) d) = lookup_warnings paths
  /\ match resolved paths with
     | first :: _ =>
         devices_list d' = map device_row (resolved paths)
         /\ selectedItems d' = [device_row first]
     | [] =>
         length (devices_list d') = 1
         /\ selectedItems d' = [] /\ use_paired_btn d' = false
     end.
Proof.
  intros Hl Hr d'. subst d'. unfold detect_paired_switches.
  destruct paths as [| p rest].
  { cbn. rewrite Hl. cbn. repeat split; try reflexivity.
    - repeat constructor.
    - unfold selectedItems. cbn. rewrite Hr. reflexivity. }
  rewrite add_switches_eq, Hl. cbn [app].
  assert (Hrows : forall l, omap data (map device_row l) = l
                            /\ Forall (fun item =>
                                         selectable item = bool_decide (is_Some (data item)))
                                 (map device_row l)).
  { induction l as [| a l [IH1 IH2]]; [split; constructor |].
    split; [cbn; rewrite IH1; reflexivity | constructor; [reflexivity | exact IH2]]. }
  destruct (resolved (p :: rest)) as [| first more] eqn:Hres.
  - cbn. repeat split; try reflexivity. repeat constructor.
  - destruct (Hrows (first :: more)) as [H1 H2].
    cbn [length Nat.ltb Nat.leb fst snd devices_list set_current_row set_devices_list].
    repeat split; try assumption; reflexivity.
Qed.

Lemma detection_lists_readable_addresses_witness :
  let paths := [("/org/bluez/hci0/dev_AA", Returns "AA:BB:CC:DD:EE:FF");
                ("/org/bluez/hci0/dev_11", Throws "no Address property");
                ("/org/bluez/hci0/dev_22", Returns "22:33:44:55:66:77")] in
  omap data (devices_list (fst (init (Returns paths))))
  = ["AA:BB:CC:DD:EE:FF"; "22:33:44:55:66:77"].
Proof.
  intros paths. unfold init.
  apply (detection_lists_readable_addresses paths); reflexivity.
Defined.

Lemma detect_keeps_result (det : Detection) (d : t) :
  result (fst (detect_paired_switches det d)) = result d
  /\ start_fresh (fst (detect_paired_switches det d)) = start_fresh d
  /\ selected_address (fst (detect_paired_switches det d)) = selected_address d.
Proof.
  unfold detect_paired_switches. destruct det as [[| p rest] | e].
  - repeat split.
  - rewrite add_switches_eq.
    destruct (0 <? length (resolved (p :: rest)))%nat; repeat split.
  - repeat split.
Qed.

Lemma unpair_keeps_result yes ran (det : Detection) (d : t) :
  result (fst (unpair_device yes ran det d)) = result d
  /\ start_fresh (fst (unpair_device yes ran det d)) = start_fresh d
  /\ selected_address (fst (unpair_device yes ran det d)) = selected_address d.
Proof.
  unfold unpair_device.
  destruct (selectedItems d) as [| item items]; [repeat split |].
  destruct (data item) as [address |]; [| repeat split].
  destruct (negb (Py.truthy address)); [repeat split |].
  destruct (negb yes); [repeat split |].
  destruct ran as [rc out err | | | e]; [| repeat split ..].
  destruct (rc =? 0)%Z; [| repeat split].
  pose proof (detect_keeps_result det (clear d)) as H.
  destruct (detect_paired_switches det (clear d)) as [d1 log].
  cbn [fst] in *. exact H.
Qed.

Lemma selected_in_list (d : t) (item : Item) (items : list Item) :
  selectedItems d = item :: items -> item ∈ devices_list d.
Proof.
  unfold selectedItems. destruct (current_row d) as [row |]; [| discriminate].
  destruct (devices_list d !! row) as [it |] eqn:Hrow; [| discriminate].
  destruct (selectable it); [| discriminate].
  intros [= <- _]. eapply list_elem_of_lookup_2, Hrow.
Qed.


Lemma click_chosen (c : Click) (d : t) : chosen d -> chosen (click c d).
Proof.
  intros Hd. unfold click. destruct (result d) as [r |] eqn:Hres; [exact Hd |].
  destruct c as [row | | | yes ran det | |].
  - destruct (devices_list d !! row) as [item |]; [| exact Hd].
    destruct (selectable item); [| exact Hd].
    intros H. cbn in H. congruence.
  - intros H. cbn in H. congruence.
  - unfold use_paired_device.
    destruct (selectedItems d) as [| item items] eqn:Hsel; [exact Hd |].
    cbn [selected_address set_selected_address].
    destruct (data item) as [address |] eqn:Hdata; cbn [Py.truthy_opt].
    + destruct (Py.truthy address) eqn:Ht.
      * intros _. right. exists address, item. cbn.
        split; [reflexivity |]. split; [apply truthy_true, Ht |].
        split; [eapply selected_in_list, Hsel | exact Hdata].
      * intros H. cbn in H. congruence.
    + intros H. cbn in H. congruence.
  - intros H. destruct (unpair_keeps_result yes ran det d) as (Hr & _).
    rewrite Hr in H. congruence.
  - intros _. left. reflexivity.
  - intros H. cbn in H. discriminate.
Qed.

Lemma after_chosen (det : Detection) (clicks : list Click) : chosen (after det clicks).
Proof.
  unfold after.
  assert (H0 : chosen (fst (init det))).
  { intros H. unfold init in H.
    rewrite (proj1 (detect_keeps_result det _)) in H. discriminate. }
  revert H0. generalize (fst (init det)).
  induction clicks as [| c rest IH]; intros d Hd; [exact Hd |].
  cbn [foldl]. apply IH, click_chosen, Hd.
Qed.

(** X17.  However the user clicks, the dialog is never accepted without a
    choice: the answer the window reads is a rejection, a fresh pairing, or
    an address that is not empty and is the address of a row of the list.
    So the [elif dialog.selected_address] of the window never falls
    through after "Use Selected Console". *)
Theorem dialog_accepts_only_a_choice (det : Detection) (clicks : list Click) :
  match answer (after det clicks) with
  | DialogRaises _ => False
  | Rejected | Accepted true _ => True
  | Accepted false sel =>
      exists address item,
        sel = Some address /\ address <> ""
        /\ item ∈ devices_list (after det clicks) /\ data item = Some address
  end.
Proof.
  pose proof (after_chosen det clicks) as H. unfold chosen, answer in *.
  destruct (result (after det clicks)) as [[] |]; try exact I.
  destruct (start_fresh (after det clicks)) eqn:Hf; [exact I |].
  destruct (H eq_refl) as [Hx | Hx]; [discriminate | exact Hx].
Qed.

(** X18.  An accepted dialog always leads to one connection attempt, a
    rejected one to none: for a root process, [show_connection_dialog]
    starts exactly one worker when the dialog was left through "Pair New
    Console" or "Use Selected Console", without opening a second dialog,
    and leaves the window untouched when the dialog was cancelled. *)
Theorem dialog_answer_starts_one_worker (det : Detection) (clicks : list Click)
    (rest : list DialogAnswer) (g : GUI) :
  let r := show_connection_dialog 0 (answer (after det clicks) :: rest) g in
  dialogs_opened (trace_of r) = 1
  /\ match result (after det clicks) with
     | Some true => length (started_coros (trace_of r)) = 1
     | _ => state_of r = g /\ started_coros (trace_of r) = []
     end.
Proof.
  intros r. subst r. split; [apply dialog_opens_once |].
  pose proof (after_chosen det clicks) as H.
  unfold answer, chosen in *.
  destruct (result (after det clicks)) as [[] |]; [| split; reflexivity ..].
  destruct (start_fresh (after det clicks)).
  - rewrite dialog_fresh. reflexivity.
  - destruct (H eq_refl) as [Hx | (address & item & -> & Hne & _)]; [discriminate |].
    rewrite (dialog_selected _ _ _ Hne). reflexivity.
Qed.

Lemma detect_runs_nothing (det : Detection) (d : t) :
  commands (snd (detect_paired_switches det d)) = []
  /\ criticals (snd (detect_paired_switches det d)) = [].
Proof.
  unfold detect_paired_switches. destruct det as [[| p rest] | e]; try (split; reflexivity).
  rewrite add_switches_eq.
  assert (H : commands (lookup_warnings (p :: rest)) = []
              /\ criticals (lookup_warnings (p :: rest)) = []).
  { generalize (p :: rest). intros l.
    induction l as [| [path [a | e]] l IH]; [split; reflexivity | exact IH | exact IH]. }
  destruct (0 <? length (resolved (p :: rest)))%nat; exact H.
Qed.

Lemma detect_list_of_list (det : Detection) (d d' : t) :
  devices_list d = devices_list d' -> current_row d = current_row d' ->
  devices_list (fst (detect_paired_switches det d))
  = devices_list (fst (detect_paired_switches det d'))
  /\ current_row (fst (detect_paired_switches det d))
     = current_row (fst (detect_paired_switches det d')).
Proof.
  intros Hl Hr. unfold detect_paired_switches.
  destruct det as [[| p rest] | e].
  - cbn. rewrite Hl, Hr. split; reflexivity.
  - rewrite !add_switches_eq, Hl.
    destruct (0 <? length (resolved (p :: rest)))%nat; cbn; split; reflexivity.
  - cbn. rewrite Hl, Hr. split; reflexivity.
Qed.

(** X19.  "Unpair Selected" runs a command only after the user has
    confirmed, and only for the address of the selected row: the one
    command is [bluetoothctl remove <address>] with an address that is not
    empty.  Without a selected row carrying an address, or when the user
    answers No, nothing is run, no error box is shown and the dialog is
    unchanged. *)
Theorem unpair_runs_only_confirmed (yes : bool) (ran : RunResult)
    (det : Detection) (d : t) :
  let r := unpair_device yes ran det d in
  (forall args, args ∈ commands (snd r) ->
     yes = true
     /\ exists item address,
          selectedItems d = [item] /\ item ∈ devices_list d
          /\ data item = Some address /\ address <> ""
          /\ commands (snd r) = [["bluetoothctl"; "remove"; address]])
  /\ (commands (snd r) = [] -> fst r = d /\ criticals (snd r) = []).
Proof.
  intros r. subst r. unfold unpair_device.
  destruct (selectedItems d) as [| item items] eqn:Hsel.
  { split; [intros args H; cbn in H; inversion H | split; reflexivity]. }
  assert (Hone : items = []).
  { unfold selectedItems in Hsel. destruct (current_row d) as [row |]; [| discriminate].
    destruct (devices_list d !! row) as [i |]; [| discriminate].
    destruct (selectable i); congruence. }
  subst items.
  destruct (data item) as [address |] eqn:Hdata.
  2: { split; [intros args H; cbn in H; inversion H | split; reflexivity]. }
  destruct (Py.truthy address) eqn:Ht; cbn [negb].
  2: { split; [intros args H; cbn in H; inversion H | split; reflexivity]. }
  destruct yes; cbn [negb].
  2: { split; [intros args H; cbn in H; inversion H | split; reflexivity]. }
  assert (Hcmd : commands (snd match ran with
       | Completed returncode stdout stderr =>
           if (returncode =? 0)%Z
           then
            let
            '(d1, log) := detect_paired_switches det (clear d) in
             (d1,
              ([Question "Confirm Unpair"
                  ("Are you sure you want to unpair Nintendo Switch (" ++ address ++ ")?"
                   ++ nl ++ nl
                   ++ "This will remove the device from your Bluetooth paired devices list.");
                Subprocess ["bluetoothctl"; "remove"; address];
                Information "Success"
                  ("Successfully unpaired Nintendo Switch (" ++ address ++ ")")]
               ++ log)%list)
           else
            (d,
             [Question "Confirm Unpair"
                ("Are you sure you want to unpair Nintendo Switch (" ++ address ++ ")?"
                 ++ nl ++ nl
                 ++ "This will remove the device from your Bluetooth paired devices list.");
              Subprocess ["bluetoothctl"; "remove"; address];
              Critical "Unpair Failed"
                ("Failed to unpair device (" ++ address ++ "):" ++ nl
                 ++ error_msg stdout stderr)])
       | TimeoutExpired =>
           (d,
            [Question "Confirm Unpair"
               ("Are you sure you want to unpair Nintendo Switch (" ++ address ++ ")?"
                ++ nl ++ nl
                ++ "This will remove the device from your Bluetooth paired devices list.");
             Subprocess ["bluetoothctl"; "remove"; address];
             Critical "Timeout Error"
               "bluetoothctl command timed out. Please try again."])
       | FileNotFoundError =>
           (d,
            [Question "Confirm Unpair"
               ("Are you sure you want to unpair Nintendo Switch (" ++ address ++ ")?"
                ++ nl ++ nl
                ++ "This will remove the device from your Bluetooth paired devices list.");
             Subprocess ["bluetoothctl"; "remove"; address];
             Critical "Error"
               "bluetoothctl command not found. Please ensure BlueZ is installed."])
       | OtherError e =>
           (d,
            [Question "Confirm Unpair"
               ("Are you sure you want to unpair Nintendo Switch (" ++ address ++ ")?"
                ++ nl ++ nl
                ++ "This will remove the device from your Bluetooth paired devices list.");
             Subprocess ["bluetoothctl"; "remove"; address];
             DLog ERROR ("Error unpairing device: " ++ e);
             Critical "Error" ("Unexpected error while unpairing: " ++ e)])
       end) = [["bluetoothctl"; "remove"; address]]).
  { destruct ran as [returncode stdout stderr | | | e]; try reflexivity.
    destruct (returncode =? 0)%Z; [| reflexivity].
    pose proof (detect_runs_nothing det (clear d)) as [Hc _].
    destruct (detect_paired_switches det (clear d)) as [d1 log].
    cbn in Hc |- *. rewrite Hc. reflexivity. }
  split.
  - intros args _. split; [reflexivity |]. exists item, address.
    split; [reflexivity |]. split; [eapply selected_in_list, Hsel |].
    split; [exact Hdata |]. split; [apply truthy_true, Ht | exact Hcmd].
  - rewrite Hcmd. discriminate.
Qed.

Lemma unpair_runs_only_confirmed_witness :
  let d := fst (init (Returns [("/org/bluez/hci0/dev_AA", Returns "AA:BB:CC:DD:EE:FF")])) in
  selectedItems d = [device_row "AA:BB:CC:DD:EE:FF"]
  /\ fst (unpair_device false TimeoutExpired (Returns []) d) = d
  /\ criticals (snd (unpair_device false TimeoutExpired (Returns []) d)) = [].
Proof.
  intros d. split; [reflexivity |].
  apply (unpair_runs_only_confirmed false TimeoutExpired (Returns []) d). reflexivity.
Defined.

Lemma error_msg_not_empty (stdout stderr : string) : error_msg stdout stderr <> "".
Proof.
  unfold error_msg.
  destruct (Py.truthy (Py.strip stderr)) eqn:He; [apply truthy_true, He |].
  destruct (Py.truthy (Py.strip stdout)) eqn:Ho; [apply truthy_true, Ho | discriminate].
Qed.

(** X20.  What a confirmed "Unpair Selected" does to the dialog.  When
    [bluetoothctl] ends with return code 0 the list is emptied and filled
    again: list and selection are those of a newly opened dialog for the
    devices detected now, a success box is shown and no error box.  In
    every other case (another return code, timeout, command missing, any
    other exception) the dialog is left exactly as it was and one error
    box is shown; for a return code other than 0 its reason is never
    empty.  In no case is the dialog closed. *)
Theorem unpair_outcome (ran : RunResult) (det : Detection) (d : t)
    (item : Item) (address : string) :
  selectedItems d = [item] -> data item = Some address -> address <> "" ->
  let r := unpair_device true ran det d in
  result (fst r) = result d
  /\ match ran with
     | Completed returncode stdout stderr =>
         if (returncode =? 0)%Z then
           devices_list (fst r) = devices_list (fst (init det))
           /\ current_row (fst r) = current_row (fst (init det))
           /\ criticals (snd r) = []
           /\ Information "Success"
                ("Successfully unpaired Nintendo Switch (" ++ address ++ ")") ∈ snd r
         else
           fst r = d
           /\ error_msg stdout stderr <> ""
           /\ criticals (snd r)
              = [("Unpair Failed",
                  "Failed to unpair device (" ++ address ++ "):" ++ nl
                  ++ error_msg stdout stderr)]
     | _ => fst r = d /\ length (criticals (snd r)) = 1
     end.
Proof.
  intros Hsel Hdata Hne r. split; [apply unpair_keeps_result |].
  subst r. unfold unpair_device. rewrite Hsel, Hdata.
  apply truthy_true in Hne. rewrite Hne. cbn [negb].
  destruct ran as [returncode stdout stderr | | | e]; try (split; reflexivity).
  destruct (returncode =? 0)%Z.
  - pose proof (detect_runs_nothing det (clear d)) as [_ Hc].
    pose proof (detect_list_of_list det (clear d)
                  {| selected_address := None;
                     start_fresh := false;
                     devices_group := "Paired Consoles";
                     desc := "Found paired Nintendo Switch devices. Choose how to connect:";
                     devices_list := [];
                     current_row := None;
                     use_paired_btn := false;
                     unpair_btn := false;
                     result := None |} eq_refl eq_refl) as [Hl Hr].
    unfold init. rewrite <- Hl, <- Hr.
    destruct (detect_paired_switches det (clear d)) as [d1 log].
    cbn [fst snd] in *.
    split; [reflexivity |]. split; [reflexivity |].
    split; [cbn; exact Hc |].
    apply list_elem_of_further, list_elem_of_further, list_elem_of_here.
  - split; [reflexivity |]. split; [apply error_msg_not_empty | reflexivity].
Qed.

Lemma unpair_outcome_witness :
  let d := fst (init (Returns [("/org/bluez/hci0/dev_AA", Returns "AA:BB:CC:DD:EE:FF");
                               ("/org/bluez/hci0/dev_22", Returns "22:33:44:55:66:77")])) in
  let r := unpair_device true (Completed 0 "Device has been removed" "")
             (Returns [("/org/bluez/hci0/dev_22", Returns "22:33:44:55:66:77")]) d in
  result (fst r) = None
  /\ devices_list (fst r) = [device_row "22:33:44:55:66:77"].
Proof.
  intros d r.
  destruct (unpair_outcome (Completed 0 "Device has been removed" "")
              (Returns [("/org/bluez/hci0/dev_22", Returns "22:33:44:55:66:77")]) d
              (device_row "AA:BB:CC:DD:EE:FF") "AA:BB:CC:DD:EE:FF"
              eq_refl eq_refl ltac:(discriminate)) as (Hres & Hlist & _).
  split; [exact Hres | exact Hlist].
Defined.

(** ** The two dialogs of the window *)

Lemma startup_fresh sel rest g :
  show_startup_dialog 0 (Accepted true sel :: rest) g
  = (Ok tt, after_connect (set_reconnect_address None g) None,
     [DialogExec;
      Log INFO "Starting connection. Start fresh: True, Reconnect addr: None";
      WorkerStart (connect_worker (set_reconnect_address None g) None)]).
Proof.
  unfold show_startup_dialog, try_except.
  rewrite run_emit_bind, !run_modify_bind, connect_starts by (left; reflexivity).
  reflexivity.
Qed.

Lemma startup_selected sel rest g :
  sel <> "" ->
  show_startup_dialog 0 (Accepted false (Some sel) :: rest) g
  = show_connection_dialog 0 (Accepted false (Some sel) :: rest) g.
Proof.
  intros Hne. rewrite (dialog_selected _ _ _ Hne).
  unfold show_startup_dialog, try_except. rewrite (proj2 (truthy_true sel) Hne).
  rewrite run_emit_bind, !run_modify_bind, connect_starts
    by (right; apply (entered_truthy sel Hne)).
  reflexivity.
Qed.

(** X21.  The dialog shown at startup and the one behind the connect
    button treat an answer alike.  For a root process both start the same
    connection attempts and leave the same window, with two differences:
    after "Pair New Console" the startup dialog keeps the text of the
    address entry where the connection dialog empties it, and when the
    dialog itself fails only the connection dialog shows an error box. *)
Theorem startup_dialog_like_connection_dialog
    (answers : list DialogAnswer) (g : GUI) :
  let s := show_startup_dialog 0 answers g in
  let c := show_connection_dialog 0 answers g in
  started_coros (trace_of s) = started_coros (trace_of c)
  /\ match answers with
     | Accepted true _ :: _ =>
         reconnect_entry (state_of s) = reconnect_entry g
         /\ state_of c = set_reconnect_entry "" (state_of s)
     | DialogRaises e :: _ =>
         state_of s = state_of c
         /\ trace_of s = [DialogExec; Log ERROR ("Error in startup dialog: " ++ e)]
         /\ MsgCritical "Error" ("Failed to show connection dialog: " ++ e) ∈ trace_of c
     | _ => s = c
     end.
Proof.
  intros s c. subst s c.
  destruct answers as [| [e | | [] sel] rest].
  - split; reflexivity.
  - split; [reflexivity |]. split; [reflexivity |]. split; [reflexivity |].
    cbn. apply list_elem_of_further, list_elem_of_further, list_elem_of_here.
  - split; reflexivity.
  - rewrite startup_fresh, dialog_fresh. split; [reflexivity |].
    destruct g; split; reflexivity.
  - destruct sel as [sel |]; [| split; reflexivity].
    destruct (decide (sel = "")) as [-> | Hne]; [split; reflexivity |].
    rewrite (startup_selected _ _ _ Hne). split; reflexivity.
Qed.
